(** * Soccer player stat tracker: a shallow embedding and its properties

    The development follows the layers of the application:
    - [Js]: the fragment of JavaScript numbers, strings and completions the
      code relies on;
    - [Model]: goal events and persisted game records;
    - [Database]: [src/firebase/database.js] ([withRetry],
      [validateGameData], the [gameService] operations);
    - [Timers]: the two-half game timer component;
    - [GameStats]: the live session (goal log, stat counters, [saveGame]),
      in the version of the component that records the 1v1 and defensive
      counters, the ones [validateGameData] knows;
    - [GameHistory] and [LegacyGameHistory]: the edit form with an editable
      goal timeline, and the earlier form where the score is typed in;
    - [LegacyApp]: the first prototype of the stat counters.

    Every handler of a React component is modelled as a function from the
    component state before the event to the state after the re-render that
    follows it; wall-clock readings ([Date.now()]) are arguments. *)

From Stdlib Require Import ZArith QArith Qround String Ascii List Lia.
From Stdlib Require Import DecimalString Sorted Permutation.
From Stdlib Require Import OrderedTypeEx.
From stdpp Require Import base option list gmap strings fin_maps.

Local Open Scope Z_scope.

(* ===================================================================== *)
(** * JavaScript values used by the application *)
(* ===================================================================== *)

Module Js.

(** A JavaScript number.  Finite doubles are embedded in the rationals:
    comparisons and [Math.floor] are exact on doubles, and so are the sums
    and differences of the integers the application counts; sums and
    products of other finite numbers are taken without rounding.  The sign
    of zero is not distinguished. *)
Inductive JsNum := NaN | PosInfinity | NegInfinity | Finite (q : Q).

Definition ofZ (z : Z) : JsNum := Finite (inject_Z z).

Definition isNaN (v : JsNum) : bool :=
  match v with NaN => true | _ => false end.

(** [a < b] and [a > b]: false as soon as one side is [NaN]. *)
Definition lt (a b : JsNum) : bool :=
  match a, b with
  | NaN, _ | _, NaN => false
  | PosInfinity, _ => false
  | _, NegInfinity => false
  | NegInfinity, _ => true
  | _, PosInfinity => true
  | Finite x, Finite y => negb (Qle_bool y x)
  end.

Definition gt (a b : JsNum) : bool := lt b a.

(** [a >= b] *)
Definition ge (a b : JsNum) : bool :=
  match a, b with
  | NaN, _ | _, NaN => false
  | PosInfinity, _ => true
  | _, NegInfinity => true
  | NegInfinity, _ => false
  | _, PosInfinity => false
  | Finite x, Finite y => Qle_bool y x
  end.

Definition Math_floor (v : JsNum) : JsNum :=
  match v with
  | Finite q => Finite (inject_Z (Qfloor q))
  | other => other
  end.

(** Truthiness of a number: [0] and [NaN] are falsy. *)
Definition truthy (v : JsNum) : bool :=
  match v with
  | NaN => false
  | Finite q => negb (Qeq_bool q 0)
  | _ => true
  end.

(** [v || 0] *)
Definition orZero (v : JsNum) : JsNum := if truthy v then v else ofZ 0.

(** [a + b] *)
Definition add (a b : JsNum) : JsNum :=
  match a, b with
  | NaN, _ | _, NaN => NaN
  | PosInfinity, NegInfinity | NegInfinity, PosInfinity => NaN
  | PosInfinity, _ | _, PosInfinity => PosInfinity
  | NegInfinity, _ | _, NegInfinity => NegInfinity
  | Finite x, Finite y => Finite (x + y)
  end.

(** [a * b] *)
Definition mul (a b : JsNum) : JsNum :=
  let scaled (x : Q) (positive : bool) :=
    match Qnum x with
    | Z0 => NaN
    | Zpos _ => if positive then PosInfinity else NegInfinity
    | Zneg _ => if positive then NegInfinity else PosInfinity
    end in
  match a, b with
  | NaN, _ | _, NaN => NaN
  | Finite x, Finite y => Finite (x * y)
  | Finite x, PosInfinity | PosInfinity, Finite x => scaled x true
  | Finite x, NegInfinity | NegInfinity, Finite x => scaled x false
  | PosInfinity, PosInfinity | NegInfinity, NegInfinity => PosInfinity
  | PosInfinity, NegInfinity | NegInfinity, PosInfinity => NegInfinity
  end.

(** A number is a non-negative integer. *)
Definition isNonNegInteger (v : JsNum) : Prop :=
  exists z : Z, 0 <= z /\ v = ofZ z.

(** Truthiness of a string: only the empty string is falsy. *)
Definition truthyStr (s : string) : bool := negb (String.eqb s "").

(** [String(n)] for an integer. *)
Definition numToString (z : Z) : string :=
  if z <? 0
  then "-" +:+ NilZero.string_of_uint (N.to_uint (Z.to_N (- z)))
  else NilZero.string_of_uint (N.to_uint (Z.to_N z)).

(** [s.padStart(2, "0")] *)
Definition padStart2 (s : string) : string :=
  match String.length s with
  | O => "00" +:+ s
  | S O => "0" +:+ s
  | _ => s
  end.

(** [s.split(sep)] for a one-character separator: never empty. *)
Fixpoint split (sep : ascii) (s : string) : list string :=
  match s with
  | EmptyString => [EmptyString]
  | String c rest =>
      if Ascii.eqb c sep then EmptyString :: split sep rest
      else match split sep rest with
           | first :: others => String c first :: others
           | [] => [String c EmptyString]
           end
  end.

(** [s.startsWith(p)] *)
Definition startsWith (p s : string) : bool := String.prefix p s.

(** An error object: its class name, message and [code] property. *)
Record JsError := mkError {
  name : string;
  message : string;
  code : option string
}.

(** How the evaluation of a call ends: with a value, or with a thrown
    error (for an [async] function: resolved or rejected). *)
Inductive Completion (A : Type) :=
| Normal (value : A)
| Throw (error : JsError).
Arguments Normal {A} value.
Arguments Throw {A} error.

Definition isThrow {A} (c : Completion A) : bool :=
  match c with Throw _ => true | Normal _ => false end.

(** [[...new Set(items)]]: each value once, at its first position. *)
Definition unique (items : list string) : list string :=
  fold_left
    (fun set x => if existsb (String.eqb x) set then set else set ++ [x])
    items [].

End Js.
Import Js.

(* ===================================================================== *)
(** * Goal events and game records *)
(* ===================================================================== *)

Module Model.

(** An entry of the goal log: [{ time, minute, timestamp }]. *)
Record Goal := mkGoal {
  time : string;       (* "M:SS" game-clock position *)
  minute : Z;          (* Math.floor(clock / 60) *)
  timestamp : Z        (* Date.now() at insertion *)
}.

Record GoalHistory := mkGoalHistory {
  our : list Goal;
  their : list Goal
}.

Inductive GameResult := Win | Loss | Tie.

(** The stat counters of the live session. *)
Inductive StatName :=
| goalsLeft | goalsRight | shotsLeft | shotsRight
| assists | passCompletions | cornersTaken | cornerConversions
| offensive1v1Attempts | offensive1v1Won
| defensive1v1Attempts | defensive1v1Won
| fouls | cards | gkShotsSaved | gkGoalsAgainst
| freeKicksTaken | freeKicksMade
| defensiveTackles | defensiveFailures
| defensiveDisruption | defensiveDistribution.

(** The names listed in [numericFields] of [validateGameData]: the stat
    counters and the two score fields. *)
Inductive NumericField :=
| Stat (s : StatName)
| fOurGoals
| fTheirGoals.

Definition StatName_eqb (a b : StatName) : bool :=
  match a, b with
  | goalsLeft, goalsLeft | goalsRight, goalsRight
  | shotsLeft, shotsLeft | shotsRight, shotsRight
  | assists, assists | passCompletions, passCompletions
  | cornersTaken, cornersTaken | cornerConversions, cornerConversions
  | offensive1v1Attempts, offensive1v1Attempts
  | offensive1v1Won, offensive1v1Won
  | defensive1v1Attempts, defensive1v1Attempts
  | defensive1v1Won, defensive1v1Won
  | fouls, fouls | cards, cards
  | gkShotsSaved, gkShotsSaved | gkGoalsAgainst, gkGoalsAgainst
  | freeKicksTaken, freeKicksTaken | freeKicksMade, freeKicksMade
  | defensiveTackles, defensiveTackles
  | defensiveFailures, defensiveFailures
  | defensiveDisruption, defensiveDisruption
  | defensiveDistribution, defensiveDistribution => true
  | _, _ => false
  end.

Definition NumericField_eqb (a b : NumericField) : bool :=
  match a, b with
  | Stat x, Stat y => StatName_eqb x y
  | fOurGoals, fOurGoals | fTheirGoals, fTheirGoals => true
  | _, _ => false
  end.

(** A derived percentage, e.g. [goalConversionRate].  The code stores the
    string [(num / den * 100).toFixed(1) + '%'], or ['0%'] when the
    denominator is not positive; the record keeps the two operands the
    string is computed from. *)
Inductive Rate :=
| RateZero
| RateOf (num den : JsNum).

Definition rate (num den : JsNum) : Rate :=
  if gt den (ofZ 0) then RateOf num den else RateZero.

(** Timer fields of a record. *)
Record TimerSnapshot := mkTimerSnapshot {
  halftimeMinutes : Z;
  halftimeElapsed : string;
  halftimeRemaining : string;
  halftimeComplete : bool
}.

(** Derived statistics of a record. *)
Record Derived := mkDerived {
  totalGoals : option JsNum;
  totalShots : option JsNum;
  goalConversionRate : option Rate;
  cornerConversionRate : option Rate;
  offensive1v1Rate : option Rate;
  defensive1v1Rate : option Rate;
  freeKickConversionRate : option Rate;
  defensiveTackleRate : option Rate;
  defensiveDistributionRate : option Rate
}.

(** Metadata added by the database layer. *)
Record Metadata := mkMetadata {
  createdAt : option Z;
  lastModified : option Z;
  version : option string;
  userPin : option string
}.

(** A game record.  The JavaScript object is flat; its timer, derived and
    metadata fields are grouped here.  A field that a record may lack
    (records of older versions, records built by other callers) is an
    [option]: [None] is [undefined]. *)
Record GameRecord := mkGameRecord {
  id : option string;
  date : option string;
  playerName : option string;
  opponent : option string;
  gameType : option string;
  numeric : NumericField -> option JsNum;
  gameResult : option GameResult;
  goalHistory : option GoalHistory;
  timer : option TimerSnapshot;
  playerMinutesPlayed : option string;
  playerSecondsPlayed : option JsNum;
  gameNotes : option string;
  derived : Derived;
  meta : Metadata
}.

Definition with_id (i : option string) (g : GameRecord) : GameRecord :=
  mkGameRecord i (date g) (playerName g) (opponent g) (gameType g)
    (numeric g) (gameResult g) (goalHistory g) (timer g)
    (playerMinutesPlayed g) (playerSecondsPlayed g) (gameNotes g)
    (derived g) (meta g).

Definition with_numeric (n : NumericField -> option JsNum) (g : GameRecord)
  : GameRecord :=
  mkGameRecord (id g) (date g) (playerName g) (opponent g) (gameType g)
    n (gameResult g) (goalHistory g) (timer g)
    (playerMinutesPlayed g) (playerSecondsPlayed g) (gameNotes g)
    (derived g) (meta g).

Definition with_meta (m : Metadata) (g : GameRecord) : GameRecord :=
  mkGameRecord (id g) (date g) (playerName g) (opponent g) (gameType g)
    (numeric g) (gameResult g) (goalHistory g) (timer g)
    (playerMinutesPlayed g) (playerSecondsPlayed g) (gameNotes g)
    (derived g) m.

(** [g[field] = v] for a numeric field. *)
Definition set_field (field : NumericField) (v : JsNum) (g : GameRecord)
  : GameRecord :=
  with_numeric
    (fun f => if NumericField_eqb f field then Some v else numeric g f) g.

(** The score decides the result. *)
Definition resultOf (ourGoalCount theirGoalCount : JsNum) : GameResult :=
  if gt ourGoalCount theirGoalCount then Win
  else if lt ourGoalCount theirGoalCount then Loss
  else Tie.

End Model.
Import Model.

(* ===================================================================== *)
(** * The environment: remote store, wall clock, local storage *)
(* ===================================================================== *)

Module Env.

(** The Firestore SDK is an external collaborator: any implementation of
    its four document operations will do.  Each operation acts on the
    remote state and either returns or throws. *)
Class Firestore (Remote : Type) := {
  (* addDoc(collection(db, GAMES_COLLECTION), data): the new document id *)
  addDoc : GameRecord -> Remote -> Remote * Completion string;
  (* getDocs(query(..., where('userPin', '==', pin), orderBy, limit)) *)
  getDocs : string -> Remote -> Remote * Completion (list (string * GameRecord));
  (* updateDoc(doc(db, GAMES_COLLECTION, id), data) *)
  updateDoc : string -> GameRecord -> Remote -> Remote * Completion unit;
  (* deleteDoc(doc(db, GAMES_COLLECTION, id)) *)
  deleteDoc : string -> Remote -> Remote * Completion unit
}.

(** [localStorage].  The serialised game list kept under the key
    [soccerStatsSavedGames_<pin>] is stored as the list itself.
    [writable = false] stands for a storage whose [setItem] throws. *)
Record LocalStorage := mkLocalStorage {
  pinItem : option string;                       (* soccerApp_userPin *)
  gamesItems : gmap string (list GameRecord);    (* soccerStatsSavedGames_* *)
  lastSyncItem : option Z;                       (* soccerStatsLastSync *)
  writable : bool
}.

(** What [withRetry] does, in order: a ghost record of the attempts and of
    the [setTimeout] delays it waits for. *)
Inductive RetryEvent :=
| Attempt (n : Z)
| Sleep (ms : Z).

Record World (Remote : Type) := mkWorld {
  remote : Remote;
  clock : Z;                         (* Date.now(), milliseconds *)
  storage : LocalStorage;
  trace : list RetryEvent
}.
Arguments mkWorld {Remote}.
Arguments remote {Remote}.
Arguments clock {Remote}.
Arguments storage {Remote}.
Arguments trace {Remote}.

(** An asynchronous computation: it transforms the world and completes. *)
Definition Async (Remote A : Type) : Type :=
  World Remote -> World Remote * Completion A.

Section Monad.
Context {Remote : Type}.

Definition ret {A} (a : A) : Async Remote A := fun w => (w, Normal a).

Definition throw {A} (e : JsError) : Async Remote A := fun w => (w, Throw e).

Definition bind {A B} (m : Async Remote A) (k : A -> Async Remote B)
  : Async Remote B :=
  fun w =>
    match m w with
    | (w', Normal a) => k a w'
    | (w', Throw e) => (w', Throw e)
    end.

(** [try { m } catch (error) { handler }] *)
Definition tryCatch {A} (m : Async Remote A)
           (handler : JsError -> Async Remote A) : Async Remote A :=
  fun w =>
    match m w with
    | (w', Normal a) => (w', Normal a)
    | (w', Throw e) => handler e w'
    end.

Definition liftC {A} (c : Completion A) : Async Remote A := fun w => (w, c).

(** Run a Firestore operation on the remote part of the world. *)
Definition onRemote {A} (op : Remote -> Remote * Completion A)
  : Async Remote A :=
  fun w =>
    let (r, c) := op (remote w) in
    (mkWorld r (clock w) (storage w) (trace w), c).

Definition getClock : Async Remote Z := fun w => (w, Normal (clock w)).

Definition note (ev : RetryEvent) : Async Remote unit :=
  fun w =>
    (mkWorld (remote w) (clock w) (storage w) (trace w ++ [ev]), Normal tt).

(** [await new Promise(resolve => setTimeout(resolve, ms))] *)
Definition sleep (ms : Z) : Async Remote unit :=
  fun w =>
    (mkWorld (remote w) (clock w + ms) (storage w) (trace w ++ [Sleep ms]),
     Normal tt).
End Monad.

Declare Scope async_scope.
Delimit Scope async_scope with async.
Notation "'let*' x ':=' m 'in' k" := (bind m (fun x => k))
  (at level 10, x binder, k at level 200) : async_scope.

End Env.
Import Env.

(* ===================================================================== *)
(** * src/firebase/database.js *)
(* ===================================================================== *)

Module Database.

(** [new DatabaseError(message, code = 'unknown', originalError)]; the
    wrapped original error is never read and is not kept. *)
Definition DatabaseError (message : string) (code : option string) : JsError :=
  mkError "DatabaseError" message (Some (default "unknown" code)).

Definition codeIs (c : string) (error : JsError) : bool :=
  match code error with
  | Some c' => String.eqb c' c
  | None => false
  end.

Section Retry.
Context {Remote : Type}.
Local Open Scope async_scope.

(** The [for] loop of [withRetry]; [remaining] counts the iterations
    left before [attempt <= maxRetries] fails.  Falling out of the loop
    returns [undefined]. *)
Fixpoint retryLoop {A} (operation : Async Remote A) (maxRetries delay : Z)
         (remaining : nat) (attempt : Z) : Async Remote (option A) :=
  match remaining with
  | O => ret None
  | S k =>
      let* _ := note (Attempt attempt) in
      tryCatch (let* v := operation in ret (Some v))
        (fun error =>
           if (attempt =? maxRetries) || codeIs "permission-denied" error
           then throw error
           else
             (* Exponential backoff *)
             let* _ := sleep (delay * 2 ^ (attempt - 1)) in
             retryLoop operation maxRetries delay k (attempt + 1))
  end.

Definition withRetry {A} (operation : Async Remote A)
           (maxRetries delay : Z) : Async Remote (option A) :=
  retryLoop operation maxRetries delay (Z.to_nat maxRetries) 1.
End Retry.

(** Default arguments of [withRetry]; every call site relies on them. *)
Definition maxRetries_default : Z := 3.
Definition delay_default : Z := 1000.

(** ** validateGameData *)

Definition required : list (string * (GameRecord -> option string)) :=
  [("date", date); ("playerName", playerName)].

(** [!gameData[field]] for a string field *)
Definition falsyField (v : option string) : bool :=
  match v with
  | None => true
  | Some s => negb (truthyStr s)
  end.

Definition missing (gameData : GameRecord) : list string :=
  map fst (List.filter (fun field => falsyField (snd field gameData)) required).

Definition numericFields : list NumericField :=
  [Stat goalsLeft; Stat goalsRight; Stat shotsLeft; Stat shotsRight;
   Stat assists; Stat passCompletions; Stat cornersTaken;
   Stat cornerConversions;
   Stat offensive1v1Attempts; Stat offensive1v1Won;
   Stat defensive1v1Attempts; Stat defensive1v1Won;
   Stat fouls; Stat cards; Stat gkShotsSaved; Stat gkGoalsAgainst;
   fOurGoals; fTheirGoals;
   Stat freeKicksTaken; Stat freeKicksMade;
   Stat defensiveTackles; Stat defensiveFailures;
   Stat defensiveDisruption; Stat defensiveDistribution].

(** The coercion applied to a present numeric field ([Number] of a number
    is the number itself). *)
Definition sanitizeValue (value : JsNum) : JsNum :=
  if isNaN value || lt value (ofZ 0)
  then ofZ 0
  else Math_floor value.      (* Ensure integers *)

(** The body of [numericFields.forEach]. *)
Definition sanitizeField (sanitized : GameRecord) (field : NumericField)
  : GameRecord :=
  match numeric sanitized field with
  | None => sanitized
  | Some v => set_field field (sanitizeValue v) sanitized
  end.

Definition validateGameData (now : Z) (gameData : GameRecord)
  : Completion GameRecord :=
  let missing := missing gameData in
  if (0 <? length missing)%nat
  then Throw (DatabaseError
                ("Missing required fields: " +:+ String.concat ", " missing)
                None)
  else
    (* Sanitize and validate numeric fields *)
    let sanitized := fold_left sanitizeField numericFields gameData in
    (* Add metadata *)
    Normal (with_meta
              (mkMetadata (createdAt (meta sanitized)) (Some now)
                          (Some "1.0") (userPin (meta sanitized)))
              sanitized).

(** ** gameService *)

Section Service.
Context {Remote : Type} `{Firestore Remote}.
Local Open Scope async_scope.

(** [localStorage.getItem('soccerApp_userPin') || null] *)
Definition getUserPin (w : World Remote) : option string :=
  match pinItem (storage w) with
  | Some pin => if truthyStr pin then Some pin else None
  | None => None
  end.

(** [{ id: i, ...validated }]: an [id] carried by the data wins. *)
Definition withDocId (i : string) (validated : GameRecord) : GameRecord :=
  with_id (Some (default i (id validated))) validated.

(** Save a new game *)
Definition saveGame (gameData : GameRecord) : Async Remote (option GameRecord) :=
  fun w =>
    match getUserPin w with
    | None => (w, Throw (DatabaseError "No user PIN set" None))
    | Some pin =>
        tryCatch
          (let* validated := liftC (validateGameData (clock w) gameData) in
           let* created := getClock in
           let validated :=
             with_meta (mkMetadata (Some created)
                                   (lastModified (meta validated))
                                   (version (meta validated)) (Some pin))
                       validated in
           withRetry
             (let* docRefId := onRemote (addDoc validated) in
              ret (withDocId docRefId validated))
             maxRetries_default delay_default)
          (fun error =>
             throw (DatabaseError
                      ("Failed to save game: " +:+ message error)
                      (code error)))
          w
    end.

(** Load all games for this user PIN *)
Definition loadGames : Async Remote (option (list GameRecord)) :=
  fun w =>
    match getUserPin w with
    | None => (w, Throw (DatabaseError "No user PIN set" None))
    | Some pin =>
        tryCatch
          (withRetry
             (let* querySnapshot := onRemote (getDocs pin) in
              ret (map (fun doc => withDocId (fst doc) (snd doc))
                       querySnapshot))
             maxRetries_default delay_default)
          (fun error =>
             throw (DatabaseError
                      ("Failed to load games: " +:+ message error)
                      (code error)))
          w
    end.

(** Update an existing game *)
Definition updateGame (gameId : string) (gameData : GameRecord)
  : Async Remote (option GameRecord) :=
  fun w =>
    match getUserPin w with
    | None => (w, Throw (DatabaseError "No user PIN set" None))
    | Some pin =>
        tryCatch
          (let* validated := liftC (validateGameData (clock w) gameData) in
           let* modified := getClock in
           let validated :=
             with_meta (mkMetadata (createdAt (meta validated))
                                   (Some modified)
                                   (version (meta validated)) (Some pin))
                       validated in
           withRetry
             (let* _ := onRemote (updateDoc gameId validated) in
              ret (withDocId gameId validated))
             maxRetries_default delay_default)
          (fun error =>
             throw (DatabaseError
                      ("Failed to update game: " +:+ message error)
                      (code error)))
          w
    end.

(** Delete a game *)
Definition deleteGame (gameId : string) : Async Remote (option bool) :=
  tryCatch
    (withRetry
       (let* _ := onRemote (deleteDoc gameId) in ret true)
       maxRetries_default delay_default)
    (fun error =>
       throw (DatabaseError
                ("Failed to delete game: " +:+ message error)
                (code error))).
End Service.


(** ** The user PIN *)

Section Pin.
Context {Remote : Type}.

(** What [localStorage.setItem] throws when it fails (storage full or
    disabled). *)
Variable setItemError : JsError.

(** Set user PIN *)
Definition setUserPin (pin : string) : Async Remote unit :=
  fun w =>
    if writable (storage w)
    then (mkWorld (remote w) (clock w)
            (mkLocalStorage (Some pin) (gamesItems (storage w))
                            (lastSyncItem (storage w)) true)
            (trace w),
          Normal tt)
    else (w, Throw setItemError).

(** Clear user PIN (for logout/switch player) *)
Definition clearUserPin : Async Remote unit :=
  fun w =>
    (mkWorld (remote w) (clock w)
       (mkLocalStorage None (gamesItems (storage w))
                       (lastSyncItem (storage w)) (writable (storage w)))
       (trace w),
     Normal tt).

(** Check if user has a PIN set: [getUserPin() !== null] *)
Definition hasPin (w : World Remote) : bool :=
  match getUserPin w with
  | Some _ => true
  | None => false
  end.

(** Set the user's PIN *)
Definition setPin (pin : string) : Async Remote unit := setUserPin pin.

(** Get current PIN (for display purposes) *)
Definition getCurrentPin (w : World Remote) : option string := getUserPin w.

(** Clear current PIN (logout/switch player) *)
Definition clearPin : Async Remote unit := clearUserPin.
End Pin.

(** ** Bulk operations for import/export *)

(** [results = { success: [], failed: [] }]; an entry of [failed] is
    [{ game, error: error.message }]. *)
Record BulkResults := mkBulkResults {
  success : list (option GameRecord);
  failed : list (GameRecord * string)
}.

Section Bulk.
Context {Remote : Type} `{Firestore Remote}.
Local Open Scope async_scope.

(** The [for (const game of games)] loop. *)
Fixpoint bulkLoop (games : list GameRecord) (results : BulkResults)
  : Async Remote BulkResults :=
  match games with
  | [] => ret results
  | game :: rest =>
      let* results :=
        tryCatch
          (let* result := saveGame game in
           ret (mkBulkResults (success results ++ [result]) (failed results)))
          (fun error =>
             ret (mkBulkResults (success results)
                                (failed results ++ [(game, message error)]))) in
      bulkLoop rest results
  end.

Definition bulkSaveGames (games : list GameRecord) : Async Remote BulkResults :=
  bulkLoop games (mkBulkResults [] []).
End Bulk.

End Database.

(* ===================================================================== *)
(** * The Timers component (two halves) *)
(* ===================================================================== *)

Module Timers.

(** Component state: the [useState] cells, the two timing refs and the
    [halftimeMinutes] prop owned by the parent.  The audio refs only drive
    sounds and are left out. *)
Record State := mkState {
  seconds : Z;
  isRunning : bool;
  currentHalf : Z;
  startTimeRef : option Z;      (* null when not started *)
  accumulatedRef : Z;
  halftimeMinutes : Z
}.

Definition initial (halftimeMinutes : Z) : State :=
  mkState 0 false 1 None 0 halftimeMinutes.

(** Values derived at each render. *)
Definition totalHalftimeSeconds (t : State) : Z := halftimeMinutes t * 60.

Definition remainingSeconds (t : State) : Z :=
  Z.max 0 (totalHalftimeSeconds t - seconds t).

Definition isTimeUp (t : State) : bool := remainingSeconds t =? 0.

Definition totalGameSeconds (t : State) : Z :=
  if currentHalf t =? 1 then seconds t
  else totalHalftimeSeconds t + seconds t.

Definition isGameComplete (t : State) : bool :=
  (currentHalf t =? 2) && isTimeUp t.

(** [Date.now() - startTimeRef.current], where [null] counts as 0. *)
Definition sinceStart (now : Z) (t : State) : Z :=
  now - default 0 (startTimeRef t).

Definition startTimer (now : Z) (t : State) : State :=
  if negb (isRunning t) && negb (isTimeUp t)
  then mkState (seconds t) true (currentHalf t) (Some now)
               (accumulatedRef t) (halftimeMinutes t)
  else t.

Definition pauseTimer (now : Z) (t : State) : State :=
  if isRunning t
  then
    let additionalTime := sinceStart now t / 1000 in
    let newTotal := accumulatedRef t + additionalTime in
    mkState newTotal false (currentHalf t) (startTimeRef t)
            newTotal (halftimeMinutes t)
  else t.

(** Start second half *)
Definition startSecondHalf (t : State) : State :=
  mkState 0 false 2 None 0 (halftimeMinutes t).

(** Reset entire game *)
Definition resetTimer (t : State) : State :=
  mkState 0 false 1 None 0 (halftimeMinutes t).

(** The callback of the 100 ms interval, which exists only while
    [isRunning && !isTimeUp]. *)
Definition tick (now : Z) (t : State) : State :=
  if isRunning t && negb (isTimeUp t)
  then
    let elapsed := sinceStart now t / 1000 in
    let newTotal := accumulatedRef t + elapsed in
    let cappedTotal := Z.min newTotal (totalHalftimeSeconds t) in
    mkState cappedTotal
            (if cappedTotal >=? totalHalftimeSeconds t then false
             else isRunning t)
            (currentHalf t) (startTimeRef t) (accumulatedRef t)
            (halftimeMinutes t)
  else t.

(** Auto-pause when time is up (effect on [isTimeUp, isRunning]). *)
Definition autoPause (t : State) : State :=
  if isTimeUp t && isRunning t
  then mkState (seconds t) false (currentHalf t) (startTimeRef t)
               (accumulatedRef t) (halftimeMinutes t)
  else t.

(** The effect on [halftimeMinutes]: an out-of-range value is replaced by
    30 (which runs the effect once more), any other value resets the
    timer. *)
Definition halftimeMinutesEffect (t : State) : State :=
  if (halftimeMinutes t <? 1) || (halftimeMinutes t >? 90)
  then resetTimer (mkState (seconds t) (isRunning t) (currentHalf t)
                           (startTimeRef t) (accumulatedRef t) 30)
  else resetTimer t.

(** The parent's [setHalftimeMinutes]: a new value re-renders the
    component and runs the effect; the same value changes nothing. *)
Definition setHalftimeMinutes (m : Z) (t : State) : State :=
  if m =? halftimeMinutes t then t
  else halftimeMinutesEffect
         (mkState (seconds t) (isRunning t) (currentHalf t)
                  (startTimeRef t) (accumulatedRef t) m).

(** The duration [<select>]: [disabled={isRunning || currentHalf === 2}];
    a disabled control dispatches no change event. *)
Definition selectDisabled (t : State) : bool :=
  isRunning t || (currentHalf t =? 2).

Definition durationOptions : list Z := [30; 35; 40; 45].

Definition selectDuration (m : Z) (t : State) : State * Completion unit :=
  if selectDisabled t then (t, Normal tt)
  else (setHalftimeMinutes m t, Normal tt).

(** The buttons, and when each of them is rendered. *)
Inductive Button := StartStop | Reset | StartSecondHalf | NewGame.

Definition rendered (b : Button) (t : State) : bool :=
  match b with
  | StartStop =>
      ((currentHalf t =? 1) || (currentHalf t =? 2)) && negb (isTimeUp t)
  | Reset =>
      (currentHalf t =? 1) || ((currentHalf t =? 2) && negb (isTimeUp t))
  | StartSecondHalf => (currentHalf t =? 1) && isTimeUp t
  | NewGame => isGameComplete t
  end.

(** What the user and the interval can do to the timer. *)
Inductive Event :=
| Click (b : Button) (now : Z)
| Tick (now : Z)
| Select (m : Z).

Definition handle (ev : Event) (t : State) : State :=
  match ev with
  | Click b now =>
      if rendered b t then
        match b with
        | StartStop => if isRunning t then pauseTimer now t
                       else startTimer now t
        | Reset | NewGame => resetTimer t
        | StartSecondHalf => startSecondHalf t
        end
      else t
  | Tick now => tick now t
  | Select m => fst (selectDuration m t)
  end.

(** One event followed by the effects of the re-render. *)
Definition step (ev : Event) (t : State) : State := autoPause (handle ev t).

Definition run (evs : list Event) (t : State) : State :=
  fold_left (fun t ev => step ev t) evs t.

(** The vocabulary of the specification. *)
Definition elapsed (t : State) : Z := seconds t.
Definition halfDurationSeconds (t : State) : Z := totalHalftimeSeconds t.

End Timers.

(* ===================================================================== *)
(** * The PlayerTimer component *)
(* ===================================================================== *)

Module PlayerTimer.

(** Component state: the two [useState] cells and the two timing refs. *)
Record State := mkState {
  seconds : Z;
  isRunning : bool;
  startTimeRef : option Z;      (* timestamp when timer starts *)
  accumulatedRef : Z            (* total paused time carried forward *)
}.

Definition initial : State := mkState 0 false None 0.

(** [Date.now() - startTimeRef.current], where [null] counts as 0. *)
Definition sinceStart (now : Z) (t : State) : Z :=
  now - default 0 (startTimeRef t).

Definition startTimer (now : Z) (t : State) : State :=
  if negb (isRunning t)
  then mkState (seconds t) true (Some now) (accumulatedRef t)
  else t.

Definition pauseTimer (now : Z) (t : State) : State :=
  if isRunning t
  then
    (* add time since last start to accumulated *)
    let additionalTime := sinceStart now t / 1000 in
    let newTotal := accumulatedRef t + additionalTime in
    mkState newTotal false (startTimeRef t) newTotal
  else t.

Definition resetTimer (t : State) : State := mkState 0 false None 0.

(** The callback of the 100 ms interval, which exists only while
    [isRunning]. *)
Definition tick (now : Z) (t : State) : State :=
  if isRunning t
  then
    let elapsed := sinceStart now t / 1000 in
    let newTotal := accumulatedRef t + elapsed in
    mkState newTotal (isRunning t) (startTimeRef t) (accumulatedRef t)
  else t.

(** The two buttons and the interval as events. *)
Inductive Button := StartStop | Reset.

Inductive Event :=
| Click (b : Button) (now : Z)
| Tick (now : Z).

Definition handle (ev : Event) (t : State) : State :=
  match ev with
  | Click StartStop now => if isRunning t then pauseTimer now t
                           else startTimer now t
  | Click Reset _ => resetTimer t
  | Tick now => tick now t
  end.

Definition run (evs : list Event) (t : State) : State :=
  fold_left (fun t ev => handle ev t) evs t.

End PlayerTimer.

(* ===================================================================== *)
(** * The GameStats component: the live session *)
(* ===================================================================== *)

Module GameStats.

Inductive SyncStatus := idle | syncing | synced | error.

Inductive Side := us | them.

(** Component state.  [pendingRelease] holds the due times of the
    [setTimeout] callbacks that release the goal lock, and [alerts] the
    messages shown with [window.alert], oldest first.  The counters are
    the 22 cells that have [+] and [-] buttons; eight further cells
    (shots on and off frame, headers, penalty kicks) are declared but
    never read or written in this version and are left out.  An earlier
    version of the component has the same goal log, lock and [saveGame]
    over a smaller set of saved counters. *)
Record State := mkState {
  userPin : string;                      (* prop *)
  date : string;
  playerName : string;
  opponent : string;
  gameType : string;
  halftimeMinutes : Z;
  halftimeSeconds : Z;
  playerMinutes : Z;
  isAddingGoal : bool;
  ourGoals : list Goal;
  theirGoals : list Goal;
  stats : StatName -> Z;
  gameNotes : string;
  savedGames : list GameRecord;
  isSaving : bool;
  lastSyncTime : option Z;
  syncStatus : SyncStatus;
  pendingRelease : list Z;
  alerts : list string
}.

Definition noStats : StatName -> Z := fun _ => 0.

Definition initial (userPin date : string) : State :=
  mkState userPin date "" "" "League" 30 0 0 false [] [] noStats ""
          [] false None idle [] [].

Definition MAX_GOALS_PER_GAME : Z := 20.

(** Format seconds to MM:SS *)
Definition formatTime (totalSeconds : Z) : string :=
  let minutes := totalSeconds / 60 in
  let seconds := Z.rem totalSeconds 60 in
  numToString minutes +:+ ":" +:+ padStart2 (numToString seconds).

(** State updates shared by the handlers. *)
Definition setHalftimeSeconds (seconds : Z) (st : State) : State :=
  mkState (userPin st) (date st) (playerName st) (opponent st) (gameType st)
    (halftimeMinutes st) seconds (playerMinutes st)
    (isAddingGoal st) (ourGoals st) (theirGoals st) (stats st)
    (gameNotes st) (savedGames st) (isSaving st) (lastSyncTime st)
    (syncStatus st) (pendingRelease st) (alerts st).

Definition setGoalLog (adding : bool) (ours theirs : list Goal)
           (pending : list Z) (st : State) : State :=
  mkState (userPin st) (date st) (playerName st) (opponent st) (gameType st)
    (halftimeMinutes st) (halftimeSeconds st) (playerMinutes st)
    adding ours theirs (stats st)
    (gameNotes st) (savedGames st) (isSaving st) (lastSyncTime st)
    (syncStatus st) pending (alerts st).

Definition setStats (f : StatName -> Z) (st : State) : State :=
  mkState (userPin st) (date st) (playerName st) (opponent st) (gameType st)
    (halftimeMinutes st) (halftimeSeconds st) (playerMinutes st)
    (isAddingGoal st) (ourGoals st) (theirGoals st) f
    (gameNotes st) (savedGames st) (isSaving st) (lastSyncTime st)
    (syncStatus st) (pendingRelease st) (alerts st).

(** Callback receiving the timer updates *)
Definition handleHalftimeUpdate (seconds : Z) (st : State) : State :=
  setHalftimeSeconds seconds st.

(** ** The goal log *)

Definition newGoal (now : Z) (st : State) : Goal :=
  let goalTime := formatTime (halftimeSeconds st) in
  let goalMinute := halftimeSeconds st / 60 in
  mkGoal goalTime goalMinute now.

(** Both [async] functions return [undefined] on every path. *)
Definition addOurGoal (now : Z) (st : State) : State * Completion unit :=
  if isAddingGoal st
     || (MAX_GOALS_PER_GAME <=? Z.of_nat (length (ourGoals st)))
  then (st, Normal tt)
  else
    (setGoalLog true (ourGoals st ++ [newGoal now st]) (theirGoals st)
                (* Brief delay to prevent accidental double-clicks *)
                (pendingRelease st ++ [now + 500]) st,
     Normal tt).

Definition addTheirGoal (now : Z) (st : State) : State * Completion unit :=
  if isAddingGoal st
     || (MAX_GOALS_PER_GAME <=? Z.of_nat (length (theirGoals st)))
  then (st, Normal tt)
  else
    (setGoalLog true (ourGoals st) (theirGoals st ++ [newGoal now st])
                (pendingRelease st ++ [now + 500]) st,
     Normal tt).

(** [prevGoals.slice(0, -1)] *)
Definition dropLast {A} (l : list A) : list A := removelast l.

Definition removeLastOurGoal (st : State) : State :=
  if isAddingGoal st then st
  else setGoalLog (isAddingGoal st) (dropLast (ourGoals st)) (theirGoals st)
                  (pendingRelease st) st.

Definition removeLastTheirGoal (st : State) : State :=
  if isAddingGoal st then st
  else setGoalLog (isAddingGoal st) (ourGoals st) (dropLast (theirGoals st))
                  (pendingRelease st) st.

(** The event loop runs the [setTimeout] callbacks that are due:
    each of them is [() => setIsAddingGoal(false)]. *)
Definition timersFire (now : Z) (st : State) : State :=
  let due := List.filter (fun d => d <=? now) (pendingRelease st) in
  let later := List.filter (fun d => negb (d <=? now)) (pendingRelease st) in
  match due with
  | [] => st
  | _ :: _ => setGoalLog false (ourGoals st) (theirGoals st) later st
  end.

(** The four live goal operations and the timer callbacks as events. *)
Inductive GoalEvent :=
| AddOurGoal | AddTheirGoal | RemoveLastOurGoal | RemoveLastTheirGoal
| TimersFire.

Definition goalStep (now : Z) (ev : GoalEvent) (st : State) : State :=
  match ev with
  | AddOurGoal => fst (addOurGoal now st)
  | AddTheirGoal => fst (addTheirGoal now st)
  | RemoveLastOurGoal => removeLastOurGoal st
  | RemoveLastTheirGoal => removeLastTheirGoal st
  | TimersFire => timersFire now st
  end.

Definition runGoalEvents (evs : list (Z * GoalEvent)) (st : State) : State :=
  fold_left (fun st ev => goalStep (fst ev) (snd ev) st) evs st.

(** ** The goal timeline *)

(** A stable sort: [Array.prototype.sort] is stable, and the result of a
    stable sort is determined by the order alone.  [before a b] holds when
    the comparator puts [a] strictly before [b]. *)
Fixpoint insertSorted {A} (before : A -> A -> bool) (x : A) (l : list A)
  : list A :=
  match l with
  | [] => [x]
  | y :: l' => if before x y then x :: y :: l'
               else y :: insertSorted before x l'
  end.

Definition stableSort {A} (before : A -> A -> bool) (l : list A) : list A :=
  fold_left (fun sorted x => insertSorted before x sorted) l [].

Record TimelineEntry := mkEntry {
  goal : Goal;
  type : Side
}.

(** The displayed timeline:
    [[...ourGoals.map(g => ({...g, type: 'us'})),
      ...theirGoals.map(g => ({...g, type: 'them'}))]
       .sort((a, b) => a.timestamp - b.timestamp)] *)
Definition mergedTimeline (ours theirs : list Goal) : list TimelineEntry :=
  stableSort (fun a b => timestamp (goal a) - timestamp (goal b) <? 0)
    (map (fun g => mkEntry g us) ours ++ map (fun g => mkEntry g them) theirs).

Definition goalTimeline (st : State) : list TimelineEntry :=
  mergedTimeline (ourGoals st) (theirGoals st).

(** ** Stat counters *)

(** Helpers with validation *)
Definition increment (value : Z) : Z := value + 1.
Definition decrement (value : Z) : Z := if value >? 0 then value - 1 else 0.

Definition setStat (s : StatName) (v : Z) (st : State) : State :=
  setStats (fun s' => if StatName_eqb s' s then v else stats st s') st.

(** The [+] and [-] buttons of a counter:
    [increment(stat.setter, stat.value)], [decrement(stat.setter, stat.value)] *)
Definition clickIncrement (s : StatName) (st : State) : State :=
  setStat s (increment (stats st s)) st.

Definition clickDecrement (s : StatName) (st : State) : State :=
  setStat s (decrement (stats st s)) st.

Inductive StatEvent := Plus (s : StatName) | Minus (s : StatName).

Definition statStep (ev : StatEvent) (st : State) : State :=
  match ev with
  | Plus s => clickIncrement s st
  | Minus s => clickDecrement s st
  end.

Definition runStatEvents (evs : list StatEvent) (st : State) : State :=
  fold_left (fun st ev => statStep ev st) evs st.

(** ** Input sanitization *)

(** Strings are sequences of 8-bit code units. *)
Definition isWhiteSpace (c : ascii) : bool :=
  let n := nat_of_ascii c in
  ((9 <=? n) && (n <=? 13) || (n =? 32) || (n =? 160))%nat.

Fixpoint trimStart (s : string) : string :=
  match s with
  | String c rest => if isWhiteSpace c then trimStart rest else s
  | EmptyString => EmptyString
  end.

(** [/^[=+\-@]/.test(input.trim())]: only the first character that is not
    white space matters. *)
Definition dangerous (input : string) : bool :=
  match trimStart input with
  | String c _ =>
      Ascii.eqb c "=" || Ascii.eqb c "+" || Ascii.eqb c "-" || Ascii.eqb c "@"
  | EmptyString => false
  end.

Fixpoint removeControl (s : string) : string :=
  match s with
  | String c rest =>
      let n := nat_of_ascii c in
      if ((n <=? 31) || (n =? 127))%nat then removeControl rest
      else String c (removeControl rest)
  | EmptyString => EmptyString
  end.

Definition sanitizeInput (input : string) : string :=
  if negb (truthyStr input) then input
  else if dangerous input then "'" +:+ input
  else removeControl input.

(** ** Data validation helper *)

Definition validateStats (stats : StatName -> Z) : list string :=
  (if stats goalsLeft >? stats shotsLeft
   then ["Left foot goals exceed shots"] else []) ++
  (if stats goalsRight >? stats shotsRight
   then ["Right foot goals exceed shots"] else []) ++
  (if stats cornerConversions >? stats cornersTaken
   then ["Corner conversions exceed corners taken"] else []) ++
  (if stats offensive1v1Won >? stats offensive1v1Attempts
   then ["Offensive 1v1 won exceed attempts"] else []) ++
  (if stats defensive1v1Won >? stats defensive1v1Attempts
   then ["Defensive 1v1 won exceed attempts"] else []) ++
  (if stats freeKicksMade >? stats freeKicksTaken
   then ["Free kicks made exceed attempts"] else []) ++
  (if stats defensiveFailures >? stats defensiveTackles
   then ["Defensive failures exceed tackles"] else []) ++
  (if stats defensiveDistribution >? stats defensiveDisruption
   then ["Defensive distribution exceed disruption"] else []).

(** ** saveGame *)

Definition resetStats (st : State) (games : list GameRecord)
           (sync : option Z) (status : SyncStatus) (shown : list string)
  : State :=
  mkState (userPin st) (date st) (playerName st) (opponent st) (gameType st)
    (halftimeMinutes st) (halftimeSeconds st) (playerMinutes st)
    (isAddingGoal st) [] [] noStats "" games
    false sync status (pendingRelease st) shown.

(** The record assembled from the session (the object literal [newGame],
    identical in the [try] and in the [catch] branch up to [id] and
    [createdAt]). *)
Definition buildGame (st : State) : GameRecord :=
  let halftimeRemaining :=
    Z.max 0 (halftimeMinutes st * 60 - halftimeSeconds st) in
  let ourGoalCount := Z.of_nat (length (ourGoals st)) in
  let theirGoalCount := Z.of_nat (length (theirGoals st)) in
  (* Determine game result *)
  let gameResult :=
    if ourGoalCount >? theirGoalCount then Win
    else if ourGoalCount <? theirGoalCount then Loss
    else Tie in
  let s := stats st in
  mkGameRecord
    None
    (Some (sanitizeInput (date st)))
    (Some (sanitizeInput (playerName st)))
    (Some (sanitizeInput (opponent st)))
    (Some (gameType st))
    (fun f => match f with
              | Stat x => Some (ofZ (s x))
              | fOurGoals => Some (ofZ ourGoalCount)
              | fTheirGoals => Some (ofZ theirGoalCount)
              end)
    (Some gameResult)
    (Some (mkGoalHistory (ourGoals st) (theirGoals st)))
    (Some (mkTimerSnapshot
             (halftimeMinutes st)
             (formatTime (halftimeSeconds st))
             (formatTime halftimeRemaining)
             (halftimeSeconds st >=? halftimeMinutes st * 60)))
    (Some (formatTime (playerMinutes st)))
    (Some (ofZ (playerMinutes st)))
    (Some (sanitizeInput (gameNotes st)))
    (mkDerived
       (Some (ofZ (s goalsLeft + s goalsRight)))
       (Some (ofZ (s shotsLeft + s shotsRight)))
       (Some (rate (ofZ (s goalsLeft + s goalsRight))
                   (ofZ (s shotsLeft + s shotsRight))))
       (Some (rate (ofZ (s cornerConversions)) (ofZ (s cornersTaken))))
       (Some (rate (ofZ (s offensive1v1Won)) (ofZ (s offensive1v1Attempts))))
       (Some (rate (ofZ (s defensive1v1Won)) (ofZ (s defensive1v1Attempts))))
       (Some (rate (ofZ (s freeKicksMade)) (ofZ (s freeKicksTaken))))
       (Some (rate (ofZ (s defensiveTackles - s defensiveFailures))
                   (ofZ (s defensiveTackles))))
       (Some (rate (ofZ (s defensiveDistribution))
                   (ofZ (s defensiveDisruption)))))
    (mkMetadata None None None None).

(** The fallback record of the [catch] branch:
    [id: `local_${Date.now()}`] and [createdAt: new Date().toISOString()]. *)
Definition localGame (now : Z) (st : State) : GameRecord :=
  let g := buildGame st in
  with_id (Some ("local_" +:+ numToString now))
    (with_meta (mkMetadata (Some now) (lastModified (meta g))
                           (version (meta g)) (Model.userPin (meta g))) g).

Definition savedGamesKey (pin : string) : string :=
  "soccerStatsSavedGames_" +:+ pin.

Definition saveFailedMessage (error : JsError) : string :=
  if String.eqb (name error) "DatabaseError"
  then "Save failed: " +:+ message error +:+
       ". Your data has been saved locally and will sync when connection is restored."
  else "Failed to save game to cloud. Data saved locally and will sync later.".

Section Save.
Context {Remote : Type} `{Firestore Remote}.

(** Fallback save to localStorage; a failing [setItem] is only logged. *)
Definition saveToLocalStorage (pin : string) (games : list GameRecord)
           (w : World Remote) : World Remote :=
  if writable (storage w)
  then mkWorld (remote w) (clock w)
         (mkLocalStorage (pinItem (storage w))
            (<[savedGamesKey pin := games]> (gamesItems (storage w)))
            (Some (clock w)) true)
         (trace w)
  else w.

(** [confirmAnswer] is what the user answers to [window.confirm] when
    the validation warnings are shown. *)
Definition saveGame (confirmAnswer : bool) (st : State) (w : World Remote)
  : State * World Remote :=
  let warnings := validateStats (stats st) in
  if (0 <? length warnings)%nat && negb confirmAnswer then (st, w)
  else
    match Database.saveGame (buildGame st) w with
    | (w1, Normal (Some savedGame)) =>
        (* Save to Firebase succeeded *)
        let updatedGames := savedGame :: savedGames st in
        let w2 := saveToLocalStorage (userPin st) updatedGames w1 in
        (resetStats st updatedGames (Some (clock w2)) synced (alerts st),
         w2)
    | (w1, Normal None) =>
        (* [withRetry] fell out of its loop: with three attempts this
           never happens (see [saveGame_never_undefined]) *)
        let w2 := saveToLocalStorage (userPin st) (savedGames st) w1 in
        (resetStats st (savedGames st) (Some (clock w2)) synced
                    (alerts st),
         w2)
    | (w1, Throw e) =>
        (* Save locally as fallback *)
        let newGame := localGame (clock w1) st in
        let updatedGames := newGame :: savedGames st in
        let w2 := saveToLocalStorage (userPin st) updatedGames w1 in
        (* Reset stats anyway *)
        (resetStats st updatedGames (lastSyncTime st) error
                    (alerts st ++ [saveFailedMessage e]),
         w2)
    end.

(** [game.id && !game.id.startsWith('local_')] *)
Definition isRemoteBacked (game : GameRecord) : bool :=
  match id game with
  | Some i => truthyStr i && negb (startsWith "local_" i)
  | None => false
  end.

(** Handle game updates from GameHistory component.  [gameIndex] is the
    result of [findIndex]: [None] stands for [-1].  Reading [game.id] of
    a missing game throws a [TypeError], which the [catch] handles. *)
Definition handleGameUpdate (gameIndex : option nat)
           (updatedGame : GameRecord) (st : State) (w : World Remote)
  : State * World Remote :=
  let failed (w1 : World Remote) :=
    (* Still update locally *)
    let newSavedGames :=
      match gameIndex with
      | Some i => <[i := updatedGame]> (savedGames st)
      | None => savedGames st
      end in
    (mkState (userPin st) (date st) (playerName st) (opponent st)
       (gameType st) (halftimeMinutes st) (halftimeSeconds st)
       (playerMinutes st) (isAddingGoal st) (ourGoals st) (theirGoals st)
       (stats st) (gameNotes st) newSavedGames (isSaving st)
       (lastSyncTime st) (syncStatus st) (pendingRelease st)
       (alerts st ++ ["Failed to update game. Changes saved locally."]),
     saveToLocalStorage (userPin st) newSavedGames w1) in
  match gameIndex ≫= (fun i => savedGames st !! i) with
  | None => failed w
  | Some game =>
      let (w1, c) :=
        if isRemoteBacked game
        then Database.updateGame (default "" (id game)) updatedGame w
        else (w, Normal None) in
      match c, gameIndex with
      | Normal _, Some i =>
          (* Update local state *)
          let newSavedGames :=
            <[i := with_id (id game) updatedGame]> (savedGames st) in
          (mkState (userPin st) (date st) (playerName st) (opponent st)
             (gameType st) (halftimeMinutes st) (halftimeSeconds st)
             (playerMinutes st) (isAddingGoal st) (ourGoals st)
             (theirGoals st) (stats st) (gameNotes st) newSavedGames
             (isSaving st) (lastSyncTime st) (syncStatus st)
             (pendingRelease st) (alerts st),
           saveToLocalStorage (userPin st) newSavedGames w1)
      | _, _ => failed w1
      end
  end.
End Save.

(** ** The exported goal timeline (generateEnhancedCSV) *)

(** [parts.join(sep)] *)
Definition join (sep : string) (parts : list string) : string :=
  String.concat sep parts.

(** The constant [goalTimeline] computed for a game: the default [sort()]
    orders the strings by their code units. *)
Definition goalTimelineText (game : GameRecord) : string :=
  match goalHistory game with
  | Some gh =>
      join "; "
        (stableSort String.ltb
           (map (fun g => time g +:+ " Us") (our gh) ++
            map (fun g => time g +:+ " Them") (their gh)))
  | None => "No goals recorded"
  end.

(** The cell ['Goal Timeline'] of the exported row. *)
Definition exportGoalTimeline (game : GameRecord) : string :=
  sanitizeInput (goalTimelineText game).


(** ** Game information and player time *)

Definition setGameInfo (d p o ty notes : string) (st : State) : State :=
  mkState (userPin st) d p o ty
    (halftimeMinutes st) (halftimeSeconds st) (playerMinutes st)
    (isAddingGoal st) (ourGoals st) (theirGoals st) (stats st)
    notes (savedGames st) (isSaving st) (lastSyncTime st)
    (syncStatus st) (pendingRelease st) (alerts st).

(** The [onChange] handlers of the game information inputs and of the
    notes: the text inputs store the sanitized value. *)
Definition changeDate (value : string) (st : State) : State :=
  setGameInfo value (playerName st) (opponent st) (gameType st)
              (gameNotes st) st.

Definition changePlayerName (value : string) (st : State) : State :=
  setGameInfo (date st) (sanitizeInput value) (opponent st) (gameType st)
              (gameNotes st) st.

Definition changeOpponent (value : string) (st : State) : State :=
  setGameInfo (date st) (playerName st) (sanitizeInput value) (gameType st)
              (gameNotes st) st.

Definition changeGameType (value : string) (st : State) : State :=
  setGameInfo (date st) (playerName st) (opponent st) value
              (gameNotes st) st.

Definition changeGameNotes (value : string) (st : State) : State :=
  setGameInfo (date st) (playerName st) (opponent st) (gameType st)
              (sanitizeInput value) st.

Definition handlePlayerTimeUpdate (seconds : Z) (st : State) : State :=
  mkState (userPin st) (date st) (playerName st) (opponent st) (gameType st)
    (halftimeMinutes st) (halftimeSeconds st) seconds
    (isAddingGoal st) (ourGoals st) (theirGoals st) (stats st)
    (gameNotes st) (savedGames st) (isSaving st) (lastSyncTime st)
    (syncStatus st) (pendingRelease st) (alerts st).

(** The effects by which the two timers report to the session:
    [onTimeChange(totalGameSeconds)] of [Timers], with
    [onTimeChange = handleHalftimeUpdate], and [onTimeChange(seconds)] of
    [PlayerTimer], with [onTimeChange = handlePlayerTimeUpdate]. *)
Definition onHalftimeChange (t : Timers.State) (st : State) : State :=
  handleHalftimeUpdate (Timers.totalGameSeconds t) st.

Definition onPlayerTimeChange (p : PlayerTimer.State) (st : State) : State :=
  handlePlayerTimeUpdate (PlayerTimer.seconds p) st.

(** ** Names offered by the inputs *)

Fixpoint trimEnd (s : string) : string :=
  match s with
  | EmptyString => EmptyString
  | String c rest =>
      match trimEnd rest with
      | EmptyString =>
          if isWhiteSpace c then EmptyString else String c EmptyString
      | kept => String c kept
      end
  end.

(** [s.trim()] *)
Definition trim (s : string) : string := trimEnd (trimStart s).

(** [name && name.trim() !== ''] *)
Definition isName (name : string) : bool :=
  truthyStr name && negb (String.eqb (trim name) "").

(** Get unique player names and opponents from saved games.  A record
    without the field yields [undefined], which the filter drops; the
    default [sort()] orders the strings by their code units. *)
Definition getUniquePlayerNames (st : State) : list string :=
  let names := List.filter isName (omap Model.playerName (savedGames st)) in
  stableSort String.ltb (unique names).

Definition getUniqueOpponents (st : State) : list string :=
  let opponents := List.filter isName (omap Model.opponent (savedGames st)) in
  stableSort String.ltb (unique opponents).

(** ** Text cells of the exported rows *)

(** [sanitizeInput(value) || fallback]: the cells ['Date'],
    ['Player Name'], ['Opponent'] and ['Game Notes'] of
    [generateEnhancedCSV]; [sanitizeInput(undefined)] is [undefined]. *)
Definition sanitizedOr (value : option string) (fallback : string) : string :=
  match value with
  | Some s =>
      let sanitized := sanitizeInput s in
      if truthyStr sanitized then sanitized else fallback
  | None => fallback
  end.

(** ** Loading and deleting saved games *)

Definition setSavedGames (games : list GameRecord) (sync : option Z)
           (status : SyncStatus) (shown : list string) (st : State) : State :=
  mkState (userPin st) (date st) (playerName st) (opponent st) (gameType st)
    (halftimeMinutes st) (halftimeSeconds st) (playerMinutes st)
    (isAddingGoal st) (ourGoals st) (theirGoals st) (stats st)
    (gameNotes st) games (isSaving st) sync status (pendingRelease st) shown.

(** [savedGames.filter((_, index) => index !== gameIndex)]; [None]
    stands for the index [-1]. *)
Definition withoutIndex (gameIndex : option nat) (games : list GameRecord)
  : list GameRecord :=
  map snd
    (List.filter
       (fun p => negb (bool_decide (Some (fst p) = gameIndex)))
       (imap (fun index game => (index, game)) games)).

(** The session together with the cell [isLoading], which only the
    loading of the games writes. *)
Record View := mkView {
  session : State;
  isLoading : bool
}.

(** [{ ...game, date: game.date || '', createdAt: game.createdAt ? ... :
    new Date().toISOString() }]; a [createdAt] that is present is a valid
    date and is kept. *)
Definition compatible (now : Z) (game : GameRecord) : GameRecord :=
  mkGameRecord (id game) (Some (default "" (Model.date game)))
    (Model.playerName game) (Model.opponent game) (Model.gameType game)
    (numeric game) (gameResult game) (goalHistory game) (timer game)
    (playerMinutesPlayed game) (playerSecondsPlayed game)
    (Model.gameNotes game) (derived game)
    (mkMetadata (Some (default now (createdAt (meta game))))
                (lastModified (meta game)) (version (meta game))
                (Model.userPin (meta game))).

Section Games.
Context {Remote : Type} `{Firestore Remote}.

(** Load games from Firebase; on a failure the games kept in local
    storage for this PIN are shown instead.  Reading [games.map] of an
    [undefined] result throws, which the [catch] handles as well. *)
Definition loadGamesFromFirebase (v : View) (w : World Remote)
  : View * World Remote :=
  let st := session v in
  let fallback (w1 : World Remote) :=
    let games :=
      match gamesItems (storage w1) !! savedGamesKey (userPin st) with
      | Some fallbackGames => fallbackGames
      | None => savedGames st
      end in
    (mkView (setSavedGames games (lastSyncTime st) error (alerts st) st) false,
     w1) in
  match Database.loadGames w with
  | (w1, Normal (Some games)) =>
      let compatibleGames := map (compatible (clock w1)) games in
      (mkView (setSavedGames compatibleGames (Some (clock w1)) synced
                             (alerts st) st)
              false,
       w1)
  | (w1, Normal None) => fallback w1
  | (w1, Throw _) => fallback w1
  end.

(** Initial load: [if (userPin) loadGamesFromFirebase()] *)
Definition initialLoad (v : View) (w : World Remote) : View * World Remote :=
  if truthyStr (userPin (session v)) then loadGamesFromFirebase v w
  else (v, w).

(** Handle game deletion from GameHistory component.  Reading [game.id]
    of a missing game throws a [TypeError], which the [catch] handles;
    the game is removed from the list on both paths. *)
Definition handleGameDelete (gameIndex : option nat) (st : State)
           (w : World Remote) : State * World Remote :=
  let newSavedGames := withoutIndex gameIndex (savedGames st) in
  let removed (shown : list string) (w1 : World Remote) :=
    (setSavedGames newSavedGames (lastSyncTime st) (syncStatus st) shown st,
     saveToLocalStorage (userPin st) newSavedGames w1) in
  let failed :=
    removed (alerts st ++
             ["Failed to delete game from cloud. Removed locally."]) in
  match gameIndex ≫= (fun i => savedGames st !! i) with
  | None => failed w
  | Some game =>
      let (w1, c) :=
        if isRemoteBacked game
        then Database.deleteGame (default "" (id game)) w
        else (w, Normal None) in
      match c with
      | Normal _ => removed (alerts st) w1
      | Throw _ => failed w1
      end
  end.
End Games.

(** ** The record of the season (dashboard and summary row) *)

(** [g.gameResult === 'Win'] and the like: a game without a result has
    none of the three. *)
Definition isResult (value : option GameResult) (r : GameResult) : bool :=
  match value, r with
  | Some Win, Win | Some Loss, Loss | Some Tie, Tie => true
  | _, _ => false
  end.

Definition wins (savedGames : list GameRecord) : nat :=
  length (List.filter (fun g => isResult (gameResult g) Win) savedGames).

Definition losses (savedGames : list GameRecord) : nat :=
  length (List.filter (fun g => isResult (gameResult g) Loss) savedGames).

Definition ties (savedGames : list GameRecord) : nat :=
  length (List.filter (fun g => isResult (gameResult g) Tie) savedGames).
End GameStats.

(* ===================================================================== *)
(** * The GameHistory component: editing a saved game *)
(* ===================================================================== *)

(** Definitions shared by the two versions of the edit form. *)
Module EditCommon.

(** [v || 0] for a field that may be absent *)
Definition orZeroOpt (v : option JsNum) : JsNum :=
  match v with
  | Some n => orZero n
  | None => ofZ 0
  end.

(** [s || ''] *)
Definition orEmpty (v : option string) : string := default "" v.

(** A record without any field: the spread of [undefined]. *)
Definition emptyGame : GameRecord :=
  mkGameRecord None None None None None (fun _ => None) None None None
    None None None
    (mkDerived None None None None None None None None None)
    (mkMetadata None None None None).

(** The games shown, each with its index in [savedGames]: the index stands
    for the identity of the object, which [findIndex(g => g === game)]
    searches for. *)
Definition filteredGames (filterOpponent : string)
           (savedGames : list GameRecord) : list (nat * GameRecord) :=
  let indexed := imap (fun i g => (i, g)) savedGames in
  if truthyStr filterOpponent
  then List.filter
         (fun p => match opponent (snd p) with
                   | Some o => String.eqb o filterOpponent
                   | None => false
                   end)
         indexed
  else indexed.

(** The numeric inputs of the form, as initialised by [startEditing]. *)
Definition formFields : list NumericField :=
  [fOurGoals; fTheirGoals;
   Stat goalsLeft; Stat goalsRight; Stat shotsLeft; Stat shotsRight;
   Stat assists; Stat passCompletions; Stat cornersTaken;
   Stat cornerConversions; Stat fouls; Stat cards;
   Stat gkShotsSaved; Stat gkGoalsAgainst].

Definition isFormField (f : NumericField) : bool :=
  existsb (NumericField_eqb f) formFields.

Definition initialNumbers (game : GameRecord) : NumericField -> option JsNum :=
  fun f => if isFormField f then Some (orZeroOpt (numeric game f)) else None.

(** The three warnings of the validation inside [saveEdit]. *)
Definition validateStats (numbers : NumericField -> option JsNum)
  : list string :=
  let n f := orZeroOpt (numbers (Stat f)) in
  (if gt (n goalsLeft) (n shotsLeft)
   then ["Left foot goals exceed shots"] else []) ++
  (if gt (n goalsRight) (n shotsRight)
   then ["Right foot goals exceed shots"] else []) ++
  (if gt (n cornerConversions) (n cornersTaken)
   then ["Corner conversions exceed corners taken"] else []).

(** [{...game.numeric, ...form.numeric}] *)
Definition spreadNumbers (game form : NumericField -> option JsNum)
  : NumericField -> option JsNum :=
  fun f => match form f with
           | Some v => Some v
           | None => game f
           end.

(** The derived values recomputed by [saveEdit]; the other rates are
    those of the game. *)
Definition recomputed (numbers : NumericField -> option JsNum)
           (game : GameRecord) : Derived :=
  let n f := orZeroOpt (numbers (Stat f)) in
  mkDerived
    (Some (add (n goalsLeft) (n goalsRight)))
    (Some (add (n shotsLeft) (n shotsRight)))
    (Some (rate (add (n goalsLeft) (n goalsRight))
                (add (n shotsLeft) (n shotsRight))))
    (Some (rate (n cornerConversions) (n cornersTaken)))
    (offensive1v1Rate (derived game))
    (defensive1v1Rate (derived game))
    (freeKickConversionRate (derived game))
    (defensiveTackleRate (derived game))
    (defensiveDistributionRate (derived game)).

End EditCommon.

(** The edit form with an editable goal timeline. *)
Module GameHistory.
Import EditCommon.

Record EditForm := mkForm {
  date : string;
  playerName : string;
  opponent : string;
  numbers : NumericField -> option JsNum;
  playerMinutesPlayed : string;
  gameNotes : string;
  goalHistory : GoalHistory
}.

Inductive FormField :=
| fDate | fPlayerName | fOpponent | fPlayerMinutesPlayed | fGameNotes
| fNumber (f : NumericField).

Definition startEditing (game : GameRecord) : EditForm :=
  mkForm
    (orEmpty (Model.date game))
    (orEmpty (Model.playerName game))
    (orEmpty (Model.opponent game))
    (initialNumbers game)
    (default "0:00"
       (match Model.playerMinutesPlayed game with
        | Some s => if truthyStr s then Some s else None
        | None => None
        end))
    (orEmpty (Model.gameNotes game))
    (match Model.goalHistory game with
     | Some gh => mkGoalHistory (our gh) (their gh)
     | None => mkGoalHistory [] []
     end).

Definition setNumber (f : NumericField) (v : JsNum) (form : EditForm)
  : EditForm :=
  mkForm (date form) (playerName form) (opponent form)
    (fun f' => if NumericField_eqb f' f then Some v else numbers form f')
    (playerMinutesPlayed form) (gameNotes form) (goalHistory form).

Definition setGoals (f : NumericField) (gh : GoalHistory) (form : EditForm)
  : EditForm :=
  mkForm (date form) (playerName form) (opponent form)
    (fun f' => if NumericField_eqb f' f
               then Some (ofZ (Z.of_nat
                      (match f with
                       | fTheirGoals => length (their gh)
                       | _ => length (our gh)
                       end)))
               else numbers form f')
    (playerMinutesPlayed form) (gameNotes form) gh.

(** Goal editing functions *)
Definition addOurGoal (now : Z) (form : EditForm) : EditForm :=
  let newGoal := mkGoal "0:00" 0 now in
  setGoals fOurGoals
    (mkGoalHistory (our (goalHistory form) ++ [newGoal])
                   (their (goalHistory form)))
    form.

Definition addTheirGoal (now : Z) (form : EditForm) : EditForm :=
  let newGoal := mkGoal "0:00" 0 now in
  setGoals fTheirGoals
    (mkGoalHistory (our (goalHistory form))
                   (their (goalHistory form) ++ [newGoal]))
    form.

(** [list.filter((_, i) => i !== index)] *)
Definition removeAt {A} (index : nat) (l : list A) : list A :=
  map snd (List.filter (fun p => negb (Nat.eqb (fst p) index))
                       (imap (fun i x => (i, x)) l)).

Definition removeOurGoal (index : nat) (form : EditForm) : EditForm :=
  setGoals fOurGoals
    (mkGoalHistory (removeAt index (our (goalHistory form)))
                   (their (goalHistory form)))
    form.

Definition removeTheirGoal (index : nat) (form : EditForm) : EditForm :=
  setGoals fTheirGoals
    (mkGoalHistory (our (goalHistory form))
                   (removeAt index (their (goalHistory form))))
    form.

(** Get unique opponents for filter dropdown:
    [[...new Set(savedGames.map(game => game.opponent).filter(Boolean))]] *)
Definition opponents (savedGames : list GameRecord) : list string :=
  unique (List.filter truthyStr (omap Model.opponent savedGames)).

(** Helper function for time conversion *)
Definition formatSecondsToTime (totalSeconds : Z) : string :=
  let minutes := totalSeconds / 60 in
  let seconds := Z.rem totalSeconds 60 in
  numToString minutes +:+ ":" +:+ padStart2 (numToString seconds).

Section Delete.
(** The [TypeError] of reading a property of [undefined]. *)
Variable undefinedRead : JsError.

(** [handleDelete]: the argument of the call [onDeleteGame(actualIndex)],
    or [None] when the user declines the confirmation. *)
Definition handleDelete (confirmAnswer : bool) (savedGames : list GameRecord)
           (filterOpponent : string) (gameIndex : nat)
  : Completion (option nat) :=
  match filteredGames filterOpponent savedGames !! gameIndex with
  | None => Throw undefinedRead
  | Some (actualIndex, game) =>
      if confirmAnswer then Normal (Some actualIndex) else Normal None
  end.
End Delete.

Section WithNumber.
(** [Number(s)] for a string is a builtin of the language. *)
Variable StringToNumber : string -> JsNum.

(** Helper function for time conversion *)
Definition parseTimeToSeconds (timeStr : string) : JsNum :=
  if negb (truthyStr timeStr) then ofZ 0
  else
    match map StringToNumber (split ":" timeStr) with
    | minutes :: rest =>
        add (mul minutes (ofZ 60))
            (match rest with
             | seconds :: _ => orZero seconds
             | [] => ofZ 0
             end)
    | [] => NaN
    end.

Definition handleInputChange (field : FormField) (value : string)
           (form : EditForm) : EditForm :=
  match field with
  | fDate =>
      mkForm value (playerName form) (opponent form) (numbers form)
             (playerMinutesPlayed form) (gameNotes form) (goalHistory form)
  | fPlayerName =>
      mkForm (date form) value (opponent form) (numbers form)
             (playerMinutesPlayed form) (gameNotes form) (goalHistory form)
  | fOpponent =>
      mkForm (date form) (playerName form) value (numbers form)
             (playerMinutesPlayed form) (gameNotes form) (goalHistory form)
  | fPlayerMinutesPlayed =>
      mkForm (date form) (playerName form) (opponent form) (numbers form)
             value (gameNotes form) (goalHistory form)
  | fGameNotes =>
      mkForm (date form) (playerName form) (opponent form) (numbers form)
             (playerMinutesPlayed form) value (goalHistory form)
  | fNumber f => setNumber f (StringToNumber value) form
  end.

(** The object literal [updatedGame] of [saveEdit]. *)
Definition updatedGame (game : GameRecord) (form : EditForm) : GameRecord :=
  let ourLength := Z.of_nat (length (our (goalHistory form))) in
  let theirLength := Z.of_nat (length (their (goalHistory form))) in
  let playerSeconds := parseTimeToSeconds (playerMinutesPlayed form) in
  mkGameRecord
    (id game)
    (Some (date form))
    (Some (playerName form))
    (Some (opponent form))
    (gameType game)
    (fun f => match f with
              | fOurGoals => Some (ofZ ourLength)
              | fTheirGoals => Some (ofZ theirLength)
              | _ => spreadNumbers (numeric game) (numbers form) f
              end)
    (Some (if ourLength >? theirLength then Win
           else if ourLength <? theirLength then Loss
           else Tie))
    (Some (goalHistory form))
    (timer game)
    (Some (playerMinutesPlayed form))
    (Some playerSeconds)
    (Some (gameNotes form))
    (recomputed (numbers form) game)
    (meta game).

(** [saveEdit]: the arguments of the call [onUpdateGame(gameIndex,
    updatedGame)], or [None] when the user declines the warnings. *)
Definition saveEdit (confirmAnswer : bool) (savedGames : list GameRecord)
           (filterOpponent : string) (editingGame : nat) (form : EditForm)
  : option (option nat * GameRecord) :=
  let warnings := validateStats (numbers form) in
  if (0 <? length warnings)%nat && negb confirmAnswer then None
  else
    let shown := filteredGames filterOpponent savedGames !! editingGame in
    Some (fst <$> shown,
          updatedGame (default emptyGame (snd <$> shown)) form).
End WithNumber.

End GameHistory.

(** The earlier edit form: the score is typed in, the goal timeline is
    not editable. *)
Module LegacyGameHistory.
Import EditCommon.

Record EditForm := mkForm {
  date : string;
  playerName : string;
  opponent : string;
  numbers : NumericField -> option JsNum
}.

Inductive FormField :=
| fDate | fPlayerName | fOpponent
| fNumber (f : NumericField).

Definition startEditing (game : GameRecord) : EditForm :=
  mkForm
    (orEmpty (Model.date game))
    (orEmpty (Model.playerName game))
    (orEmpty (Model.opponent game))
    (initialNumbers game).

Section WithNumber.
Variable StringToNumber : string -> JsNum.

Definition handleInputChange (field : FormField) (value : string)
           (form : EditForm) : EditForm :=
  match field with
  | fDate => mkForm value (playerName form) (opponent form) (numbers form)
  | fPlayerName => mkForm (date form) value (opponent form) (numbers form)
  | fOpponent => mkForm (date form) (playerName form) value (numbers form)
  | fNumber f =>
      mkForm (date form) (playerName form) (opponent form)
        (fun f' => if NumericField_eqb f' f
                   then Some (StringToNumber value)
                   else numbers form f')
  end.
End WithNumber.

(** Recalculate derived values *)
Definition updatedGame (game : GameRecord) (form : EditForm) : GameRecord :=
  mkGameRecord
    (id game)
    (Some (date form))
    (Some (playerName form))
    (Some (opponent form))
    (gameType game)
    (spreadNumbers (numeric game) (numbers form))
    (Some (resultOf (orZeroOpt (numbers form fOurGoals))
                    (orZeroOpt (numbers form fTheirGoals))))
    (Model.goalHistory game)
    (timer game)
    (playerMinutesPlayed game)
    (playerSecondsPlayed game)
    (gameNotes game)
    (recomputed (numbers form) game)
    (meta game).

Definition saveEdit (confirmAnswer : bool) (savedGames : list GameRecord)
           (filterOpponent : string) (editingGame : nat) (form : EditForm)
  : option (option nat * GameRecord) :=
  let warnings := validateStats (numbers form) in
  if (0 <? length warnings)%nat && negb confirmAnswer then None
  else
    let shown := filteredGames filterOpponent savedGames !! editingGame in
    Some (fst <$> shown,
          updatedGame (default emptyGame (snd <$> shown)) form).

End LegacyGameHistory.

(* ===================================================================== *)
(** * The first prototype of the application (stat counters only) *)
(* ===================================================================== *)

Module LegacyApp.

Inductive Stat :=
| goalsLeft | goalsRight | shotsLeft | shotsRight
| offenseSuccess | offenseFail | defenseSuccess | defenseFail.

Definition Stat_eqb (a b : Stat) : bool :=
  match a, b with
  | goalsLeft, goalsLeft | goalsRight, goalsRight
  | shotsLeft, shotsLeft | shotsRight, shotsRight
  | offenseSuccess, offenseSuccess | offenseFail, offenseFail
  | defenseSuccess, defenseSuccess | defenseFail, defenseFail => true
  | _, _ => false
  end.

(** The [stats] object of [useState]. *)
Definition Stats := Stat -> Z.

Definition initialStats : Stats := fun _ => 0.

(** [setStats((prev) => ({ ...prev, [stat]: prev[stat] + delta }))] *)
Definition handleStatChange (stat : Stat) (delta : Z) (prev : Stats) : Stats :=
  fun s => if Stat_eqb s stat then prev stat + delta else prev s.

(** The [+] and [-] buttons call it with 1 and -1. *)
Definition plusButton (stat : Stat) : Stats -> Stats := handleStatChange stat 1.
Definition minusButton (stat : Stat) : Stats -> Stats :=
  handleStatChange stat (-1).

End LegacyApp.

(* ===================================================================== *)
(** * The PIN entry form and the application shell *)
(* ===================================================================== *)

Module PinEntry.

(** Component state; [pendingSubmit] holds the [setTimeout] callbacks
    that will call [onPinSubmit]: their due time and the PIN they
    captured. *)
Record State := mkState {
  pin : string;
  isSubmitting : bool;
  error : string;
  pendingSubmit : list (Z * string)
}.

Definition initial : State := mkState "" false "" [].

(** The character class [\d]. *)
Definition isDigit (c : ascii) : bool :=
  let n := nat_of_ascii c in ((48 <=? n) && (n <=? 57))%nat.

(** [value.replace(/\D/g, '')] *)
Fixpoint removeNonDigits (s : string) : string :=
  match s with
  | String c rest =>
      if isDigit c then String c (removeNonDigits rest)
      else removeNonDigits rest
  | EmptyString => EmptyString
  end.

Fixpoint allDigits (s : string) : bool :=
  match s with
  | String c rest => isDigit c && allDigits rest
  | EmptyString => true
  end.

(** [/^\d{4}$/.test(pin)] *)
Definition fourDigits (p : string) : bool :=
  (String.length p =? 4)%nat && allDigits p.

Definition handleInputChange (value : string) (st : State) : State :=
  mkState (substring 0 4 (removeNonDigits value)) (isSubmitting st) ""
          (pendingSubmit st).

Definition handleSubmit (now : Z) (st : State) : State :=
  if negb (String.length (pin st) =? 4)%nat
  then mkState (pin st) (isSubmitting st) "PIN must be exactly 4 digits"
               (pendingSubmit st)
  else if negb (fourDigits (pin st))
  then mkState (pin st) (isSubmitting st) "PIN must contain only numbers"
               (pendingSubmit st)
  else
    (* Simulate brief loading for better UX *)
    mkState (pin st) true "" (pendingSubmit st ++ [(now + 500, pin st)]).

(** The submit button: [disabled={isSubmitting || pin.length !== 4}]; a
    form whose submit button is disabled is not submitted. *)
Definition submitDisabled (st : State) : bool :=
  isSubmitting st || negb (String.length (pin st) =? 4)%nat.

(** What the user and the event loop can do to the form. *)
Inductive Event :=
| Change (value : string)
| Submit (now : Z)
| TimersFire (now : Z).

Section WithParent.
(** The parent's state and its callback [onPinSubmit]. *)
Context {Parent : Type}.
Variable onPinSubmit : string -> Parent -> Parent * Completion unit.

(** The callbacks [() => { onPinSubmit(pin); setIsSubmitting(false); }]
    that are due, oldest first; an exception thrown by [onPinSubmit] ends
    its callback before [setIsSubmitting(false)]. *)
Fixpoint runCallbacks (due : list string) (submitting : bool) (p : Parent)
  : bool * Parent :=
  match due with
  | [] => (submitting, p)
  | duePin :: rest =>
      match onPinSubmit duePin p with
      | (p', Normal _) => runCallbacks rest false p'
      | (p', Throw _) => runCallbacks rest submitting p'
      end
  end.

Definition timersFire (now : Z) (st : State) (p : Parent) : State * Parent :=
  let due := List.filter (fun d => fst d <=? now) (pendingSubmit st) in
  let later := List.filter (fun d => negb (fst d <=? now)) (pendingSubmit st) in
  let (submitting, p') := runCallbacks (map snd due) (isSubmitting st) p in
  (mkState (pin st) submitting (error st) later, p').

Definition step (ev : Event) (sp : State * Parent) : State * Parent :=
  match ev with
  | Change value => (handleInputChange value (fst sp), snd sp)
  | Submit now =>
      (if submitDisabled (fst sp) then fst sp else handleSubmit now (fst sp),
       snd sp)
  | TimersFire now => timersFire now (fst sp) (snd sp)
  end.

Definition run (evs : list Event) (sp : State * Parent) : State * Parent :=
  fold_left (fun sp ev => step ev sp) evs sp.
End WithParent.

End PinEntry.

Module App.

Record State := mkState {
  userPin : option string;
  isCheckingPin : bool
}.

Definition initial : State := mkState None true.

(** What the component renders. *)
Inductive Screen :=
| Loading
| Stats (userPin : string)
| PinForm.

Definition render (st : State) : Screen :=
  if isCheckingPin st then Loading
  else match userPin st with
       | Some p => if truthyStr p then Stats p else PinForm
       | None => PinForm
       end.

Section Shell.
Context {Remote : Type}.
Variable setItemError : JsError.

(** Check if user already has a PIN set (the effect run on mount). *)
Definition checkPin (st : State) (w : World Remote) : State :=
  mkState (if Database.hasPin w then Database.getCurrentPin w else userPin st)
          false.

(** [handlePinSubmit]: the state of the shell and the world. *)
Definition handlePinSubmit (pin : string) (p : State * World Remote)
  : (State * World Remote) * Completion unit :=
  match Database.setPin setItemError pin (snd p) with
  | (w1, Normal _) =>
      ((mkState (Some pin) (isCheckingPin (fst p)), w1), Normal tt)
  | (w1, Throw e) => ((fst p, w1), Throw e)
  end.
End Shell.

End App.

(* ===================================================================== *)
(** * Vocabulary of the properties and concrete scenarios *)
(* ===================================================================== *)

Module Spec.

(** The retry events of [k] attempts numbered from [attempt]: consecutive
    attempts are separated by a delay of [1000 * 2 ^ (attempt - 1)] ms. *)
Fixpoint scheduleFrom (attempt : Z) (k : nat) : list RetryEvent :=
  match k with
  | O => []
  | S k' =>
      Attempt attempt ::
      match k' with
      | O => []
      | S _ => Sleep (1000 * 2 ^ (attempt - 1)) :: scheduleFrom (attempt + 1) k'
      end
  end.

Definition schedule (k : nat) : list RetryEvent := scheduleFrom 1 k.

(** A service operation makes at most three attempts, spaced by the
    backoff delays. *)
Definition boundedRetry {Remote A} (m : Async Remote A) : Prop :=
  forall w, exists k, (k <= 3)%nat /\ trace (fst (m w)) = trace w ++ schedule k.

(** The remote store refuses an operation with [permission-denied]. *)
Definition denied {R A} (c : R * Completion A) : Prop :=
  exists r e, c = (r, Throw e) /\ code e = Some "permission-denied".

(** An operation fails after a single attempt, with the store's code. *)
Definition failsFast {Remote A} (w : World Remote)
           (result : World Remote * Completion A) : Prop :=
  trace (fst result) = trace w ++ [Attempt 1] /\
  exists e, snd result = Throw e /\ code e = Some "permission-denied".

(** An operation that leaves the retry trace alone (the Firestore calls
    wrapped by [onRemote]). *)
Definition traceNeutral {Remote A} (op : Async Remote A) : Prop :=
  forall w, trace (fst (op w)) = trace w.

(** In every state the application reaches, at most one release of the
    goal lock is pending, and only while the lock is held. *)
Definition lockInvariant (st : GameStats.State) : Prop :=
  GameStats.pendingRelease st = [] \/
  (GameStats.isAddingGoal st = true /\
   exists due, GameStats.pendingRelease st = [due]).

(** The comparator [(a, b) => key(a) - key(b)] puts [a] strictly before
    [b], and the order it sorts into. *)
Definition keyBefore {A} (key : A -> Z) (a b : A) : bool := key a - key b <? 0.
Definition keyOrdered {A} (key : A -> Z) (a b : A) : Prop := key a <= key b.

(** The order of the displayed timeline: by insertion time. *)
Definition byTimestamp (a b : GameStats.TimelineEntry) : Prop :=
  timestamp (GameStats.goal a) <= timestamp (GameStats.goal b).

(** The goals of both sides, tagged with their side. *)
Definition tagged (ours theirs : list Goal) : list GameStats.TimelineEntry :=
  map (fun g => GameStats.mkEntry g GameStats.us) ours ++
  map (fun g => GameStats.mkEntry g GameStats.them) theirs.

(** What the timeline shows of an entry. *)
Definition shown (e : GameStats.TimelineEntry) : string * Z * GameStats.Side :=
  (time (GameStats.goal e), minute (GameStats.goal e), GameStats.type e).

(** [gameResult] is decided by the stored score. *)
Definition scoreDecidesResult (g : GameRecord) : Prop :=
  exists o t,
    numeric g fOurGoals = Some o /\ numeric g fTheirGoals = Some t /\
    gameResult g = Some (resultOf o t).

(** The invariant of the specification: the score fields are the lengths
    of the two goal lists, and the result is decided by the score. *)
Definition consistent (g : GameRecord) : Prop :=
  (exists gh,
     goalHistory g = Some gh /\
     numeric g fOurGoals = Some (ofZ (Z.of_nat (length (our gh)))) /\
     numeric g fTheirGoals = Some (ofZ (Z.of_nat (length (their gh))))) /\
  scoreDecidesResult g.


(** A text that a spreadsheet reads as plain text: its first character
    that is not white space is none of [=], [+], [-], [@], and it holds
    no control character. *)
Definition safeText (s : string) : Prop :=
  GameStats.dangerous s = false /\ GameStats.removeControl s = s.

(** A control character ([\x00-\x1F] or [\x7F]) that is not white
    space. *)
Definition hiddenControl (c : ascii) : bool :=
  let n := nat_of_ascii c in
  ((n <=? 31) || (n =? 127))%nat && negb (GameStats.isWhiteSpace c).

(** [Number] reads back the two parts of the clock text of [n]
    seconds. *)
Definition readsClock (StringToNumber : string -> JsNum) (n : Z) : Prop :=
  StringToNumber (numToString (n / 60)) = ofZ (n / 60) /\
  StringToNumber (padStart2 (numToString (Z.rem n 60))) = ofZ (Z.rem n 60).

(** Two records hold the same fields. *)
Definition sameRecord (g g' : GameRecord) : Prop :=
  id g = id g' /\ date g = date g' /\ playerName g = playerName g' /\
  opponent g = opponent g' /\ gameType g = gameType g' /\
  (forall f, numeric g f = numeric g' f) /\
  gameResult g = gameResult g' /\ goalHistory g = goalHistory g' /\
  timer g = timer g' /\ playerMinutesPlayed g = playerMinutesPlayed g' /\
  playerSecondsPlayed g = playerSecondsPlayed g' /\
  gameNotes g = gameNotes g' /\ derived g = derived g' /\ meta g = meta g'.

(** The clicks of a sequence that hit the counter [s], and the value of
    a counter after a click. *)
Definition hits (s : StatName) (ev : GameStats.StatEvent) : bool :=
  match ev with
  | GameStats.Plus s' | GameStats.Minus s' => StatName_eqb s' s
  end.

Definition clicked (value : Z) (ev : GameStats.StatEvent) : Z :=
  match ev with
  | GameStats.Plus _ => value + 1
  | GameStats.Minus _ => if value >? 0 then value - 1 else 0
  end.

(** One period of play on the player timer: Start at [start], the ticks
    of the interval, Stop at [stop]. *)
Definition played (period : Z * list Z * Z) : list PlayerTimer.Event :=
  let '(start, ticks, stop) := period in
  PlayerTimer.Click PlayerTimer.StartStop start ::
  map PlayerTimer.Tick ticks ++
  [PlayerTimer.Click PlayerTimer.StartStop stop].

(** The whole seconds between Start and Stop of a period. *)
Definition wholeSeconds (period : Z * list Z * Z) : Z :=
  let '(start, _, stop) := period in (stop - start) / 1000.

(** The order of the default [sort()] on strings: by code units. *)
Definition codeUnitOrder (a b : string) : Prop := String.ltb b a = false.

(** An operation that leaves local storage and the clock alone (the
    Firestore calls wrapped by [onRemote]). *)
Definition localNeutral {Remote A} (op : Async Remote A) : Prop :=
  forall w, storage (fst (op w)) = storage w /\ clock (fst (op w)) = clock w.

(** A service operation leaves local storage alone, and the time it
    spends waiting between its attempts is 0, 1 or 3 seconds. *)
Definition waitsBriefly {Remote A} (m : Async Remote A) : Prop :=
  forall w,
    storage (fst (m w)) = storage w /\
    (clock (fst (m w)) = clock w \/
     clock (fst (m w)) = clock w + 1000 \/
     clock (fst (m w)) = clock w + 3000).

(** The errors of the service: a [DatabaseError] with a code, whose
    message is [message] or starts with [prefix]. *)
Definition serviceError (message prefix : string) (e : JsError) : Prop :=
  name e = "DatabaseError" /\
  (exists c, code e = Some c) /\
  (Js.message e = message \/ exists cause, Js.message e = prefix +:+ cause).

(** A text without the character [c]. *)
Fixpoint without (c : ascii) (s : string) : bool :=
  match s with
  | String c' rest => negb (Ascii.eqb c' c) && without c rest
  | EmptyString => true
  end.

(** A parent of the PIN form that records the calls of [onPinSubmit]. *)
Definition recordPin (pin : string) (calls : list string)
  : list string * Completion unit :=
  (calls ++ [pin], Normal tt).

(** What holds of the PIN form in every state it reaches: the field
    holds at most four decimal digits, every pending submission carries
    a PIN of exactly four digits, and the error shown is not the one
    about characters other than digits. *)
Definition pinFormInvariant (st : PinEntry.State) : Prop :=
  PinEntry.allDigits (PinEntry.pin st) = true /\
  (String.length (PinEntry.pin st) <= 4)%nat /\
  Forall (fun d => PinEntry.fourDigits (snd d) = true)
         (PinEntry.pendingSubmit st) /\
  PinEntry.error st <> "PIN must contain only numbers".

End Spec.

Module Scenarios.

(** A remote store on which every operation fails with the given code. *)
Definition failing (c : string) : Firestore unit := {|
  addDoc := fun _ r => (r, Throw (mkError "FirebaseError" "request failed" (Some c)));
  getDocs := fun _ r => (r, Throw (mkError "FirebaseError" "request failed" (Some c)));
  updateDoc := fun _ _ r => (r, Throw (mkError "FirebaseError" "request failed" (Some c)));
  deleteDoc := fun _ r => (r, Throw (mkError "FirebaseError" "request failed" (Some c)))
|}.

(** A world with the PIN 1234 set and an empty local storage. *)
Definition world (now : Z) : World unit :=
  mkWorld tt now (mkLocalStorage (Some "1234") ∅ None true) [].

(** A fresh session whose game information has been filled in. *)
Definition session : GameStats.State :=
  GameStats.mkState "1234" "2025-01-01" "Ann" "Rovers" "League" 30 0 0
    false [] [] GameStats.noStats "" [] false None GameStats.idle [] [].

(** The game of the sample session. *)
Definition sampleGame : GameRecord := GameStats.buildGame session.

(** An in-memory remote store that accepts every operation: documents
    are kept with their ids, the newest last. *)
Definition memory : Firestore (list (string * GameRecord)) := {|
  addDoc := fun data docs =>
    let docId := "doc" +:+ numToString (Z.of_nat (length docs)) in
    (docs ++ [(docId, data)], Normal docId);
  getDocs := fun pin docs =>
    (docs,
     Normal (List.filter
               (fun doc => match Model.userPin (meta (snd doc)) with
                           | Some p => String.eqb p pin
                           | None => false
                           end)
               docs));
  updateDoc := fun docId data docs =>
    (map (fun doc => if String.eqb (fst doc) docId then (docId, data) else doc)
         docs,
     Normal tt);
  deleteDoc := fun docId docs =>
    (List.filter (fun doc => negb (String.eqb (fst doc) docId)) docs, Normal tt)
|}.

Definition memoryWorld (now : Z) : World (list (string * GameRecord)) :=
  mkWorld [] now (mkLocalStorage (Some "1234") ∅ None true) [].

(** A record whose left-foot goal count is [Infinity]. *)
Definition infiniteGame : GameRecord :=
  set_field (Stat goalsLeft) PosInfinity sampleGame.

(** Twenty rounds of "our goal, then the lock is released". *)
Definition twentyGoals : list (Z * GameStats.GoalEvent) :=
  flat_map (fun i => [(1000 * i, GameStats.AddOurGoal);
                      (1000 * i + 500, GameStats.TimersFire)])
           (map Z.of_nat (seq 1 20)).

(** The sample session once our side has scored twenty goals. *)
Definition fullSession : GameStats.State :=
  GameStats.runGoalEvents twentyGoals session.

(** The timer of a 30-minute half: started at 0 ms and stopped at
    1 805 000 ms, with no tick of the interval in between. *)
Definition lateStop : list Timers.Event :=
  [Timers.Click Timers.StartStop 0; Timers.Click Timers.StartStop 1805000].

(** A running first half, and a second half paused after 100 seconds. *)
Definition runningTimer : Timers.State :=
  Timers.run [Timers.Click Timers.StartStop 0] (Timers.initial 30).

Definition pausedSecondHalf : Timers.State :=
  Timers.run [Timers.Click Timers.StartStop 0; Timers.Tick 1800000;
              Timers.Click Timers.StartSecondHalf 1900000;
              Timers.Click Timers.StartStop 2000000;
              Timers.Click Timers.StartStop 2100000]
             (Timers.initial 30).

(** Our side scores at 10 s, 185 s and 2710 s of game clock; the lock is
    released between the goals. *)
Definition threeGoals : GameStats.State :=
  let st := GameStats.handleHalftimeUpdate 10 session in
  let st := fst (GameStats.addOurGoal 10000 st) in
  let st := GameStats.timersFire 10500 st in
  let st := GameStats.handleHalftimeUpdate 185 st in
  let st := fst (GameStats.addOurGoal 185000 st) in
  let st := GameStats.timersFire 185500 st in
  let st := GameStats.handleHalftimeUpdate 2710 st in
  fst (GameStats.addOurGoal 2710000 st).

(** Our side scores at 100 s; the timer is then reset and restarted, and
    the other side scores at 5 s of the new game clock. *)
Definition goalsAroundReset : GameStats.State :=
  let st := GameStats.handleHalftimeUpdate 100 session in
  let st := fst (GameStats.addOurGoal 1000 st) in
  let st := GameStats.timersFire 1500 st in
  let st := GameStats.handleHalftimeUpdate 0 st in
  let st := GameStats.handleHalftimeUpdate 5 st in
  fst (GameStats.addTheirGoal 2000 st).

(** Our side scores at 2:00 and at 10:00. *)
Definition twoAndTen : GameStats.State :=
  let st := GameStats.handleHalftimeUpdate 120 session in
  let st := fst (GameStats.addOurGoal 120000 st) in
  let st := GameStats.timersFire 120500 st in
  let st := GameStats.handleHalftimeUpdate 600 st in
  fst (GameStats.addOurGoal 600000 st).

(** The games saved when a session is committed to the in-memory store. *)
Definition committed (st : GameStats.State) : list GameRecord :=
  GameStats.savedGames
    (fst (@GameStats.saveGame _ memory true st (memoryWorld 3000000))).

(** [Number(s)] on strings of decimal digits; [NaN] on any other string
    but the empty one.  It stands for the builtin in the scenarios. *)
Fixpoint digitsValue (acc : Z) (s : string) : option Z :=
  match s with
  | EmptyString => Some acc
  | String c rest =>
      let n := Z.of_nat (nat_of_ascii c) in
      if (48 <=? n) && (n <=? 57) then digitsValue (10 * acc + (n - 48)) rest
      else None
  end.

Definition numberOfDigits (s : string) : JsNum :=
  match digitsValue 0 s with
  | Some z => ofZ z
  | None => NaN
  end.

(** A game with one goal of ours, as saved by the live session, then
    edited in the earlier form: the user types 3 in "Our Goals". *)
Definition oneGoalSession : GameStats.State :=
  let st := GameStats.handleHalftimeUpdate 100 session in
  fst (GameStats.addOurGoal 1000 st).

Definition legacyEdit : option (option nat * GameRecord) :=
  let savedGames := committed oneGoalSession in
  let game := default EditCommon.emptyGame (savedGames !! 0%nat) in
  let form := LegacyGameHistory.startEditing game in
  let form :=
    LegacyGameHistory.handleInputChange numberOfDigits
      (LegacyGameHistory.fNumber fOurGoals) "3" form in
  LegacyGameHistory.saveEdit true savedGames "" 0 form.

Definition legacyEdited : GameRecord :=
  default EditCommon.emptyGame (snd <$> legacyEdit).


(** A session with two saved games: one against the Lions that the
    store holds, and one against the Rovers that is local only. *)
Definition twoSavedGames : GameStats.State :=
  GameStats.setSavedGames
    [with_id (Some "doc0")
       (GameStats.buildGame (GameStats.changeOpponent "Lions" session));
     GameStats.localGame 5 session]
    None GameStats.idle [] session.

(** The sample game with -3 left-foot goals and 2.5 assists. *)
Definition roughGame : GameRecord :=
  set_field (Stat goalsLeft) (ofZ (-3))
    (set_field (Stat assists) (Finite (5 # 2)) sampleGame).

(** What validation at time 5 makes of it. *)
Definition roughValidated : GameRecord :=
  match Database.validateGameData 5 roughGame with
  | Normal validated => validated
  | Throw _ => roughGame
  end.

(** The game with one goal, edited in the form with the editable goal
    timeline: a goal of the other side is added and the edit is saved. *)
Definition timelineEdit : option (option nat * GameRecord) :=
  let savedGames := committed oneGoalSession in
  let game := default EditCommon.emptyGame (savedGames !! 0%nat) in
  let form := GameHistory.addTheirGoal 2000 (GameHistory.startEditing game) in
  GameHistory.saveEdit numberOfDigits true savedGames "" 0 form.

Definition timelineEdited : GameRecord :=
  default EditCommon.emptyGame (snd <$> timelineEdit).

(** A store that can be reached or not.  While it cannot, every
    operation fails with the code [unavailable]; while it can, it is the
    in-memory store. *)
Definition unavailable : JsError :=
  mkError "FirebaseError" "request failed" (Some "unavailable").

Definition whenReachable {A}
           (op : list (string * GameRecord)
                 -> list (string * GameRecord) * Completion A)
           (r : bool * list (string * GameRecord))
  : (bool * list (string * GameRecord)) * Completion A :=
  if fst r then ((true, fst (op (snd r))), snd (op (snd r)))
  else (r, Throw unavailable).

Definition flaky : Firestore (bool * list (string * GameRecord)) := {|
  addDoc := fun data => whenReachable (addDoc (Firestore := memory) data);
  getDocs := fun pin => whenReachable (getDocs (Firestore := memory) pin);
  updateDoc := fun docId data =>
    whenReachable (updateDoc (Firestore := memory) docId data);
  deleteDoc := fun docId => whenReachable (deleteDoc (Firestore := memory) docId)
|}.

(** The PIN 1234 is set, local storage is empty and accepts writes, the
    store holds no game and cannot be reached. *)
Definition offlineWorld : World (bool * list (string * GameRecord)) :=
  mkWorld (false, []) 0 (mkLocalStorage (Some "1234") ∅ None true) [].

(** The store can be reached again; nothing else changes. *)
Definition reconnected (w : World (bool * list (string * GameRecord)))
  : World (bool * list (string * GameRecord)) :=
  mkWorld (true, snd (remote w)) (clock w) (storage w) (trace w).

(** The game with three goals of ours is saved while the store cannot be
    reached. *)
Definition failedSave
  : GameStats.State * World (bool * list (string * GameRecord)) :=
  @GameStats.saveGame _ flaky true threeGoals offlineWorld.

(** The store can be reached again and the games are loaded, as the
    [online] listener and the effect run on mount do. *)
Definition reloaded
  : GameStats.View * World (bool * list (string * GameRecord)) :=
  @GameStats.loadGamesFromFirebase _ flaky
    (GameStats.mkView (fst failedSave) false) (reconnected (snd failedSave)).

(** The next game, against the Lions, is saved. *)
Definition nextSave
  : GameStats.State * World (bool * list (string * GameRecord)) :=
  @GameStats.saveGame _ flaky true
    (GameStats.changeOpponent "Lions" (GameStats.session (fst reloaded)))
    (snd reloaded).

End Scenarios.

(* ===================================================================== *)
(** * Properties of the database layer *)
(* ===================================================================== *)

Section RetryProperties.
Context {Remote : Type}.

Lemma onRemote_traceNeutral {A B} (fs : Remote -> Remote * Completion A)
      (f : A -> B) :
  Spec.traceNeutral (bind (onRemote fs) (fun x => ret (f x))).
Proof.
  intros w. unfold bind, onRemote, ret.
  destruct (fs (remote w)) as [r [a|e]]; reflexivity.
Qed.

Lemma onRemote_result {A B} (fs : Remote -> Remote * Completion A)
      (f : A -> B) w :
  snd (bind (onRemote fs) (fun x => ret (f x)) w) =
  match snd (fs (remote w)) with
  | Normal a => Normal (f a)
  | Throw e => Throw e
  end.
Proof.
  unfold bind, onRemote, ret.
  destruct (fs (remote w)) as [r [a|e]]; reflexivity.
Qed.

(** The loop makes between one and three attempts, spaced by the
    delays of the schedule. *)
Lemma withRetry_schedule {A} (op : Async Remote A) (w : World Remote) :
  Spec.traceNeutral op ->
  exists k, (1 <= k <= 3)%nat /\
    trace (fst (Database.withRetry op 3 1000 w)) = trace w ++ Spec.schedule k.
Proof.
  intros Hn.
  unfold Database.withRetry, Database.retryLoop; simpl Z.to_nat.
  unfold bind, tryCatch, note, sleep, ret, throw; simpl.
  match goal with |- context [op ?x] => pose proof (Hn x) as H1 end.
  destruct (op _) as [w1 [v|e1]]; simpl in H1 |- *.
  { exists 1%nat. split; [lia|]. exact H1. }
  destruct (Database.codeIs "permission-denied" e1); simpl.
  { exists 1%nat. split; [lia|]. exact H1. }
  match goal with |- context [op ?x] => pose proof (Hn x) as H2 end.
  destruct (op _) as [w2 [v|e2]]; simpl in H2 |- *.
  { exists 2%nat. split; [lia|]. rewrite H2, H1, <- !app_assoc. reflexivity. }
  destruct (Database.codeIs "permission-denied" e2); simpl.
  { exists 2%nat. split; [lia|]. rewrite H2, H1, <- !app_assoc. reflexivity. }
  match goal with |- context [op ?x] => pose proof (Hn x) as H3 end.
  destruct (op _) as [w3 [v|e3]]; simpl in H3 |- *;
    exists 3%nat; (split; [lia|]);
    rewrite H3, H2, H1, <- !app_assoc; reflexivity.
Qed.

(** With three attempts the loop never falls through. *)
Lemma withRetry_defined {A} (op : Async Remote A) (w : World Remote) :
  snd (Database.withRetry op 3 1000 w) <> Normal None.
Proof.
  unfold Database.withRetry, Database.retryLoop; simpl Z.to_nat.
  unfold bind, tryCatch, note, sleep, ret, throw; simpl.
  repeat (match goal with
          | |- context [op ?x] => destruct (op x) as [? [?|?]]; simpl
          | |- context [Database.codeIs ?a ?b] =>
              destruct (Database.codeIs a b); simpl
          end; try discriminate).
Qed.

(** What the loop returns was returned by the operation. *)
Lemma withRetry_value {A} (op : Async Remote A) (w w' : World Remote) v :
  Database.withRetry op 3 1000 w = (w', Normal (Some v)) ->
  exists w0 w0', op w0 = (w0', Normal v).
Proof.
  unfold Database.withRetry, Database.retryLoop; simpl Z.to_nat.
  unfold bind, tryCatch, note, sleep, ret, throw; simpl.
  repeat (match goal with
          | |- context [op ?x] =>
              let E := fresh "E" in
              destruct (op x) as [? [?|?]] eqn:E; simpl
          | |- context [Database.codeIs ?a ?b] =>
              destruct (Database.codeIs a b); simpl
          end; try discriminate);
    intros [= <- <-]; eauto.
Qed.

(** A [permission-denied] error of the first attempt is rethrown at
    once: no delay, no second attempt. *)
Lemma withRetry_permission_denied {A} (op : Async Remote A)
      (w w1 : World Remote) e :
  op (mkWorld (remote w) (clock w) (storage w) (trace w ++ [Attempt 1]))
    = (w1, Throw e) ->
  code e = Some "permission-denied" ->
  Database.withRetry op 3 1000 w = (w1, Throw e).
Proof.
  intros Hop Hcode.
  unfold Database.withRetry, Database.retryLoop; simpl Z.to_nat.
  unfold bind, tryCatch, note, sleep, ret, throw; simpl.
  rewrite Hop. unfold Database.codeIs. rewrite Hcode. reflexivity.
Qed.
End RetryProperties.

Section ServiceProperties.
Context {Remote : Type} `{Firestore Remote}.

(** A handler that only rethrows leaves the world of the body. *)
Lemma tryCatch_rethrow_world {A} (m : Async Remote A) (f : JsError -> JsError) w :
  fst (tryCatch m (fun error => throw (f error)) w) = fst (m w).
Proof. unfold tryCatch, throw. destruct (m w) as [w' [v|e]]; reflexivity. Qed.

Lemma tryCatch_rethrow_result {A} (m : Async Remote A) (f : JsError -> JsError) w :
  snd (tryCatch m (fun error => throw (f error)) w) =
  match snd (m w) with
  | Normal v => Normal v
  | Throw e => Throw (f e)
  end.
Proof. unfold tryCatch, throw. destruct (m w) as [w' [v|e]]; reflexivity. Qed.

Lemma no_attempt (w : World Remote) :
  exists k, (k <= 3)%nat /\ trace w = trace w ++ Spec.schedule k.
Proof. exists 0%nat. split; [lia|]. simpl. now rewrite app_nil_r. Qed.

Lemma some_attempts {A} (op : Async Remote A) w :
  Spec.traceNeutral op ->
  exists k, (k <= 3)%nat /\
    trace (fst (Database.withRetry op Database.maxRetries_default
                                   Database.delay_default w))
    = trace w ++ Spec.schedule k.
Proof.
  intros Hn. destruct (withRetry_schedule op w Hn) as (k & Hk & Ht).
  exists k. split; [lia | exact Ht].
Qed.

Lemma saveGame_bounded gameData : Spec.boundedRetry (Database.saveGame gameData).
Proof.
  intros w. unfold Database.saveGame.
  destruct (Database.getUserPin w) as [pin|]; [|apply no_attempt].
  rewrite tryCatch_rethrow_world. unfold bind at 1, liftC.
  destruct (Database.validateGameData (clock w) gameData) as [validated|e];
    [|apply no_attempt].
  unfold bind at 1, getClock.
  apply some_attempts, onRemote_traceNeutral.
Qed.

Lemma loadGames_bounded : Spec.boundedRetry Database.loadGames.
Proof.
  intros w. unfold Database.loadGames.
  destruct (Database.getUserPin w) as [pin|]; [|apply no_attempt].
  rewrite tryCatch_rethrow_world.
  apply some_attempts, onRemote_traceNeutral.
Qed.

Lemma updateGame_bounded gameId gameData :
  Spec.boundedRetry (Database.updateGame gameId gameData).
Proof.
  intros w. unfold Database.updateGame.
  destruct (Database.getUserPin w) as [pin|]; [|apply no_attempt].
  rewrite tryCatch_rethrow_world. unfold bind at 1, liftC.
  destruct (Database.validateGameData (clock w) gameData) as [validated|e];
    [|apply no_attempt].
  unfold bind at 1, getClock.
  apply some_attempts, onRemote_traceNeutral.
Qed.

Lemma deleteGame_bounded gameId : Spec.boundedRetry (Database.deleteGame gameId).
Proof.
  intros w. unfold Database.deleteGame.
  rewrite tryCatch_rethrow_world.
  apply some_attempts, onRemote_traceNeutral.
Qed.

(** A retried Firestore call that is denied fails after one attempt. *)
Lemma denied_fails_fast {A B} (fs : Remote -> Remote * Completion A)
      (f : A -> B) (wrap : JsError -> string) (w : World Remote) :
  Spec.denied (fs (remote w)) ->
  Spec.failsFast w
    (tryCatch
       (Database.withRetry (bind (onRemote fs) (fun x => ret (f x)))
                           Database.maxRetries_default Database.delay_default)
       (fun error => throw (Database.DatabaseError (wrap error) (code error)))
       w).
Proof.
  intros (r & e & Hfs & Hcode).
  assert (Hop : bind (onRemote fs) (fun x => ret (f x))
                  (mkWorld (remote w) (clock w) (storage w)
                           (trace w ++ [Attempt 1]))
                = (mkWorld r (clock w) (storage w) (trace w ++ [Attempt 1]),
                   Throw e)).
  { unfold bind, onRemote; simpl. rewrite Hfs. reflexivity. }
  unfold Spec.failsFast, tryCatch, Database.maxRetries_default,
    Database.delay_default.
  rewrite (withRetry_permission_denied _ _ _ _ Hop Hcode). simpl.
  split; [reflexivity|]. eexists. split; [reflexivity|].
  simpl. rewrite Hcode. reflexivity.
Qed.
End ServiceProperties.

(** C4.  Every remote store operation of [gameService] (save, load,
    update, delete) makes at most three attempts, and consecutive attempts
    are separated by a delay of [1000 * 2 ^ (attempt - 1)] milliseconds
    (the trace is [schedule k] for some [k <= 3]).  When the store answers
    the first attempt with the code [permission-denied], the operation
    fails after that single attempt, without any delay, and the error it
    throws carries the same code. *)
Theorem retry_is_bounded_with_backoff :
  forall (Remote : Type) (F : Firestore Remote)
         (gameData : GameRecord) (gameId : string),
    (Spec.boundedRetry (Database.saveGame gameData) /\
     Spec.boundedRetry Database.loadGames /\
     Spec.boundedRetry (Database.updateGame gameId gameData) /\
     Spec.boundedRetry (Database.deleteGame gameId)) /\
    (forall w pin,
        Database.getUserPin w = Some pin ->
        Database.missing gameData = [] ->
        (forall data, Spec.denied (addDoc data (remote w))) ->
        Spec.failsFast w (Database.saveGame gameData w)) /\
    (forall w pin,
        Database.getUserPin w = Some pin ->
        Spec.denied (getDocs pin (remote w)) ->
        Spec.failsFast w (Database.loadGames w)) /\
    (forall w pin,
        Database.getUserPin w = Some pin ->
        Database.missing gameData = [] ->
        (forall data, Spec.denied (updateDoc gameId data (remote w))) ->
        Spec.failsFast w (Database.updateGame gameId gameData w)) /\
    (forall w,
        Spec.denied (deleteDoc gameId (remote w)) ->
        Spec.failsFast w (Database.deleteGame gameId w)).
Proof.
  intros Remote F gameData gameId. split; [|split; [|split; [|split]]].
  - repeat split.
    + apply saveGame_bounded.
    + apply loadGames_bounded.
    + apply updateGame_bounded.
    + apply deleteGame_bounded.
  - intros w pin Hpin Hmissing Hdenied.
    unfold Database.saveGame. rewrite Hpin.
    unfold Database.validateGameData. rewrite Hmissing. simpl Nat.ltb.
    cbv iota. unfold bind at 1, liftC. unfold bind at 1, getClock.
    apply (denied_fails_fast _ _ (fun error => "Failed to save game: " +:+ message error)).
    apply Hdenied.
  - intros w pin Hpin Hdenied.
    unfold Database.loadGames. rewrite Hpin.
    apply (denied_fails_fast _ _ (fun error => "Failed to load games: " +:+ message error)).
    exact Hdenied.
  - intros w pin Hpin Hmissing Hdenied.
    unfold Database.updateGame. rewrite Hpin.
    unfold Database.validateGameData. rewrite Hmissing. simpl Nat.ltb.
    cbv iota. unfold bind at 1, liftC. unfold bind at 1, getClock.
    apply (denied_fails_fast _ _ (fun error => "Failed to update game: " +:+ message error)).
    apply Hdenied.
  - intros w Hdenied. unfold Database.deleteGame.
    apply (denied_fails_fast _ _ (fun error => "Failed to delete game: " +:+ message error)).
    exact Hdenied.
Qed.

(** The store denies every operation: each of the four fails after one
    attempt. *)
Lemma retry_is_bounded_with_backoff_witness :
  Spec.failsFast (Scenarios.world 0)
    (@Database.saveGame unit (Scenarios.failing "permission-denied")
       Scenarios.sampleGame (Scenarios.world 0)) /\
  Spec.failsFast (Scenarios.world 0)
    (@Database.loadGames unit (Scenarios.failing "permission-denied")
       (Scenarios.world 0)) /\
  Spec.failsFast (Scenarios.world 0)
    (@Database.updateGame unit (Scenarios.failing "permission-denied")
       "doc1" Scenarios.sampleGame (Scenarios.world 0)) /\
  Spec.failsFast (Scenarios.world 0)
    (@Database.deleteGame unit (Scenarios.failing "permission-denied")
       "doc1" (Scenarios.world 0)).
Proof.
  destruct (retry_is_bounded_with_backoff
              unit (Scenarios.failing "permission-denied")
              Scenarios.sampleGame "doc1")
    as (_ & Hsave & Hload & Hupdate & Hdelete).
  split; [|split; [|split]].
  - apply (Hsave (Scenarios.world 0) "1234"); [reflexivity | reflexivity |].
    intros data. do 2 eexists. split; reflexivity.
  - apply (Hload (Scenarios.world 0) "1234"); [reflexivity |].
    do 2 eexists. split; reflexivity.
  - apply (Hupdate (Scenarios.world 0) "1234"); [reflexivity | reflexivity |].
    intros data. do 2 eexists. split; reflexivity.
  - apply (Hdelete (Scenarios.world 0)). do 2 eexists. split; reflexivity.
Defined.

(* ===================================================================== *)
(** * Properties of validateGameData *)
(* ===================================================================== *)

Lemma StatName_eqb_eq a b : StatName_eqb a b = true <-> a = b.
Proof.
  split; [destruct a, b; simpl; congruence | intros ->; destruct b; reflexivity].
Qed.

Lemma NumericField_eqb_eq a b : NumericField_eqb a b = true <-> a = b.
Proof.
  destruct a as [x| |], b as [y| |]; simpl; try (split; congruence).
  rewrite StatName_eqb_eq. split; congruence.
Qed.

Lemma NumericField_eqb_refl a : NumericField_eqb a a = true.
Proof. now apply NumericField_eqb_eq. Qed.

Lemma NumericField_eqb_neq a b : a <> b -> NumericField_eqb a b = false.
Proof.
  intros Hne. destruct (NumericField_eqb a b) eqn:E; [|reflexivity].
  now apply NumericField_eqb_eq in E.
Qed.

(** One step of the [forEach]: the field itself is coerced when present. *)
Lemma sanitizeField_same g field :
  numeric (Database.sanitizeField g field) field
  = Database.sanitizeValue <$> numeric g field.
Proof.
  unfold Database.sanitizeField.
  destruct (numeric g field) as [v|] eqn:E; simpl.
  - now rewrite NumericField_eqb_refl.
  - now rewrite E.
Qed.

Lemma sanitizeField_other g field f :
  f <> field ->
  numeric (Database.sanitizeField g field) f = numeric g f.
Proof.
  intros Hne. unfold Database.sanitizeField.
  destruct (numeric g field) as [v|]; simpl; [|reflexivity].
  now rewrite (NumericField_eqb_neq _ _ Hne).
Qed.

(** Only the numeric fields of a record are touched. *)
Lemma sanitizeField_shape g field :
  exists n, Database.sanitizeField g field = with_numeric n g.
Proof.
  unfold Database.sanitizeField.
  destruct (numeric g field) as [v|].
  - eexists. reflexivity.
  - exists (numeric g). destruct g; reflexivity.
Qed.

Lemma sanitize_fold_shape fields g :
  exists n, fold_left Database.sanitizeField fields g = with_numeric n g.
Proof.
  revert g. induction fields as [|field fields IH]; intros g; simpl.
  - exists (numeric g). destruct g; reflexivity.
  - destruct (sanitizeField_shape g field) as [n Hn].
    destruct (IH (Database.sanitizeField g field)) as [n' Hn'].
    exists n'. rewrite Hn', Hn. reflexivity.
Qed.

Lemma sanitize_fold fields :
  NoDup fields ->
  forall g f,
    numeric (fold_left Database.sanitizeField fields g) f
    = if existsb (NumericField_eqb f) fields
      then Database.sanitizeValue <$> numeric g f
      else numeric g f.
Proof.
  induction 1 as [|field fields Hnotin Hnodup IH]; intros g f; simpl.
  - reflexivity.
  - rewrite IH.
    destruct (NumericField_eqb f field) eqn:E; simpl.
    + apply NumericField_eqb_eq in E. subst f.
      assert (Hex : existsb (NumericField_eqb field) fields = false).
      { destruct (existsb _ fields) eqn:Hex; [|reflexivity].
        apply existsb_exists in Hex. destruct Hex as (x & Hin & Hx).
        apply NumericField_eqb_eq in Hx. subst x.
        exfalso. apply Hnotin. now apply list_elem_of_In. }
      rewrite Hex. apply sanitizeField_same.
    + assert (Hne : f <> field).
      { intros ->. now rewrite NumericField_eqb_refl in E. }
      now rewrite (sanitizeField_other _ _ _ Hne).
Qed.

Lemma numericFields_NoDup : NoDup Database.numericFields.
Proof.
  unfold Database.numericFields.
  repeat (apply NoDup_cons_2;
          [intros Hin;
           repeat (apply elem_of_cons in Hin;
                   destruct Hin as [Hin|Hin]; [discriminate Hin|]);
           now apply elem_of_nil in Hin |]).
  apply NoDup_nil_2.
Qed.

Lemma numericFields_complete f :
  existsb (NumericField_eqb f) Database.numericFields = true.
Proof. destruct f as [s| |]; [destruct s|..]; reflexivity. Qed.

(** Every numeric field that is present goes through [sanitizeValue]. *)
Lemma sanitized_numeric g f :
  numeric (fold_left Database.sanitizeField Database.numericFields g) f
  = Database.sanitizeValue <$> numeric g f.
Proof.
  rewrite (sanitize_fold _ numericFields_NoDup), numericFields_complete.
  reflexivity.
Qed.

(** The coercion: [NaN] and negative values become 0, a finite value its
    floor, and [Infinity] stays [Infinity]. *)
Lemma sanitizeValue_cases v :
  (v = PosInfinity /\ Database.sanitizeValue v = PosInfinity) \/
  isNonNegInteger (Database.sanitizeValue v).
Proof.
  destruct v as [| | |q]; unfold Database.sanitizeValue; simpl.
  - right. exists 0. split; [lia | reflexivity].
  - left. split; reflexivity.
  - right. exists 0. split; [lia | reflexivity].
  - right. destruct (Qle_bool (inject_Z 0) q) eqn:E; simpl.
    + exists (Qfloor q). split; [|reflexivity].
      apply Qle_bool_iff in E.
      rewrite <- (Qfloor_Z 0). now apply Qfloor_resp_le.
    + exists 0. split; [lia | reflexivity].
Qed.

Lemma sanitizeValue_count n :
  0 <= n -> Database.sanitizeValue (ofZ n) = ofZ n.
Proof.
  intros Hn. unfold Database.sanitizeValue, ofZ; simpl.
  assert (E : Qle_bool (inject_Z 0) (inject_Z n) = true).
  { apply Qle_bool_iff. now rewrite <- Zle_Qle. }
  rewrite E. simpl. now rewrite Z.div_1_r.
Qed.

(** A record lacking [date] or [playerName] is rejected. *)
Lemma validateGameData_rejects now gameData :
  Database.missing gameData <> [] ->
  exists e, Database.validateGameData now gameData = Throw e /\
            name e = "DatabaseError".
Proof.
  intros Hm. unfold Database.validateGameData.
  destruct (Database.missing gameData) as [|m ms]; [congruence|].
  simpl. eexists. split; reflexivity.
Qed.

(** A record with both is accepted: the result is the sanitized record
    with its metadata. *)
Lemma validateGameData_value now gameData :
  Database.missing gameData = [] ->
  Database.validateGameData now gameData
  = Normal
      (let sanitized :=
         fold_left Database.sanitizeField Database.numericFields gameData in
       with_meta (mkMetadata (createdAt (meta sanitized)) (Some now)
                             (Some "1.0") (Model.userPin (meta sanitized)))
                 sanitized).
Proof.
  intros Hm. unfold Database.validateGameData. rewrite Hm. reflexivity.
Qed.

Lemma with_meta_fields m g :
  numeric (with_meta m g) = numeric g /\
  goalHistory (with_meta m g) = goalHistory g /\
  gameResult (with_meta m g) = gameResult g /\
  id (with_meta m g) = id g.
Proof. repeat split. Qed.

Lemma with_numeric_fields n g :
  goalHistory (with_numeric n g) = goalHistory g /\
  gameResult (with_numeric n g) = gameResult g /\
  id (with_numeric n g) = id g.
Proof. repeat split. Qed.

(** Its present numeric fields are coerced; the goal history, the result
    and the id are those of the input. *)
Lemma validateGameData_accepts now gameData :
  Database.missing gameData = [] ->
  exists validated,
    Database.validateGameData now gameData = Normal validated /\
    (forall f, numeric validated f
               = Database.sanitizeValue <$> numeric gameData f) /\
    goalHistory validated = goalHistory gameData /\
    gameResult validated = gameResult gameData /\
    id validated = id gameData.
Proof.
  intros Hm. eexists. split; [apply (validateGameData_value now _ Hm)|].
  cbv zeta.
  pose proof (sanitized_numeric gameData) as Hnum.
  destruct (sanitize_fold_shape Database.numericFields gameData) as [n Hn].
  generalize dependent
    (fold_left Database.sanitizeField Database.numericFields gameData).
  intros sanitized Hnum Hn.
  destruct (with_meta_fields
              (mkMetadata (createdAt (meta sanitized)) (Some now) (Some "1.0")
                          (Model.userPin (meta sanitized))) sanitized)
    as (E1 & E2 & E3 & E4).
  rewrite E1, E2, E3, E4. split; [exact Hnum|].
  destruct (with_numeric_fields n gameData) as (F2 & F3 & F4).
  rewrite Hn, F2, F3, F4. repeat split.
Qed.

(** When validation fails, [saveGame] and [updateGame] throw and the
    remote store is not touched. *)
Lemma invalid_data_not_persisted {Remote} `{Firestore Remote}
      (gameData : GameRecord) (gameId : string) (w : World Remote) :
  Database.missing gameData <> [] ->
  (remote (fst (Database.saveGame gameData w)) = remote w /\
   isThrow (snd (Database.saveGame gameData w)) = true) /\
  (remote (fst (Database.updateGame gameId gameData w)) = remote w /\
   isThrow (snd (Database.updateGame gameId gameData w)) = true).
Proof.
  intros Hm.
  destruct (validateGameData_rejects (clock w) gameData Hm) as (e & He & _).
  unfold Database.saveGame, Database.updateGame.
  destruct (Database.getUserPin w); [|repeat split].
  unfold tryCatch, bind, liftC. rewrite He. repeat split.
Qed.

(** C9.  [validateGameData] accepts a record whose [goalsLeft] is
    [Infinity] and returns it with [goalsLeft] still [Infinity]
    ([Math.floor(Infinity)] is [Infinity]), and [saveGame] hands that
    record to the remote store: the persisted counter is not an integer,
    although the coercion is meant to ensure integers. *)
Theorem infinite_counter_is_persisted :
  (exists validated,
      Database.validateGameData 0 Scenarios.infiniteGame = Normal validated /\
      numeric validated (Stat goalsLeft) = Some PosInfinity) /\
  (exists data,
      remote (fst (@Database.saveGame _ Scenarios.memory Scenarios.infiniteGame
                     (Scenarios.memoryWorld 0)))
      = [("doc0", data)] /\
      numeric data (Stat goalsLeft) = Some PosInfinity) /\
  ~ isNonNegInteger PosInfinity.
Proof.
  split; [|split].
  - eexists. split; reflexivity.
  - eexists. split; reflexivity.
  - intros (z & _ & Hz). discriminate Hz.
Qed.

(* ===================================================================== *)
(** * Properties of saveGame *)
(* ===================================================================== *)

Lemma Qle_bool_inject a b : Qle_bool (inject_Z a) (inject_Z b) = (a <=? b).
Proof. unfold Qle_bool, inject_Z; simpl. now rewrite !Z.mul_1_r. Qed.

(** On integers, [resultOf] is the comparison of the two counts. *)
Lemma resultOf_counts a b :
  resultOf (ofZ a) (ofZ b)
  = if a >? b then Win else if a <? b then Loss else Tie.
Proof.
  unfold resultOf, gt, lt, ofZ. rewrite !Qle_bool_inject.
  destruct (Z.leb_spec a b), (Z.leb_spec b a),
    (Z.gtb_spec a b), (Z.ltb_spec a b); simpl; try reflexivity; lia.
Qed.

(** The record assembled by [saveGame] satisfies the invariant. *)
Lemma buildGame_consistent st : Spec.consistent (GameStats.buildGame st).
Proof.
  split.
  - eexists. repeat split.
  - do 2 eexists. split; [reflexivity|]. split; [reflexivity|].
    simpl. now rewrite resultOf_counts.
Qed.

(** The invariant only reads the score, the goal lists and the result. *)
Lemma consistent_ext g g' :
  numeric g' fOurGoals = numeric g fOurGoals ->
  numeric g' fTheirGoals = numeric g fTheirGoals ->
  goalHistory g' = goalHistory g ->
  gameResult g' = gameResult g ->
  Spec.consistent g -> Spec.consistent g'.
Proof.
  intros Ho Ht Hh Hr [(gh & H1 & H2 & H3) (o & t & H4 & H5 & H6)].
  split.
  - exists gh. rewrite Hh, Ho, Ht. auto.
  - exists o, t. rewrite Ho, Ht, Hr. auto.
Qed.

(** Validation keeps the invariant: the two counts are non-negative
    integers, which the coercion leaves alone. *)
Lemma validated_consistent now g validated :
  Database.validateGameData now g = Normal validated ->
  Spec.consistent g -> Spec.consistent validated.
Proof.
  intros Hv Hc.
  destruct (Database.missing g) as [|m ms] eqn:Hm.
  - destruct (validateGameData_accepts now g Hm)
      as (v & Hv' & Hnum & Hh & Hr & _).
    rewrite Hv' in Hv. injection Hv as <-.
    pose proof Hc as [(gh & H1 & H2 & H3) _].
    apply (consistent_ext g); auto.
    + rewrite Hnum, H2. simpl. rewrite sanitizeValue_count; [reflexivity|lia].
    + rewrite Hnum, H3. simpl. rewrite sanitizeValue_count; [reflexivity|lia].
  - destruct (validateGameData_rejects now g) as (e & He & _); [congruence|].
    congruence.
Qed.

Section SaveProperties.
Context {Remote : Type} `{Firestore Remote}.

(** What [gameService.saveGame] returns is the validated record, with
    its metadata and an id. *)
Lemma saveGame_returns gameData (w w1 : World Remote) saved :
  Database.saveGame gameData w = (w1, Normal (Some saved)) ->
  exists validated m i,
    Database.validateGameData (clock w) gameData = Normal validated /\
    saved = with_id (Some i) (with_meta m validated).
Proof.
  unfold Database.saveGame.
  destruct (Database.getUserPin w) as [pin|]; [|discriminate].
  unfold tryCatch, bind at 1, liftC.
  destruct (Database.validateGameData (clock w) gameData) as [validated|e0];
    [|discriminate].
  unfold bind at 1, getClock.
  match goal with
  | |- context [Database.withRetry ?op _ _ w] =>
      destruct (Database.withRetry op Database.maxRetries_default
                  Database.delay_default w) as [w' [[v|]|e]] eqn:E
  end; try discriminate.
  intros [= <- <-].
  apply withRetry_value in E. destruct E as (w0 & w0' & Hop).
  unfold bind, onRemote, ret in Hop.
  destruct (addDoc _ (remote w0)) as [r [i|e]]; [|discriminate].
  injection Hop as _ <-.
  do 3 eexists. split; [reflexivity|]. unfold Database.withDocId. reflexivity.
Qed.

(** With three attempts [gameService.saveGame] never returns
    [undefined]. *)
Lemma saveGame_never_undefined gameData (w : World Remote) :
  snd (Database.saveGame gameData w) <> Normal None.
Proof.
  unfold Database.saveGame.
  destruct (Database.getUserPin w) as [pin|]; [|discriminate].
  rewrite tryCatch_rethrow_result. unfold bind at 1, liftC.
  destruct (Database.validateGameData (clock w) gameData) as [validated|e0];
    [|discriminate].
  unfold bind at 1, getClock.
  unfold Database.maxRetries_default, Database.delay_default.
  match goal with
  | |- context [Database.withRetry ?op ?n ?d w] =>
      pose proof (withRetry_defined op w) as Hd;
      destruct (Database.withRetry op n d w) as [w' [[v|]|e]]
  end; simpl in *; congruence.
Qed.

(** A saved record satisfies the invariant when the submitted one does. *)
Lemma saveGame_returns_consistent gameData (w w1 : World Remote) saved :
  Spec.consistent gameData ->
  Database.saveGame gameData w = (w1, Normal (Some saved)) ->
  Spec.consistent saved.
Proof.
  intros Hc Hs.
  destruct (saveGame_returns _ _ _ _ Hs) as (validated & m & i & Hv & ->).
  apply (consistent_ext validated); try reflexivity.
  exact (validated_consistent _ _ _ Hv Hc).
Qed.

(** The fallback record of the [catch] branch satisfies it as well. *)
Lemma localGame_consistent now st : Spec.consistent (GameStats.localGame now st).
Proof.
  apply (consistent_ext (GameStats.buildGame st)); try reflexivity.
  apply buildGame_consistent.
Qed.

(** [saveGame] adds at most one record, and that record satisfies the
    invariant. *)
Lemma saveGame_adds_consistent confirmAnswer st (w : World Remote) :
  GameStats.savedGames (fst (GameStats.saveGame confirmAnswer st w))
    = GameStats.savedGames st \/
  exists g,
    GameStats.savedGames (fst (GameStats.saveGame confirmAnswer st w))
      = g :: GameStats.savedGames st /\
    Spec.consistent g.
Proof.
  unfold GameStats.saveGame.
  destruct (_ && negb confirmAnswer); [left; reflexivity|].
  destruct (Database.saveGame (GameStats.buildGame st) w)
    as [w1 [[saved|]|e]] eqn:E; simpl.
  - right. exists saved. split; [reflexivity|].
    exact (saveGame_returns_consistent _ _ _ _ (buildGame_consistent st) E).
  - left. reflexivity.
  - right. eexists. split; [reflexivity|]. apply localGame_consistent.
Qed.
End SaveProperties.

(** The session right after a failed save.  When the user goes on with
    the save and [gameService.saveGame] fails (after its retries, or at
    once), [saveGame] puts the record at
    the head of the saved games under the id [local_<Date.now()>], writes
    the new list to local storage when the storage accepts it, shows the
    error to the user and marks the sync status as an error, and resets
    the stat counters, both goal lists and the notes; the save is over
    ([isSaving] is false) and the record holds the goals of the session. *)
Theorem save_failure_keeps_record_locally :
  forall (Remote : Type) (F : Firestore Remote)
         (confirmAnswer : bool) (st : GameStats.State)
         (w w1 : World Remote) (e : JsError),
    (0 <? length (GameStats.validateStats (GameStats.stats st)))%nat
      && negb confirmAnswer = false ->
    Database.saveGame (GameStats.buildGame st) w = (w1, Throw e) ->
    let st' := fst (GameStats.saveGame confirmAnswer st w) in
    let w2 := snd (GameStats.saveGame confirmAnswer st w) in
    let record := GameStats.localGame (clock w1) st in
    GameStats.savedGames st' = record :: GameStats.savedGames st /\
    id record = Some ("local_" +:+ numToString (clock w1)) /\
    goalHistory record
      = Some (mkGoalHistory (GameStats.ourGoals st) (GameStats.theirGoals st)) /\
    Spec.consistent record /\
    (writable (storage w1) = true ->
     gamesItems (storage w2) !! GameStats.savedGamesKey (GameStats.userPin st)
       = Some (GameStats.savedGames st')) /\
    GameStats.alerts st'
      = GameStats.alerts st ++ [GameStats.saveFailedMessage e] /\
    GameStats.syncStatus st' = GameStats.error /\
    GameStats.stats st' = GameStats.noStats /\
    GameStats.ourGoals st' = [] /\
    GameStats.theirGoals st' = [] /\
    GameStats.gameNotes st' = "" /\
    GameStats.isSaving st' = false.
Proof.
  intros Remote F confirmAnswer st w w1 e Hgo Hfail.
  unfold GameStats.saveGame. rewrite Hgo, Hfail. cbv zeta.
  cbn [fst snd].
  split; [reflexivity|]. split; [reflexivity|]. split; [reflexivity|].
  split; [apply localGame_consistent|].
  split.
  { intros Hw. unfold GameStats.saveToLocalStorage. rewrite Hw.
    cbn [storage gamesItems]. apply lookup_insert_eq. }
  repeat split.
Qed.

(** The remote store is unreachable: three attempts, then the local
    fallback. *)
Lemma save_failure_keeps_record_locally_witness :
  GameStats.savedGames
    (fst (@GameStats.saveGame unit (Scenarios.failing "unavailable")
            true Scenarios.session (Scenarios.world 0)))
  = [GameStats.localGame 3000 Scenarios.session] /\
  GameStats.alerts
    (fst (@GameStats.saveGame unit (Scenarios.failing "unavailable")
            true Scenarios.session (Scenarios.world 0)))
  <> [].
Proof.
  pose proof (save_failure_keeps_record_locally
                unit (Scenarios.failing "unavailable") true Scenarios.session
                (Scenarios.world 0)
                (mkWorld tt 3000 (mkLocalStorage (Some "1234") ∅ None true)
                   [Attempt 1; Sleep 1000; Attempt 2; Sleep 2000; Attempt 3])
                (Database.DatabaseError
                   "Failed to save game: request failed" (Some "unavailable"))
                eq_refl eq_refl) as (Hsaved & _ & _ & _ & _ & Halerts & _).
  split.
  - exact Hsaved.
  - rewrite Halerts. discriminate.
Defined.

(** C3 fails on the code: a record that was only saved locally is lost.
    The game with three goals of ours is saved while the store cannot be
    reached: it is kept under the id [local_3000] in the session and in
    local storage, and the alert says that it will sync when the
    connection is restored.  No code uploads it.  Once the store can be
    reached again and the games are loaded, the list of the session is
    the list of the store, which does not hold the game; the next save
    then writes that list over the local copy.  After it the game is
    neither in the session, nor in local storage, nor in the store. *)
Theorem unsynced_record_is_lost_after_reload :
  (map id (GameStats.savedGames (fst Scenarios.failedSave))
   = [Some "local_3000"] /\
   map (fun g => numeric g fOurGoals)
       (GameStats.savedGames (fst Scenarios.failedSave))
   = [Some (ofZ 3)] /\
   (map id <$> gamesItems (storage (snd Scenarios.failedSave))
                 !! GameStats.savedGamesKey "1234")
   = Some [Some "local_3000"] /\
   GameStats.alerts (fst Scenarios.failedSave)
   = ["Save failed: Failed to save game: request failed. Your data has been saved locally and will sync when connection is restored."]) /\
  (GameStats.savedGames (GameStats.session (fst Scenarios.reloaded)) = [] /\
   GameStats.syncStatus (GameStats.session (fst Scenarios.reloaded))
   = GameStats.synced /\
   snd (remote (snd Scenarios.reloaded)) = []) /\
  (map id (GameStats.savedGames (fst Scenarios.nextSave)) = [Some "doc0"] /\
   map opponent (GameStats.savedGames (fst Scenarios.nextSave))
   = [Some "Lions"] /\
   (map id <$> gamesItems (storage (snd Scenarios.nextSave))
                 !! GameStats.savedGamesKey "1234")
   = Some [Some "doc0"] /\
   map fst (snd (remote (snd Scenarios.nextSave))) = ["doc0"]).
Proof.
  split; [|split].
  - repeat split; vm_compute; reflexivity.
  - repeat split; vm_compute; reflexivity.
  - repeat split; vm_compute; reflexivity.
Qed.

(* ===================================================================== *)
(** * Properties of the goal log and of the stat counters *)
(* ===================================================================== *)

Lemma lockInvariant_initial pin date :
  Spec.lockInvariant (GameStats.initial pin date).
Proof. left. reflexivity. Qed.

(** In particular no release is pending while the lock is free. *)
Lemma lock_free_no_pending st :
  Spec.lockInvariant st ->
  GameStats.isAddingGoal st = false ->
  GameStats.pendingRelease st = [].
Proof. intros [Hp|[Hl _]] Hfree; [exact Hp | congruence]. Qed.

Lemma lockInvariant_goalStep now ev st :
  Spec.lockInvariant st -> Spec.lockInvariant (GameStats.goalStep now ev st).
Proof.
  intros Hinv. destruct ev; simpl.
  - unfold GameStats.addOurGoal.
    destruct (GameStats.isAddingGoal st) eqn:Hlock; simpl; [exact Hinv|].
    destruct (_ <=? _); simpl; [exact Hinv|].
    destruct Hinv as [Hp|[Hl _]]; [|congruence].
    right. split; [reflexivity|]. rewrite Hp. eauto.
  - unfold GameStats.addTheirGoal.
    destruct (GameStats.isAddingGoal st) eqn:Hlock; simpl; [exact Hinv|].
    destruct (_ <=? _); simpl; [exact Hinv|].
    destruct Hinv as [Hp|[Hl _]]; [|congruence].
    right. split; [reflexivity|]. rewrite Hp. eauto.
  - unfold GameStats.removeLastOurGoal.
    destruct (GameStats.isAddingGoal st) eqn:Hlock; [exact Hinv|].
    destruct Hinv as [Hp|[Hl _]]; [left; exact Hp | congruence].
  - unfold GameStats.removeLastTheirGoal.
    destruct (GameStats.isAddingGoal st) eqn:Hlock; [exact Hinv|].
    destruct Hinv as [Hp|[Hl _]]; [left; exact Hp | congruence].
  - unfold GameStats.timersFire.
    destruct Hinv as [Hp|[Hl [due Hp]]]; rewrite Hp; simpl.
    + left. exact Hp.
    + destruct (due <=? now); simpl.
      * left. reflexivity.
      * right. split; [exact Hl|]. eauto.
Qed.

Lemma lockInvariant_statStep ev st :
  Spec.lockInvariant st -> Spec.lockInvariant (GameStats.statStep ev st).
Proof. intros Hinv. destruct ev; exact Hinv. Qed.

Lemma lockInvariant_saveGame {Remote} `{Firestore Remote}
      confirmAnswer st (w : World Remote) :
  Spec.lockInvariant st ->
  Spec.lockInvariant (fst (GameStats.saveGame confirmAnswer st w)).
Proof.
  intros Hinv. unfold GameStats.saveGame.
  destruct (_ && negb confirmAnswer); [exact Hinv|].
  destruct (Database.saveGame _ w) as [w1 [[saved|]|e]]; exact Hinv.
Qed.

(** While no release is due, a locked goal log ignores every goal
    operation, and the timers leave the lock alone. *)
Lemma locked_step_is_noop now due ev st :
  GameStats.isAddingGoal st = true ->
  GameStats.pendingRelease st = [due] ->
  now < due ->
  GameStats.goalStep now ev st = st.
Proof.
  intros Hlock Hp Hlt. destruct ev; simpl.
  - unfold GameStats.addOurGoal. now rewrite Hlock.
  - unfold GameStats.addTheirGoal. now rewrite Hlock.
  - unfold GameStats.removeLastOurGoal. now rewrite Hlock.
  - unfold GameStats.removeLastTheirGoal. now rewrite Hlock.
  - unfold GameStats.timersFire. rewrite Hp. simpl.
    destruct (Z.leb_spec due now); [lia | reflexivity].
Qed.

Lemma locked_run_is_noop due evs st :
  GameStats.isAddingGoal st = true ->
  GameStats.pendingRelease st = [due] ->
  Forall (fun ev => fst ev < due) evs ->
  GameStats.runGoalEvents evs st = st.
Proof.
  intros Hlock Hp Hall. unfold GameStats.runGoalEvents.
  induction Hall as [|[now ev] evs Hlt _ IH]; simpl; [reflexivity|].
  rewrite (locked_step_is_noop now due ev st Hlock Hp Hlt). exact IH.
Qed.

(** C10.  [addOurGoal] and [addTheirGoal] take the same lock.  After
    either of them is accepted at time [now] (the lock was free, no
    release was pending and the side had fewer than 20 goals), the lock
    is held, and whatever sequence of [addOurGoal], [addTheirGoal],
    [removeLastOurGoal], [removeLastTheirGoal] and timer callbacks takes
    place before [now + 500] leaves the state as it is: no goal is added
    for either side and none is undone. *)
Theorem goal_lock_blocks_goal_operations :
  forall (now : Z) (st locked : GameStats.State)
         (evs : list (Z * GameStats.GoalEvent)),
    GameStats.isAddingGoal st = false ->
    GameStats.pendingRelease st = [] ->
    (Z.of_nat (length (GameStats.ourGoals st)) < GameStats.MAX_GOALS_PER_GAME /\
     locked = fst (GameStats.addOurGoal now st)) \/
    (Z.of_nat (length (GameStats.theirGoals st)) < GameStats.MAX_GOALS_PER_GAME /\
     locked = fst (GameStats.addTheirGoal now st)) ->
    Forall (fun ev => fst ev < now + 500) evs ->
    GameStats.isAddingGoal locked = true /\
    GameStats.runGoalEvents evs locked = locked /\
    GameStats.ourGoals (GameStats.runGoalEvents evs locked)
      = GameStats.ourGoals locked /\
    GameStats.theirGoals (GameStats.runGoalEvents evs locked)
      = GameStats.theirGoals locked.
Proof.
  intros now st locked evs Hfree Hp Hadd Hall.
  assert (Hl : GameStats.isAddingGoal locked = true /\
               GameStats.pendingRelease locked = [now + 500]).
  { destruct Hadd as [[Hlen ->]|[Hlen ->]].
    - unfold GameStats.addOurGoal. rewrite Hfree. simpl.
      destruct (Z.leb_spec GameStats.MAX_GOALS_PER_GAME
                  (Z.of_nat (length (GameStats.ourGoals st)))); [lia|].
      simpl. rewrite Hp. split; reflexivity.
    - unfold GameStats.addTheirGoal. rewrite Hfree. simpl.
      destruct (Z.leb_spec GameStats.MAX_GOALS_PER_GAME
                  (Z.of_nat (length (GameStats.theirGoals st)))); [lia|].
      simpl. rewrite Hp. split; reflexivity. }
  destruct Hl as [Hlock Hpending].
  pose proof (locked_run_is_noop (now + 500) evs locked Hlock Hpending Hall)
    as Hrun.
  rewrite Hrun. repeat split. exact Hlock.
Qed.

(** Right after our goal at 1000 ms, a second goal for either side and
    both undo operations are ignored until 1500 ms. *)
Lemma goal_lock_blocks_goal_operations_witness :
  GameStats.runGoalEvents
    [(1100, GameStats.AddTheirGoal); (1200, GameStats.RemoveLastOurGoal);
     (1300, GameStats.AddOurGoal); (1400, GameStats.TimersFire);
     (1499, GameStats.RemoveLastTheirGoal)]
    (fst (GameStats.addOurGoal 1000 Scenarios.session))
  = fst (GameStats.addOurGoal 1000 Scenarios.session).
Proof.
  apply (goal_lock_blocks_goal_operations 1000 Scenarios.session).
  - reflexivity.
  - reflexivity.
  - left. split; [reflexivity | reflexivity].
  - repeat constructor.
Defined.

(** C5 (as amended).  When the lock is free and the side has fewer than
    20 goals, [addOurGoal] ([addTheirGoal]) appends to that side's list
    the goal [{ time: formatTime(clock), minute: floor(clock / 60),
    timestamp: now }] for the current game-clock position, takes the lock
    and schedules its release.  Once the side has 20 goals the call
    changes nothing at all, and it returns [undefined] like an accepted
    call: nothing is thrown or reported. *)
Theorem addGoal_appends_or_is_ignored :
  forall (now : Z) (st : GameStats.State),
    (GameStats.isAddingGoal st = false ->
     Z.of_nat (length (GameStats.ourGoals st)) < 20 ->
     GameStats.addOurGoal now st
     = (GameStats.setGoalLog true
          (GameStats.ourGoals st ++
           [mkGoal (GameStats.formatTime (GameStats.halftimeSeconds st))
                   (GameStats.halftimeSeconds st / 60) now])
          (GameStats.theirGoals st)
          (GameStats.pendingRelease st ++ [now + 500]) st,
        Normal tt)) /\
    (GameStats.isAddingGoal st = false ->
     Z.of_nat (length (GameStats.theirGoals st)) < 20 ->
     GameStats.addTheirGoal now st
     = (GameStats.setGoalLog true
          (GameStats.ourGoals st)
          (GameStats.theirGoals st ++
           [mkGoal (GameStats.formatTime (GameStats.halftimeSeconds st))
                   (GameStats.halftimeSeconds st / 60) now])
          (GameStats.pendingRelease st ++ [now + 500]) st,
        Normal tt)) /\
    (20 <= Z.of_nat (length (GameStats.ourGoals st)) ->
     GameStats.addOurGoal now st = (st, Normal tt)) /\
    (20 <= Z.of_nat (length (GameStats.theirGoals st)) ->
     GameStats.addTheirGoal now st = (st, Normal tt)).
Proof.
  intros now st. unfold GameStats.addOurGoal, GameStats.addTheirGoal,
    GameStats.MAX_GOALS_PER_GAME, GameStats.newGoal.
  repeat split.
  - intros -> Hlen. simpl.
    destruct (Z.leb_spec 20 (Z.of_nat (length (GameStats.ourGoals st))));
      [lia | reflexivity].
  - intros -> Hlen. simpl.
    destruct (Z.leb_spec 20 (Z.of_nat (length (GameStats.theirGoals st))));
      [lia | reflexivity].
  - intros Hlen.
    destruct (Z.leb_spec 20 (Z.of_nat (length (GameStats.ourGoals st))));
      [|lia].
    now rewrite orb_true_r.
  - intros Hlen.
    destruct (Z.leb_spec 20 (Z.of_nat (length (GameStats.theirGoals st))));
      [|lia].
    now rewrite orb_true_r.
Qed.

(** A goal at 2710 s of game clock, and a 21st goal that is ignored. *)
Lemma addGoal_appends_or_is_ignored_witness :
  GameStats.ourGoals
    (fst (GameStats.addOurGoal 5000
            (GameStats.handleHalftimeUpdate 2710 Scenarios.session)))
  = [mkGoal "45:10" 45 5000] /\
  GameStats.addOurGoal 99000 Scenarios.fullSession
  = (Scenarios.fullSession, Normal tt).
Proof.
  split.
  - rewrite (proj1 (addGoal_appends_or_is_ignored 5000
               (GameStats.handleHalftimeUpdate 2710 Scenarios.session)));
      [reflexivity | reflexivity | vm_compute; reflexivity].
  - apply (proj1 (proj2 (proj2 (addGoal_appends_or_is_ignored 99000
                                  Scenarios.fullSession)))).
    vm_compute. discriminate.
Defined.

(** C5 (as stated) fails.  With 20 goals on our side the call is a
    no-op, but it completes normally with [undefined], exactly like an
    accepted call, and shows no alert: no [CapacityExceeded] is
    signalled. *)
Lemma addGoal_at_capacity_signals_nothing :
  length (GameStats.ourGoals Scenarios.fullSession) = 20%nat /\
  GameStats.isAddingGoal Scenarios.fullSession = false /\
  GameStats.addOurGoal 99000 Scenarios.fullSession
    = (Scenarios.fullSession, Normal tt) /\
  snd (GameStats.addOurGoal 99000 Scenarios.fullSession)
    = snd (GameStats.addOurGoal 500 Scenarios.session) /\
  isThrow (snd (GameStats.addOurGoal 99000 Scenarios.fullSession)) = false /\
  GameStats.alerts (fst (GameStats.addOurGoal 99000 Scenarios.fullSession))
    = [].
Proof. vm_compute. repeat split. Qed.

(** The counters of the live session: [decrement] stops at 0. *)
Lemma decrement_at_zero : GameStats.decrement 0 = 0.
Proof. reflexivity. Qed.

Lemma decrement_nonneg value : 0 <= value -> 0 <= GameStats.decrement value.
Proof.
  intros Hv. unfold GameStats.decrement.
  destruct (Z.gtb_spec value 0); lia.
Qed.

Lemma statStep_nonneg ev st :
  (forall s, 0 <= GameStats.stats st s) ->
  forall s, 0 <= GameStats.stats (GameStats.statStep ev st) s.
Proof.
  intros Hst s. destruct ev as [s'|s']; simpl; destruct (StatName_eqb s s').
  - unfold GameStats.increment. specialize (Hst s'). lia.
  - apply Hst.
  - apply decrement_nonneg, Hst.
  - apply Hst.
Qed.

(** No sequence of [+] and [-] clicks makes a counter of the live session
    negative. *)
Lemma live_counters_never_negative evs pin date s :
  0 <= GameStats.stats
         (GameStats.runStatEvents evs (GameStats.initial pin date)) s.
Proof.
  unfold GameStats.runStatEvents.
  assert (Hgen : forall st, (forall s, 0 <= GameStats.stats st s) ->
            forall s, 0 <= GameStats.stats
                             (fold_left (fun st ev => GameStats.statStep ev st)
                                        evs st) s).
  { induction evs as [|ev evs IH]; intros st Hst; simpl; [exact Hst|].
    apply IH, statStep_nonneg, Hst. }
  apply Hgen. intros s'. simpl. unfold GameStats.noStats. lia.
Qed.

(** C8.  In the first prototype of the application the [-] button calls
    [handleStatChange(key, -1)], which adds the delta without any guard:
    from the initial counters, one click on [-] for [goalsLeft] leaves
    the counter at -1, where the live session's [decrement] keeps 0. *)
Theorem legacy_counter_goes_negative :
  LegacyApp.minusButton LegacyApp.goalsLeft LegacyApp.initialStats
    LegacyApp.goalsLeft = -1 /\
  GameStats.decrement (LegacyApp.initialStats LegacyApp.goalsLeft) = 0.
Proof. split; reflexivity. Qed.

(* ===================================================================== *)
(** * Properties of the timer *)
(* ===================================================================== *)

(** The interval callback clamps: it never moves the elapsed time past
    the end of the half. *)
Lemma tick_is_capped now t :
  Timers.elapsed t <= Timers.halfDurationSeconds t ->
  Timers.elapsed (Timers.tick now t) <= Timers.halfDurationSeconds (Timers.tick now t).
Proof.
  intros Hle. unfold Timers.tick.
  destruct (Timers.isRunning t && negb (Timers.isTimeUp t)); [|exact Hle].
  unfold Timers.elapsed, Timers.halfDurationSeconds,
    Timers.totalHalftimeSeconds; simpl.
  apply Z.le_min_r.
Qed.

(** Once time is up, [startTimer] is ignored. *)
Lemma start_ignored_when_time_is_up now t :
  Timers.isTimeUp t = true -> Timers.startTimer now t = t.
Proof.
  intros Hup. unfold Timers.startTimer. rewrite Hup.
  now rewrite andb_false_r.
Qed.

(** [isTimeUp] means that the elapsed time has reached the duration. *)
Lemma isTimeUp_iff t :
  Timers.isTimeUp t = true <->
  Timers.halfDurationSeconds t <= Timers.elapsed t.
Proof.
  unfold Timers.isTimeUp, Timers.remainingSeconds, Timers.elapsed,
    Timers.halfDurationSeconds.
  rewrite Z.eqb_eq. lia.
Qed.

(** As long as the elapsed time is within the half, [isTimeUp] holds
    exactly when it equals the duration. *)
Lemma isTimeUp_when_capped t :
  Timers.elapsed t <= Timers.halfDurationSeconds t ->
  (Timers.isTimeUp t = true <->
   Timers.elapsed t = Timers.halfDurationSeconds t).
Proof. intros Hle. rewrite isTimeUp_iff. lia. Qed.

Lemma autoPause_keeps_time t :
  Timers.elapsed (Timers.autoPause t) = Timers.elapsed t /\
  Timers.halfDurationSeconds (Timers.autoPause t)
    = Timers.halfDurationSeconds t.
Proof.
  unfold Timers.autoPause.
  destruct (Timers.isTimeUp t && Timers.isRunning t); split; reflexivity.
Qed.

(** Every event but a stop of the running timer keeps the elapsed time
    within the half: the overshoot can only come from [pauseTimer]. *)
Lemma capped_unless_paused ev t :
  0 <= Timers.halftimeMinutes t ->
  Timers.elapsed t <= Timers.halfDurationSeconds t ->
  (forall now, ev = Timers.Click Timers.StartStop now ->
               Timers.isRunning t = false) ->
  Timers.elapsed (Timers.step ev t)
    <= Timers.halfDurationSeconds (Timers.step ev t).
Proof.
  intros Hmin Hle Hstop. unfold Timers.step.
  destruct (autoPause_keeps_time (Timers.handle ev t)) as [-> ->].
  destruct ev as [b now|now|m]; simpl.
  - destruct (Timers.rendered b t); [|exact Hle].
    destruct b.
    + unfold Timers.startTimer. rewrite (Hstop now eq_refl).
      destruct (negb false && negb (Timers.isTimeUp t)); exact Hle.
    + unfold Timers.elapsed, Timers.halfDurationSeconds,
        Timers.totalHalftimeSeconds; simpl. lia.
    + unfold Timers.elapsed, Timers.halfDurationSeconds,
        Timers.totalHalftimeSeconds; simpl. lia.
    + unfold Timers.elapsed, Timers.halfDurationSeconds,
        Timers.totalHalftimeSeconds; simpl. lia.
  - apply tick_is_capped, Hle.
  - unfold Timers.selectDuration.
    destruct (Timers.selectDisabled t); simpl; [exact Hle|].
    unfold Timers.setHalftimeMinutes.
    destruct (m =? Timers.halftimeMinutes t); [exact Hle|].
    unfold Timers.halftimeMinutesEffect; simpl.
    destruct (Z.ltb_spec m 1); simpl.
    + unfold Timers.elapsed, Timers.halfDurationSeconds,
        Timers.totalHalftimeSeconds; simpl. lia.
    + destruct (Z.gtb_spec m 90); simpl;
        unfold Timers.elapsed, Timers.halfDurationSeconds,
          Timers.totalHalftimeSeconds; simpl; lia.
Qed.

(** C2.  In a 30-minute half, the user starts the timer and stops it
    1805 seconds later before any tick of the interval has run (both
    clicks hit the Start/Stop button, which is rendered).  [pauseTimer]
    stores the uncapped total: the elapsed time is 1805, more than the
    1800 seconds of the half, and [isTimeUp] holds although the elapsed
    time differs from the duration.  With a tick in between, the elapsed
    time is clamped to 1800. *)
Theorem late_stop_exceeds_half_duration :
  Timers.rendered Timers.StartStop (Timers.initial 30) = true /\
  Timers.rendered Timers.StartStop Scenarios.runningTimer = true /\
  Timers.elapsed (Timers.run Scenarios.lateStop (Timers.initial 30)) = 1805 /\
  Timers.halfDurationSeconds
    (Timers.run Scenarios.lateStop (Timers.initial 30)) = 1800 /\
  Timers.isTimeUp (Timers.run Scenarios.lateStop (Timers.initial 30)) = true /\
  Timers.elapsed
    (Timers.run [Timers.Click Timers.StartStop 0; Timers.Tick 1805000;
                 Timers.Click Timers.StartStop 1805000]
                (Timers.initial 30)) = 1800.
Proof. vm_compute. repeat split. Qed.

(** C6 (as amended).  While the timer is not running and the game is in
    its first half, selecting another valid half duration resets the
    timer: first half, paused, elapsed 0, with the new duration.  While
    the timer is running, or in the second half, the selector is disabled:
    nothing changes and no error is raised. *)
Theorem duration_change_resets_or_is_disabled :
  forall (m : Z) (t : Timers.State),
    (Timers.isRunning t = false ->
     Timers.currentHalf t = 1 ->
     m <> Timers.halftimeMinutes t ->
     1 <= m <= 90 ->
     Timers.selectDuration m t = (Timers.initial m, Normal tt)) /\
    (Timers.isRunning t = true \/ Timers.currentHalf t = 2 ->
     Timers.selectDuration m t = (t, Normal tt)).
Proof.
  intros m t. unfold Timers.selectDuration, Timers.selectDisabled. split.
  - intros Hr Hh Hm Hrange. rewrite Hr, Hh. simpl.
    unfold Timers.setHalftimeMinutes.
    destruct (Z.eqb_spec m (Timers.halftimeMinutes t)); [contradiction|].
    unfold Timers.halftimeMinutesEffect; simpl.
    destruct (Z.ltb_spec m 1); [lia|].
    destruct (Z.gtb_spec m 90); [lia|]. reflexivity.
  - intros [Hr|Hh].
    + now rewrite Hr.
    + rewrite Hh. now rewrite orb_true_r.
Qed.

(** From 30 to 45 minutes while paused in the first half, and the same
    change while running. *)
Lemma duration_change_resets_or_is_disabled_witness :
  Timers.selectDuration 45 (Timers.initial 30)
    = (Timers.initial 45, Normal tt) /\
  Timers.selectDuration 45 Scenarios.runningTimer
    = (Scenarios.runningTimer, Normal tt).
Proof.
  split.
  - apply (proj1 (duration_change_resets_or_is_disabled 45 (Timers.initial 30)));
      [reflexivity | reflexivity | discriminate | lia].
  - apply (proj2 (duration_change_resets_or_is_disabled 45 Scenarios.runningTimer)).
    left. reflexivity.
Defined.

(** C6 (as stated) fails.  Paused in the second half after 100 seconds,
    the duration cannot be changed: the selector is disabled and the timer
    keeps its state instead of returning to the first half with elapsed 0.
    While running, the attempt raises no validation error: the call
    completes normally. *)
Lemma duration_change_counterexample :
  Timers.isRunning Scenarios.pausedSecondHalf = false /\
  Timers.elapsed Scenarios.pausedSecondHalf = 100 /\
  Timers.currentHalf Scenarios.pausedSecondHalf = 2 /\
  fst (Timers.selectDuration 45 Scenarios.pausedSecondHalf)
    = Scenarios.pausedSecondHalf /\
  Timers.isRunning Scenarios.runningTimer = true /\
  isThrow (snd (Timers.selectDuration 45 Scenarios.runningTimer)) = false.
Proof. vm_compute. repeat split. Qed.

(* ===================================================================== *)
(** * Properties of the goal timeline *)
(* ===================================================================== *)

Section Sorting.
Context {A : Type} (key : A -> Z).

Lemma insertSorted_perm x l :
  Permutation (GameStats.insertSorted (Spec.keyBefore key) x l) (x :: l).
Proof.
  induction l as [|y l IH]; simpl; [reflexivity|].
  destruct (Spec.keyBefore key x y); [reflexivity|].
  rewrite IH. apply perm_swap.
Qed.

Lemma insertSorted_sorted x l :
  StronglySorted (Spec.keyOrdered key) l ->
  StronglySorted (Spec.keyOrdered key)
                 (GameStats.insertSorted (Spec.keyBefore key) x l).
Proof.
  induction 1 as [|y l Hs IH Hall]; simpl.
  - constructor; constructor.
  - unfold Spec.keyBefore at 1. destruct (Z.ltb_spec (key x - key y) 0).
    + constructor; [constructor; assumption|].
      constructor; [unfold Spec.keyOrdered; lia|].
      eapply Forall_impl; [exact Hall|].
      unfold Spec.keyOrdered. intros z Hz. lia.
    + constructor; [exact IH|].
      rewrite (insertSorted_perm x l).
      constructor; [unfold Spec.keyOrdered; lia | exact Hall].
Qed.

Lemma stableSort_perm l :
  Permutation (GameStats.stableSort (Spec.keyBefore key) l) l.
Proof.
  unfold GameStats.stableSort.
  assert (Hgen : forall acc,
             Permutation
               (fold_left (fun sorted x =>
                             GameStats.insertSorted (Spec.keyBefore key) x sorted)
                          l acc)
               (acc ++ l)).
  { induction l as [|x l IH]; intros acc; simpl.
    - now rewrite app_nil_r.
    - rewrite IH, insertSorted_perm. apply Permutation_middle. }
  apply (Hgen []).
Qed.

Lemma stableSort_sorted l :
  StronglySorted (Spec.keyOrdered key)
                 (GameStats.stableSort (Spec.keyBefore key) l).
Proof.
  unfold GameStats.stableSort.
  assert (Hgen : forall acc,
             StronglySorted (Spec.keyOrdered key) acc ->
             StronglySorted (Spec.keyOrdered key)
               (fold_left (fun sorted x =>
                             GameStats.insertSorted (Spec.keyBefore key) x sorted)
                          l acc)).
  { induction l as [|x l IH]; intros acc Hacc; simpl; [exact Hacc|].
    apply IH, insertSorted_sorted, Hacc. }
  apply Hgen. constructor.
Qed.
End Sorting.

(** C7 (as amended).  The displayed timeline lists all goals of both
    sides, each once, ordered by their insertion timestamp.  After
    [addOurGoal] at the clock positions 10 s, 185 s and 2710 s it shows
    exactly these three goals in ascending clock order, with minutes 0, 3
    and 45, and so does the exported timeline of the saved game. *)
Theorem timeline_is_ordered_by_timestamp :
  (forall ours theirs : list Goal,
      Permutation (GameStats.mergedTimeline ours theirs)
                  (Spec.tagged ours theirs) /\
      StronglySorted Spec.byTimestamp (GameStats.mergedTimeline ours theirs)) /\
  map Spec.shown (GameStats.goalTimeline Scenarios.threeGoals)
    = [("0:10", 0, GameStats.us); ("3:05", 3, GameStats.us);
       ("45:10", 45, GameStats.us)] /\
  map GameStats.exportGoalTimeline (Scenarios.committed Scenarios.threeGoals)
    = ["0:10 Us; 3:05 Us; 45:10 Us"].
Proof.
  split; [|split].
  - intros ours theirs. unfold GameStats.mergedTimeline. split.
    + apply (stableSort_perm (fun e => timestamp (GameStats.goal e))).
    + apply (stableSort_sorted (fun e => timestamp (GameStats.goal e))).
  - vm_compute. reflexivity.
  - vm_compute. reflexivity.
Qed.

(** C7 (as stated) fails.  Our side scores at 1:40; the timer is reset
    and restarted, and the other side scores at 0:05.  The timeline shows
    the goal at 1:40 before the goal at 0:05: it follows the insertion
    timestamps, not the game clock. *)
Lemma timeline_not_ordered_by_game_clock :
  map Spec.shown (GameStats.goalTimeline Scenarios.goalsAroundReset)
    = [("1:40", 1, GameStats.us); ("0:05", 0, GameStats.them)] /\
  ~ Sorted Z.le
      (map (fun e => minute (GameStats.goal e))
           (GameStats.goalTimeline Scenarios.goalsAroundReset)).
Proof.
  split; [vm_compute; reflexivity|].
  intros Hs.
  assert (E : map (fun e => minute (GameStats.goal e))
                  (GameStats.goalTimeline Scenarios.goalsAroundReset) = [1; 0])
    by (vm_compute; reflexivity).
  rewrite E in Hs. inversion Hs as [|x l _ Hhd]; subst.
  inversion Hhd; subst. lia.
Qed.

(** The exported timeline sorts the strings ["M:SS Us"] by their code
    units: a goal at 10:00 comes before a goal at 2:00. *)
Lemma exported_timeline_orders_strings :
  map GameStats.exportGoalTimeline (Scenarios.committed Scenarios.twoAndTen)
    = ["10:00 Us; 2:00 Us"].
Proof. vm_compute. reflexivity. Qed.

(* ===================================================================== *)
(** * Properties of the edit forms *)
(* ===================================================================== *)

(** The record written by the current edit form satisfies the
    invariant, whatever the form holds. *)
Lemma updatedGame_consistent StringToNumber game form :
  Spec.consistent (GameHistory.updatedGame StringToNumber game form).
Proof.
  split.
  - eexists. repeat split.
  - do 2 eexists. split; [reflexivity|]. split; [reflexivity|].
    simpl. now rewrite resultOf_counts.
Qed.

Lemma saveEdit_consistent StringToNumber confirmAnswer savedGames
      filterOpponent editingGame form gameIndex updated :
  GameHistory.saveEdit StringToNumber confirmAnswer savedGames filterOpponent
                       editingGame form = Some (gameIndex, updated) ->
  Spec.consistent updated.
Proof.
  unfold GameHistory.saveEdit.
  destruct (_ && negb confirmAnswer); [discriminate|].
  intros [= _ <-]. apply updatedGame_consistent.
Qed.

(** Storing an edited record keeps the invariant of the saved games. *)
Lemma handleGameUpdate_consistent {Remote} `{Firestore Remote}
      gameIndex updated st (w : World Remote) :
  Spec.consistent updated ->
  Forall Spec.consistent (GameStats.savedGames st) ->
  Forall Spec.consistent
    (GameStats.savedGames
       (fst (GameStats.handleGameUpdate gameIndex updated st w))).
Proof.
  intros Hu Hall. unfold GameStats.handleGameUpdate.
  assert (Hfailed : Forall Spec.consistent
                      match gameIndex with
                      | Some i => <[i:=updated]> (GameStats.savedGames st)
                      | None => GameStats.savedGames st
                      end).
  { destruct gameIndex; [apply Forall_insert|]; assumption. }
  destruct (gameIndex ≫= _) as [game|]; [|exact Hfailed].
  destruct (if GameStats.isRemoteBacked game then _ else _) as [w1 c].
  destruct c as [v|e], gameIndex as [i|]; simpl; try exact Hfailed.
  apply Forall_insert; [exact Hall|].
  apply (consistent_ext updated); auto.
Qed.

(** [v || 0] compares like [v] unless [v] is [NaN]. *)
Lemma Qle_bool_compat x x' y y' :
  (x == x')%Q -> (y == y')%Q -> Qle_bool x y = Qle_bool x' y'.
Proof.
  intros Hx Hy.
  destruct (Qle_bool x y) eqn:E1, (Qle_bool x' y') eqn:E2; try reflexivity.
  - apply Qle_bool_iff in E1. rewrite Hx, Hy in E1.
    apply Qle_bool_iff in E1. congruence.
  - apply Qle_bool_iff in E2. rewrite <- Hx, <- Hy in E2.
    apply Qle_bool_iff in E2. congruence.
Qed.

Lemma orZero_finite v :
  isNaN v = false ->
  orZero v = v \/
  exists q, v = Finite q /\ (q == inject_Z 0)%Q /\ orZero v = Finite (inject_Z 0).
Proof.
  destruct v as [| | |q]; simpl; intros Hn; try discriminate;
    try (left; reflexivity).
  unfold orZero; simpl.
  destruct (Qeq_bool q 0) eqn:E; simpl; [|left; reflexivity].
  right. exists q. apply Qeq_bool_iff in E. repeat split. exact E.
Qed.

Lemma lt_orZero a b :
  isNaN a = false -> isNaN b = false ->
  lt (orZero a) (orZero b) = lt a b.
Proof.
  intros Ha Hb.
  destruct (orZero_finite a Ha) as [->|(x & -> & Hx & ->)],
           (orZero_finite b Hb) as [->|(y & -> & Hy & ->)];
    try reflexivity.
  - destruct a; try discriminate; try reflexivity.
    unfold lt. f_equal.
    apply Qle_bool_compat; [symmetry; exact Hy | reflexivity].
  - destruct b; try discriminate; try reflexivity.
    unfold lt. f_equal.
    apply Qle_bool_compat; [reflexivity | symmetry; exact Hx].
  - unfold lt. f_equal. apply Qle_bool_compat; symmetry; assumption.
Qed.

Lemma resultOf_orZero a b :
  isNaN a = false -> isNaN b = false ->
  resultOf (orZero a) (orZero b) = resultOf a b.
Proof.
  intros Ha Hb. unfold resultOf, gt.
  now rewrite (lt_orZero b a Hb Ha), (lt_orZero a b Ha Hb).
Qed.

(** The record written by the earlier edit form: the score is the one
    typed in the form and decides the result; the goal history is that
    of the game. *)
Lemma legacy_updatedGame_score game form o t :
  LegacyGameHistory.numbers form fOurGoals = Some o ->
  LegacyGameHistory.numbers form fTheirGoals = Some t ->
  isNaN o = false -> isNaN t = false ->
  numeric (LegacyGameHistory.updatedGame game form) fOurGoals = Some o /\
  numeric (LegacyGameHistory.updatedGame game form) fTheirGoals = Some t /\
  gameResult (LegacyGameHistory.updatedGame game form) = Some (resultOf o t) /\
  goalHistory (LegacyGameHistory.updatedGame game form) = goalHistory game.
Proof.
  intros Ho Ht Hno Hnt. simpl. unfold EditCommon.spreadNumbers.
  rewrite Ho, Ht. simpl. rewrite (resultOf_orZero o t Hno Hnt).
  repeat split.
Qed.

(** C1 (as amended).  Every record that [saveGame] adds to the saved
    games, and every record written by the edit form with the editable
    goal timeline and stored by [handleGameUpdate], has [ourGoals] and
    [theirGoals] equal to the lengths of the two lists of [goalHistory]
    and a [gameResult] that is Win, Loss or Tie according to that score.
    In the earlier edit form the score is typed in: the record it writes
    keeps the goal history of the game shown, takes the typed numbers as
    [ourGoals] and [theirGoals], and has the [gameResult] decided by
    these numbers, where a typed value that is not a number counts
    as 0. *)
Theorem records_keep_score_invariant :
  forall (Remote : Type) (F : Firestore Remote),
    (forall confirmAnswer st (w : World Remote),
        Forall Spec.consistent (GameStats.savedGames st) ->
        Forall Spec.consistent
          (GameStats.savedGames (fst (GameStats.saveGame confirmAnswer st w)))) /\
    (forall StringToNumber confirmAnswer filterOpponent editingGame form
            gameIndex updated st (w : World Remote),
        GameHistory.saveEdit StringToNumber confirmAnswer
          (GameStats.savedGames st) filterOpponent editingGame form
          = Some (gameIndex, updated) ->
        Forall Spec.consistent (GameStats.savedGames st) ->
        Spec.consistent updated /\
        Forall Spec.consistent
          (GameStats.savedGames
             (fst (GameStats.handleGameUpdate gameIndex updated st w)))) /\
    (forall confirmAnswer savedGames filterOpponent editingGame form
            gameIndex updated actualIndex game o t,
        LegacyGameHistory.saveEdit confirmAnswer savedGames filterOpponent
          editingGame form = Some (gameIndex, updated) ->
        EditCommon.filteredGames filterOpponent savedGames !! editingGame
          = Some (actualIndex, game) ->
        LegacyGameHistory.numbers form fOurGoals = Some o ->
        LegacyGameHistory.numbers form fTheirGoals = Some t ->
        goalHistory updated = goalHistory game /\
        numeric updated fOurGoals = Some o /\
        numeric updated fTheirGoals = Some t /\
        gameResult updated = Some (resultOf (orZero o) (orZero t))).
Proof.
  intros Remote F. split; [|split].
  - intros confirmAnswer st w Hall.
    destruct (saveGame_adds_consistent confirmAnswer st w)
      as [->|(g & -> & Hg)]; [exact Hall|].
    constructor; assumption.
  - intros StringToNumber confirmAnswer filterOpponent editingGame form
      gameIndex updated st w Hsave Hall.
    pose proof (saveEdit_consistent _ _ _ _ _ _ _ _ Hsave) as Hu.
    split; [exact Hu|]. now apply handleGameUpdate_consistent.
  - intros confirmAnswer savedGames filterOpponent editingGame form
      gameIndex updated actualIndex game o t Hsave Hrow Ho Ht.
    unfold LegacyGameHistory.saveEdit in Hsave.
    destruct (_ && negb confirmAnswer); [discriminate|].
    rewrite Hrow in Hsave. injection Hsave as _ <-.
    cbn [fmap option_fmap option_map snd default from_option Datatypes.id
         LegacyGameHistory.updatedGame goalHistory numeric gameResult].
    unfold EditCommon.spreadNumbers, EditCommon.orZeroOpt. rewrite Ho, Ht.
    repeat split.
Qed.

(** The game with one goal of ours, as saved by [saveGame]; the same
    game after a goal of the other side is added in the form with the
    editable goal timeline; and the same game after its score is typed
    as 3 in the earlier form. *)
Lemma records_keep_score_invariant_witness :
  Forall Spec.consistent (Scenarios.committed Scenarios.oneGoalSession) /\
  Spec.consistent Scenarios.timelineEdited /\
  (goalHistory Scenarios.legacyEdited
   = Some (mkGoalHistory [mkGoal "1:40" 1 1000] []) /\
   numeric Scenarios.legacyEdited fOurGoals = Some (ofZ 3) /\
   numeric Scenarios.legacyEdited fTheirGoals = Some (ofZ 0) /\
   gameResult Scenarios.legacyEdited = Some Win).
Proof.
  destruct (records_keep_score_invariant _ Scenarios.memory)
    as (Hsave & Hedit & Hlegacy).
  assert (Hsaved : Forall Spec.consistent
                     (Scenarios.committed Scenarios.oneGoalSession)).
  { apply (Hsave true Scenarios.oneGoalSession
                 (Scenarios.memoryWorld 3000000)).
    constructor. }
  split; [exact Hsaved|]. split.
  - apply (Hedit Scenarios.numberOfDigits true "" 0%nat
                 (GameHistory.addTheirGoal 2000
                    (GameHistory.startEditing
                       (default EditCommon.emptyGame
                          (Scenarios.committed Scenarios.oneGoalSession
                             !! 0%nat))))
                 (Some 0%nat) Scenarios.timelineEdited
                 (fst (@GameStats.saveGame _ Scenarios.memory true
                         Scenarios.oneGoalSession
                         (Scenarios.memoryWorld 3000000)))
                 (Scenarios.memoryWorld 3000000)).
    + vm_compute. reflexivity.
    + exact Hsaved.
  - destruct (Hlegacy true (Scenarios.committed Scenarios.oneGoalSession) ""
                   0%nat
                   (LegacyGameHistory.handleInputChange
                      Scenarios.numberOfDigits
                      (LegacyGameHistory.fNumber fOurGoals) "3"
                      (LegacyGameHistory.startEditing
                         (default EditCommon.emptyGame
                            (Scenarios.committed Scenarios.oneGoalSession
                               !! 0%nat))))
                   (Some 0%nat) Scenarios.legacyEdited 0%nat
                   (default EditCommon.emptyGame
                      (Scenarios.committed Scenarios.oneGoalSession
                         !! 0%nat))
                   (ofZ 3) (ofZ 0))
      as (Hhistory & Hours & Htheirs & Hresult).
    + vm_compute. reflexivity.
    + vm_compute. reflexivity.
    + vm_compute. reflexivity.
    + vm_compute. reflexivity.
    + split; [rewrite Hhistory; vm_compute; reflexivity|].
      split; [exact Hours|]. split; [exact Htheirs|].
      rewrite Hresult. vm_compute. reflexivity.
Defined.

(** C1 (as stated) fails.  A game saved with one goal of ours is edited
    in the earlier form, where the user types 3 in "Our Goals": the record
    written has [ourGoals = 3] while its goal history still lists one
    goal. *)
Lemma legacy_edit_breaks_goal_count :
  (exists g, Scenarios.committed Scenarios.oneGoalSession = [g] /\
             Spec.consistent g) /\
  numeric Scenarios.legacyEdited fOurGoals = Some (ofZ 3) /\
  (length ∘ our <$> goalHistory Scenarios.legacyEdited) = Some 1%nat /\
  ~ Spec.consistent Scenarios.legacyEdited.
Proof.
  split; [|split; [|split]].
  - destruct (saveGame_adds_consistent
                (H := Scenarios.memory) true Scenarios.oneGoalSession
                (Scenarios.memoryWorld 3000000)) as [Hsame|(g & Hg & Hc)].
    + exfalso. revert Hsame. vm_compute. discriminate.
    + exists g. split; [exact Hg | exact Hc].
  - vm_compute. reflexivity.
  - vm_compute. reflexivity.
  - intros [(gh & Hh & Ho & _) _].
    assert (E : goalHistory Scenarios.legacyEdited
                = Some (mkGoalHistory [mkGoal "1:40" 1 1000] []))
      by (vm_compute; reflexivity).
    rewrite E in Hh. injection Hh as <-.
    revert Ho. vm_compute. discriminate.
Qed.

(* ===================================================================== *)
(** * Properties of the player timer and of the game clock *)
(* ===================================================================== *)

Lemma playerTimer_run_app evs1 evs2 t :
  PlayerTimer.run (evs1 ++ evs2) t
  = PlayerTimer.run evs2 (PlayerTimer.run evs1 t).
Proof. unfold PlayerTimer.run. apply fold_left_app. Qed.

(** The ticks of the interval only refresh the display: they leave the
    two refs alone. *)
Lemma playerTimer_ticks ticks t :
  PlayerTimer.isRunning t = true ->
  PlayerTimer.isRunning (PlayerTimer.run (map PlayerTimer.Tick ticks) t) = true /\
  PlayerTimer.startTimeRef (PlayerTimer.run (map PlayerTimer.Tick ticks) t)
    = PlayerTimer.startTimeRef t /\
  PlayerTimer.accumulatedRef (PlayerTimer.run (map PlayerTimer.Tick ticks) t)
    = PlayerTimer.accumulatedRef t.
Proof.
  revert t. induction ticks as [|now ticks IH]; intros t Hr.
  - simpl. auto.
  - change (PlayerTimer.run (map PlayerTimer.Tick (now :: ticks)) t)
      with (PlayerTimer.run (map PlayerTimer.Tick ticks)
                            (PlayerTimer.tick now t)).
    assert (Hs : PlayerTimer.tick now t
                 = PlayerTimer.mkState
                     (PlayerTimer.accumulatedRef t
                      + PlayerTimer.sinceStart now t / 1000)
                     true (PlayerTimer.startTimeRef t)
                     (PlayerTimer.accumulatedRef t)).
    { unfold PlayerTimer.tick. now rewrite Hr. }
    rewrite Hs.
    destruct (IH (PlayerTimer.mkState
                    (PlayerTimer.accumulatedRef t
                     + PlayerTimer.sinceStart now t / 1000)
                    true (PlayerTimer.startTimeRef t)
                    (PlayerTimer.accumulatedRef t)) eq_refl)
      as (H1 & H2 & H3).
    rewrite H1, H2, H3. auto.
Qed.

(** One period of play adds its whole seconds to the accumulated time. *)
Lemma playerTimer_period period t :
  PlayerTimer.isRunning t = false ->
  PlayerTimer.isRunning (PlayerTimer.run (Spec.played period) t) = false /\
  PlayerTimer.seconds (PlayerTimer.run (Spec.played period) t)
    = PlayerTimer.accumulatedRef t + Spec.wholeSeconds period /\
  PlayerTimer.accumulatedRef (PlayerTimer.run (Spec.played period) t)
    = PlayerTimer.accumulatedRef t + Spec.wholeSeconds period.
Proof.
  destruct period as [[start ticks] stop]. intros Hr.
  unfold Spec.played, Spec.wholeSeconds.
  change (PlayerTimer.run (?e :: ?l) t)
    with (PlayerTimer.run l (PlayerTimer.handle e t)).
  rewrite playerTimer_run_app.
  assert (Hstart : PlayerTimer.handle
                     (PlayerTimer.Click PlayerTimer.StartStop start) t
                   = PlayerTimer.mkState (PlayerTimer.seconds t) true
                       (Some start) (PlayerTimer.accumulatedRef t)).
  { simpl. rewrite Hr. unfold PlayerTimer.startTimer. now rewrite Hr. }
  rewrite Hstart.
  destruct (playerTimer_ticks ticks
              (PlayerTimer.mkState (PlayerTimer.seconds t) true (Some start)
                 (PlayerTimer.accumulatedRef t)) eq_refl) as (H1 & H2 & H3).
  simpl in H2, H3.
  set (tk := PlayerTimer.run (map PlayerTimer.Tick ticks) _) in *.
  change (PlayerTimer.run [?e] tk) with (PlayerTimer.handle e tk).
  cbn [PlayerTimer.handle]. rewrite H1.
  unfold PlayerTimer.pauseTimer, PlayerTimer.sinceStart.
  rewrite H1, H2, H3. simpl. auto.
Qed.

(** X1.  The player timer counts wall-clock time, not ticks.  Whatever
    callbacks of the interval run or are dropped, after any number of
    periods of play (Start ... Stop) the timer is paused and shows the
    sum, over the periods, of the whole seconds between Start and Stop;
    the session receives that value, and a game built from it records it
    as [playerSecondsPlayed]. *)
Theorem player_time_is_wall_clock_time :
  forall (periods : list (Z * list Z * Z)) (st : GameStats.State),
    let t := PlayerTimer.run (flat_map Spec.played periods)
                             PlayerTimer.initial in
    let total := fold_right Z.add 0 (map Spec.wholeSeconds periods) in
    PlayerTimer.isRunning t = false /\
    PlayerTimer.seconds t = total /\
    GameStats.playerMinutes (GameStats.onPlayerTimeChange t st) = total /\
    playerSecondsPlayed
      (GameStats.buildGame (GameStats.onPlayerTimeChange t st))
      = Some (ofZ total).
Proof.
  intros periods st.
  assert (Hgen : forall t0,
             PlayerTimer.isRunning t0 = false ->
             let t := PlayerTimer.run (flat_map Spec.played periods) t0 in
             PlayerTimer.isRunning t = false /\
             PlayerTimer.accumulatedRef t
             = PlayerTimer.accumulatedRef t0
               + fold_right Z.add 0 (map Spec.wholeSeconds periods) /\
             (periods <> [] -> PlayerTimer.seconds t = PlayerTimer.accumulatedRef t)).
  { induction periods as [|period periods IH]; intros t0 Hr; simpl.
    - split; [exact Hr|]. split; [lia | congruence].
    - rewrite playerTimer_run_app.
      destruct (playerTimer_period period t0 Hr) as (H1 & H2 & H3).
      destruct (IH _ H1) as (I1 & I2 & I3).
      split; [exact I1|]. split; [rewrite I2, H3; lia|].
      intros _. destruct periods as [|p periods].
      + simpl. rewrite H2, H3. reflexivity.
      + apply I3. discriminate. }
  destruct (Hgen PlayerTimer.initial eq_refl) as (H1 & H2 & H3).
  cbv zeta.
  assert (Hsec : PlayerTimer.seconds
                   (PlayerTimer.run (flat_map Spec.played periods)
                                    PlayerTimer.initial)
                 = fold_right Z.add 0 (map Spec.wholeSeconds periods)).
  { destruct periods as [|p periods]; [reflexivity|].
    rewrite H3 by discriminate. rewrite H2. reflexivity. }
  split; [exact H1|]. split; [exact Hsec|].
  unfold GameStats.onPlayerTimeChange. simpl. rewrite Hsec. split; reflexivity.
Qed.

Lemma timers_run_app evs1 evs2 t :
  Timers.run (evs1 ++ evs2) t = Timers.run evs2 (Timers.run evs1 t).
Proof. unfold Timers.run. apply fold_left_app. Qed.

(** Before the end of the half the time is not up. *)
Lemma timers_not_up s r h st a m :
  s < m * 60 -> Timers.isTimeUp (Timers.mkState s r h st a m) = false.
Proof.
  intros Hs.
  unfold Timers.isTimeUp, Timers.remainingSeconds, Timers.totalHalftimeSeconds.
  cbn [Timers.seconds Timers.halftimeMinutes].
  destruct (Z.eqb_spec (Z.max 0 (m * 60 - s)) 0); [lia | reflexivity].
Qed.

(** Below the end of the half, a tick shows the accumulated time plus
    the whole seconds since the start, and leaves the refs alone. *)
Lemma timers_tick_below_cap now start a h m s :
  a + (now - start) / 1000 < m * 60 ->
  s < m * 60 ->
  Timers.step (Timers.Tick now) (Timers.mkState s true h (Some start) a m)
  = Timers.mkState (a + (now - start) / 1000) true h (Some start) a m.
Proof.
  intros Hnew Hs.
  unfold Timers.step, Timers.handle, Timers.tick.
  rewrite (timers_not_up s true h (Some start) a m Hs).
  unfold Timers.sinceStart, Timers.totalHalftimeSeconds.
  cbn [Timers.seconds Timers.isRunning Timers.currentHalf Timers.startTimeRef
       Timers.accumulatedRef Timers.halftimeMinutes andb negb from_option].
  unfold Datatypes.id.
  rewrite (Z.min_l _ _ (Z.lt_le_incl _ _ Hnew)).
  destruct (Z.geb_spec (a + (now - start) / 1000) (m * 60)) as [E|_]; [lia|].
  unfold Timers.autoPause.
  now rewrite (timers_not_up _ true h (Some start) a m Hnew).
Qed.

Lemma timers_ticks_below_cap ticks start stop a h m s :
  Forall (fun now => now <= stop) ticks ->
  a + (stop - start) / 1000 < m * 60 ->
  s < m * 60 ->
  exists s',
    s' < m * 60 /\
    Timers.run (map Timers.Tick ticks)
               (Timers.mkState s true h (Some start) a m)
    = Timers.mkState s' true h (Some start) a m.
Proof.
  intros Hall Hstop. revert s.
  induction Hall as [|now ticks Hnow _ IH]; intros s Hs.
  - exists s. split; [exact Hs | reflexivity].
  - assert (Hnew : a + (now - start) / 1000 < m * 60).
    { assert ((now - start) / 1000 <= (stop - start) / 1000)
        by (apply Z.div_le_mono; lia). lia. }
    change (Timers.run (map Timers.Tick (now :: ticks)) ?t)
      with (Timers.run (map Timers.Tick ticks)
                       (Timers.step (Timers.Tick now) t)).
    rewrite (timers_tick_below_cap now start a h m s Hnew Hs).
    apply IH, Hnew.
Qed.

(** X2.  The game timer counts wall-clock time too.  From a paused
    timer whose Start/Stop button is shown, Start at [start], any ticks
    of the interval up to the stop, and Stop at [stop] leave the timer
    paused in the same half with an elapsed time of the accumulated time
    plus the whole seconds between Start and Stop, as long as that total
    is below the length of the half. *)
Theorem timer_elapsed_is_wall_clock_time :
  forall (t : Timers.State) (start stop : Z) (ticks : list Z),
    Timers.isRunning t = false ->
    Timers.rendered Timers.StartStop t = true ->
    Forall (fun now => now <= stop) ticks ->
    Timers.accumulatedRef t + (stop - start) / 1000
      < Timers.totalHalftimeSeconds t ->
    let t' := Timers.run (Timers.Click Timers.StartStop start ::
                          map Timers.Tick ticks ++
                          [Timers.Click Timers.StartStop stop]) t in
    Timers.elapsed t' = Timers.accumulatedRef t + (stop - start) / 1000 /\
    Timers.accumulatedRef t' = Timers.elapsed t' /\
    Timers.isRunning t' = false /\
    Timers.currentHalf t' = Timers.currentHalf t /\
    Timers.halftimeMinutes t' = Timers.halftimeMinutes t.
Proof.
  intros [s r h st a m] start stop ticks Hr Hshown Hall Hbelow.
  simpl in Hr. subst r.
  unfold Timers.totalHalftimeSeconds in Hbelow. simpl in Hbelow.
  assert (Hs : s < m * 60).
  { unfold Timers.rendered, Timers.isTimeUp, Timers.remainingSeconds,
      Timers.totalHalftimeSeconds in Hshown. simpl in Hshown.
    apply andb_true_iff in Hshown. destruct Hshown as [_ Hup].
    destruct (Z.eqb_spec (Z.max 0 (m * 60 - s)) 0); [discriminate | lia]. }
  pose proof (fun s0 r0 st0 a0 => timers_not_up s0 r0 h st0 a0 m) as Hup.
  cbv zeta.
  change (Timers.run (?e :: ?l) ?x) with (Timers.run l (Timers.step e x)).
  rewrite timers_run_app.
  assert (Hstart : Timers.step (Timers.Click Timers.StartStop start)
                     (Timers.mkState s false h st a m)
                   = Timers.mkState s true h (Some start) a m).
  { unfold Timers.step, Timers.handle. rewrite Hshown.
    cbn [Timers.isRunning]. unfold Timers.startTimer.
    rewrite (Hup s false st a Hs). cbn [Timers.isRunning negb andb].
    cbn [Timers.seconds Timers.currentHalf Timers.accumulatedRef
         Timers.halftimeMinutes].
    unfold Timers.autoPause. now rewrite (Hup s true (Some start) a Hs). }
  rewrite Hstart.
  destruct (timers_ticks_below_cap ticks start stop a h m s Hall Hbelow Hs)
    as (s' & Hs' & ->).
  change (Timers.run [?e] ?x) with (Timers.step e x).
  assert (Hshown' : Timers.rendered Timers.StartStop
                      (Timers.mkState s' true h (Some start) a m) = true).
  { unfold Timers.rendered in *. rewrite (Hup _ _ _ _ Hs').
    rewrite (Hup _ _ _ _ Hs) in Hshown. exact Hshown. }
  unfold Timers.step, Timers.handle. rewrite Hshown'.
  cbn [Timers.isRunning]. unfold Timers.pauseTimer, Timers.sinceStart.
  cbn [Timers.isRunning Timers.accumulatedRef Timers.startTimeRef from_option
       Timers.currentHalf Timers.halftimeMinutes].
  unfold Datatypes.id, Timers.autoPause. rewrite (Hup _ _ _ _ Hbelow).
  cbn [andb]. unfold Timers.elapsed. simpl. auto.
Qed.

(** A 30-minute half: Start at 0 ms, two ticks, Stop after 65 s. *)
Lemma timer_elapsed_is_wall_clock_time_witness :
  Timers.elapsed
    (Timers.run [Timers.Click Timers.StartStop 0; Timers.Tick 100;
                 Timers.Tick 64000; Timers.Click Timers.StartStop 65000]
                (Timers.initial 30)) = 65.
Proof.
  apply (timer_elapsed_is_wall_clock_time (Timers.initial 30) 0 65000
           [100; 64000]).
  - reflexivity.
  - reflexivity.
  - repeat constructor; lia.
  - reflexivity.
Defined.

Lemma timers_step_keeps_range ev t :
  1 <= Timers.halftimeMinutes t <= 90 ->
  1 <= Timers.halftimeMinutes (Timers.step ev t) <= 90.
Proof.
  intros Hm. unfold Timers.step.
  assert (Ha : forall t0, Timers.halftimeMinutes (Timers.autoPause t0)
                          = Timers.halftimeMinutes t0).
  { intros t0. unfold Timers.autoPause.
    destruct (Timers.isTimeUp t0 && Timers.isRunning t0); reflexivity. }
  rewrite Ha. destruct ev as [b now|now|m]; simpl.
  - destruct (Timers.rendered b t); [|exact Hm].
    destruct b; simpl; try exact Hm.
    destruct (Timers.isRunning t).
    + unfold Timers.pauseTimer. destruct (Timers.isRunning t); exact Hm.
    + unfold Timers.startTimer.
      destruct (negb (Timers.isRunning t) && negb (Timers.isTimeUp t));
        exact Hm.
  - unfold Timers.tick.
    destruct (Timers.isRunning t && negb (Timers.isTimeUp t)); exact Hm.
  - unfold Timers.selectDuration.
    destruct (Timers.selectDisabled t); simpl; [exact Hm|].
    unfold Timers.setHalftimeMinutes.
    destruct (m =? Timers.halftimeMinutes t); [exact Hm|].
    unfold Timers.halftimeMinutesEffect; simpl.
    destruct (Z.ltb_spec m 1); simpl; [lia|].
    destruct (Z.gtb_spec m 90); simpl; lia.
Qed.

(** X3.  The length of a half stays between 1 and 90 minutes: whatever
    is clicked, ticked or selected, the effect that validates
    [halftimeMinutes] replaces a value outside this range by 30 before
    the timer uses it. *)
Theorem half_duration_stays_in_range :
  forall (evs : list Timers.Event) (t : Timers.State),
    1 <= Timers.halftimeMinutes t <= 90 ->
    1 <= Timers.halftimeMinutes (Timers.run evs t) <= 90 /\
    60 <= Timers.halfDurationSeconds (Timers.run evs t) <= 5400.
Proof.
  intros evs t Hm.
  assert (Hrun : 1 <= Timers.halftimeMinutes (Timers.run evs t) <= 90).
  { unfold Timers.run. revert t Hm.
    induction evs as [|ev evs IH]; intros t Hm; simpl; [exact Hm|].
    apply IH, timers_step_keeps_range, Hm. }
  split; [exact Hrun|].
  unfold Timers.halfDurationSeconds, Timers.totalHalftimeSeconds. lia.
Qed.

(** From a 30-minute half, 200 minutes are selected, then the timer is
    started. *)
Lemma half_duration_stays_in_range_witness :
  1 <= Timers.halftimeMinutes
         (Timers.run [Timers.Select 200; Timers.Click Timers.StartStop 0]
                     (Timers.initial 45)) <= 90 /\
  60 <= Timers.halfDurationSeconds
          (Timers.run [Timers.Select 200; Timers.Click Timers.StartStop 0]
                      (Timers.initial 45)) <= 5400.
Proof.
  apply (half_duration_stays_in_range
           [Timers.Select 200; Timers.Click Timers.StartStop 0]
           (Timers.initial 45)).
  simpl. lia.
Defined.

(** X4.  In the second half the session's clock is the time since
    kick-off: [Timers] reports the length of the first half plus the
    elapsed time of the second.  A goal logged then is stamped with that
    total, so its minute is [halftimeMinutes] plus the minutes elapsed in
    the second half, and a game saved then is recorded with
    [halftimeComplete] and no time remaining.  When the first half ends
    at its full length, starting the second half does not move the
    clock. *)
Theorem second_half_counts_from_kickoff :
  forall (t : Timers.State) (st : GameStats.State) (now : Z),
    Timers.currentHalf t = 2 ->
    0 <= Timers.seconds t ->
    GameStats.halftimeMinutes st = Timers.halftimeMinutes t ->
    GameStats.isAddingGoal st = false ->
    Z.of_nat (length (GameStats.ourGoals st)) < 20 ->
    let st' := GameStats.onHalftimeChange t st in
    GameStats.ourGoals (fst (GameStats.addOurGoal now st'))
    = GameStats.ourGoals st ++
      [mkGoal (GameStats.formatTime
                 (Timers.halftimeMinutes t * 60 + Timers.seconds t))
              (Timers.halftimeMinutes t + Timers.seconds t / 60) now] /\
    timer (GameStats.buildGame st')
    = Some (mkTimerSnapshot
              (Timers.halftimeMinutes t)
              (GameStats.formatTime
                 (Timers.halftimeMinutes t * 60 + Timers.seconds t))
              "0:00" true) /\
    (forall t1,
        Timers.currentHalf t1 = 1 ->
        Timers.seconds t1 = Timers.totalHalftimeSeconds t1 ->
        Timers.totalGameSeconds (Timers.startSecondHalf t1)
        = Timers.totalGameSeconds t1).
Proof.
  intros t st now Hhalf Hsec Hmin Hfree Hlen. cbv zeta.
  assert (Hclock : GameStats.halftimeSeconds (GameStats.onHalftimeChange t st)
                   = Timers.halftimeMinutes t * 60 + Timers.seconds t).
  { unfold GameStats.onHalftimeChange, Timers.totalGameSeconds,
      Timers.totalHalftimeSeconds. now rewrite Hhalf. }
  split; [|split].
  - unfold GameStats.addOurGoal, GameStats.MAX_GOALS_PER_GAME,
      GameStats.newGoal.
    rewrite Hclock.
    change (GameStats.isAddingGoal (GameStats.onHalftimeChange t st))
      with (GameStats.isAddingGoal st).
    change (GameStats.ourGoals (GameStats.onHalftimeChange t st))
      with (GameStats.ourGoals st).
    rewrite Hfree.
    destruct (Z.leb_spec 20 (Z.of_nat (length (GameStats.ourGoals st))));
      [lia|].
    cbn [orb fst GameStats.setGoalLog GameStats.ourGoals].
    rewrite Z.div_add_l by lia. reflexivity.
  - unfold GameStats.buildGame. cbn [timer].
    rewrite Hclock.
    change (GameStats.halftimeMinutes (GameStats.onHalftimeChange t st))
      with (GameStats.halftimeMinutes st).
    rewrite Hmin.
    replace (Z.max 0 (Timers.halftimeMinutes t * 60
                      - (Timers.halftimeMinutes t * 60 + Timers.seconds t)))
      with 0 by lia.
    destruct (Z.geb_spec (Timers.halftimeMinutes t * 60 + Timers.seconds t)
                (Timers.halftimeMinutes t * 60)); [reflexivity | lia].
  - intros t1 H1 Hfull.
    unfold Timers.totalGameSeconds, Timers.startSecondHalf,
      Timers.totalHalftimeSeconds in *.
    rewrite H1. simpl. lia.
Qed.

(** A 30-minute half; 125 seconds into the second half our side
    scores: the goal is logged at 32:05, minute 32. *)
Lemma second_half_counts_from_kickoff_witness :
  GameStats.ourGoals
    (fst (GameStats.addOurGoal 7000
            (GameStats.onHalftimeChange
               (Timers.mkState 125 true 2 (Some 0) 0 30) Scenarios.session)))
  = [mkGoal "32:05" 32 7000].
Proof.
  apply (second_half_counts_from_kickoff
           (Timers.mkState 125 true 2 (Some 0) 0 30) Scenarios.session 7000);
    [reflexivity | simpl; lia | reflexivity | reflexivity | simpl; lia].
Defined.

(* ===================================================================== *)
(** * Properties of the text inputs *)
(* ===================================================================== *)

Lemma removeControl_idempotent s :
  GameStats.removeControl (GameStats.removeControl s)
  = GameStats.removeControl s.
Proof.
  induction s as [|c s IH]; simpl; [reflexivity|].
  destruct ((nat_of_ascii c <=? 31)%nat || (nat_of_ascii c =? 127)%nat) eqn:E.
  - exact IH.
  - simpl. rewrite E, IH. reflexivity.
Qed.

Lemma truthyStr_false s : truthyStr s = false -> s = "".
Proof.
  unfold truthyStr. intros E. apply negb_false_iff in E.
  now apply String.eqb_eq in E.
Qed.

(** A quoted text is safe once its control characters are removed. *)
Lemma quoted_is_safe s :
  Spec.safeText (String "'" (GameStats.removeControl s)).
Proof.
  split; [reflexivity|].
  change (GameStats.removeControl (String "'" ?x))
    with (String "'" (GameStats.removeControl x)).
  now rewrite removeControl_idempotent.
Qed.

(** Two passes of [sanitizeInput] always give a safe text. *)
Lemma sanitizeInput_twice_safe s :
  Spec.safeText (GameStats.sanitizeInput (GameStats.sanitizeInput s)).
Proof.
  unfold GameStats.sanitizeInput at 2.
  destruct (truthyStr s) eqn:Ht; simpl negb; cbv iota.
  2: { apply truthyStr_false in Ht. subst s. split; reflexivity. }
  destruct (GameStats.dangerous s) eqn:Hd.
  - change ("'" +:+ s) with (String "'" s).
    change (GameStats.sanitizeInput (String "'" s))
      with (String "'" (GameStats.removeControl s)).
    apply quoted_is_safe.
  - unfold GameStats.sanitizeInput.
    destruct (truthyStr (GameStats.removeControl s)) eqn:Ht'; simpl negb;
      cbv iota.
    2: { apply truthyStr_false in Ht'. rewrite Ht'. split; reflexivity. }
    destruct (GameStats.dangerous (GameStats.removeControl s)) eqn:Hd'.
    + change ("'" +:+ ?x) with (String "'" x).
      rewrite <- (removeControl_idempotent s). apply quoted_is_safe.
    + rewrite removeControl_idempotent. split; [exact Hd'|].
      apply removeControl_idempotent.
Qed.

(** X5.  Whatever is typed or pasted into the player name, the opponent
    or the notes of the live session, the text that [saveGame] puts in
    the record is safe for a spreadsheet: its first character that is
    not white space is none of [=], [+], [-], [@], and it holds no
    control character.  (The input handler sanitizes the value once and
    [saveGame] once more; one pass alone does not ensure it.) *)
Theorem typed_text_is_saved_safe :
  forall (value : string) (st : GameStats.State),
    (exists p,
        playerName (GameStats.buildGame (GameStats.changePlayerName value st))
        = Some p /\ Spec.safeText p) /\
    (exists o,
        opponent (GameStats.buildGame (GameStats.changeOpponent value st))
        = Some o /\ Spec.safeText o) /\
    (exists n,
        gameNotes (GameStats.buildGame (GameStats.changeGameNotes value st))
        = Some n /\ Spec.safeText n).
Proof.
  intros value st.
  split; [|split]; eexists; (split; [reflexivity|]);
    apply sanitizeInput_twice_safe.
Qed.

Lemma hiddenControl_spec c :
  Spec.hiddenControl c = true ->
  GameStats.isWhiteSpace c = false /\
  ((nat_of_ascii c <=? 31)%nat || (nat_of_ascii c =? 127)%nat) = true /\
  (Ascii.eqb c "=" || Ascii.eqb c "+" || Ascii.eqb c "-" || Ascii.eqb c "@")
  = false.
Proof.
  destruct c as [[] [] [] [] [] [] [] []]; intros Hc;
    try discriminate Hc; repeat split.
Qed.

(** X6.  One pass of [sanitizeInput] can be defeated: when a control
    character that is not white space stands in front of a formula, the
    test for a dangerous first character sees the control character, and
    the removal of the control characters then uncovers the formula.
    The edit form of the game history stores a player name as typed, and
    the export sanitizes it once: the exported cell starts with [=]. *)
Theorem hidden_control_character_uncovers_formula :
  forall (c : ascii) (rest : string)
         (StringToNumber : string -> JsNum) (game : GameRecord)
         (form : GameHistory.EditForm),
    Spec.hiddenControl c = true ->
    let typed := String c (String "=" rest) in
    let edited :=
      GameHistory.updatedGame StringToNumber game
        (GameHistory.handleInputChange StringToNumber GameHistory.fPlayerName
           typed form) in
    GameStats.sanitizeInput typed = String "=" (GameStats.removeControl rest) /\
    GameStats.dangerous (GameStats.sanitizeInput typed) = true /\
    GameStats.sanitizedOr (playerName edited) "Not set"
    = String "=" (GameStats.removeControl rest).
Proof.
  intros c rest StringToNumber game form Hc. cbv zeta.
  destruct (hiddenControl_spec c Hc) as (Hw & Hctl & Hsign).
  assert (Hs : GameStats.sanitizeInput (String c (String "=" rest))
               = String "=" (GameStats.removeControl rest)).
  { unfold GameStats.sanitizeInput, GameStats.dangerous.
    change (truthyStr (String c (String "=" rest))) with true.
    cbn [negb GameStats.trimStart]. rewrite Hw, Hsign.
    cbn [GameStats.removeControl]. rewrite Hctl. reflexivity. }
  rewrite Hs. split; [reflexivity|]. split; [reflexivity|].
  cbn [GameHistory.handleInputChange GameHistory.updatedGame playerName
       GameHistory.playerName GameStats.sanitizedOr].
  rewrite Hs. reflexivity.
Qed.

(** The character of code 1 in front of [=HYPERLINK(...)]. *)
Lemma hidden_control_character_uncovers_formula_witness :
  GameStats.dangerous
    (GameStats.sanitizeInput
       (String (ascii_of_nat 1) (String "=" "HYPERLINK(0)"))) = true.
Proof.
  apply (hidden_control_character_uncovers_formula
           (ascii_of_nat 1) "HYPERLINK(0)" Scenarios.numberOfDigits
           EditCommon.emptyGame
           (GameHistory.startEditing EditCommon.emptyGame)).
  reflexivity.
Defined.

(* ===================================================================== *)
(** * More properties of the counters and of the goal log *)
(* ===================================================================== *)

Lemma StatName_eqb_sym a b : StatName_eqb a b = StatName_eqb b a.
Proof.
  destruct (StatName_eqb a b) eqn:E1, (StatName_eqb b a) eqn:E2;
    try reflexivity.
  - apply StatName_eqb_eq in E1. subst b.
    assert (StatName_eqb a a = true) by now apply StatName_eqb_eq.
    congruence.
  - apply StatName_eqb_eq in E2. subst b.
    assert (StatName_eqb a a = true) by now apply StatName_eqb_eq.
    congruence.
Qed.

(** A click changes the counter it hits, and no other. *)
Lemma statStep_counter ev st s :
  GameStats.stats (GameStats.statStep ev st) s
  = if Spec.hits s ev then Spec.clicked (GameStats.stats st s) ev
    else GameStats.stats st s.
Proof.
  destruct ev as [s'|s']; simpl; rewrite (StatName_eqb_sym s' s);
    destruct (StatName_eqb s s') eqn:E; try reflexivity;
    apply StatName_eqb_eq in E; subst s'; reflexivity.
Qed.

(** X7.  Each counter of the live session follows its own clicks only:
    after any sequence of [+] and [-] clicks its value is obtained from
    its former value by the clicks that hit it, in order ([+] adds one,
    [-] takes one away unless the value is already 0); clicks on other
    counters do not matter, and the goal log, the notes and the saved
    games are left alone. *)
Theorem counter_follows_its_own_clicks :
  forall (evs : list GameStats.StatEvent) (st : GameStats.State)
         (s : StatName),
    GameStats.stats (GameStats.runStatEvents evs st) s
    = fold_left Spec.clicked (List.filter (Spec.hits s) evs)
                (GameStats.stats st s) /\
    GameStats.ourGoals (GameStats.runStatEvents evs st)
    = GameStats.ourGoals st /\
    GameStats.theirGoals (GameStats.runStatEvents evs st)
    = GameStats.theirGoals st /\
    GameStats.gameNotes (GameStats.runStatEvents evs st)
    = GameStats.gameNotes st /\
    GameStats.savedGames (GameStats.runStatEvents evs st)
    = GameStats.savedGames st.
Proof.
  intros evs st s. unfold GameStats.runStatEvents. revert st.
  induction evs as [|ev evs IH]; intros st; simpl.
  - repeat split.
  - destruct (IH (GameStats.statStep ev st)) as (H1 & H2 & H3 & H4 & H5).
    rewrite H1, H2, H3, H4, H5, statStep_counter.
    split; [|destruct ev; repeat split].
    destruct (Spec.hits s ev); reflexivity.
Qed.

Lemma dropLast_app {A} (l : list A) x : GameStats.dropLast (l ++ [x]) = l.
Proof. unfold GameStats.dropLast. apply removelast_last. Qed.

(** X8.  Undo takes back the goal just logged.  When the lock is free
    and the side has fewer than 20 goals, logging a goal, letting the
    500 ms of the lock pass and clicking Undo for that side gives the
    session exactly as it was. *)
Theorem undo_takes_back_the_last_goal :
  forall (now later : Z) (st : GameStats.State),
    GameStats.isAddingGoal st = false ->
    GameStats.pendingRelease st = [] ->
    now + 500 <= later ->
    (Z.of_nat (length (GameStats.ourGoals st)) < 20 ->
     GameStats.removeLastOurGoal
       (GameStats.timersFire later (fst (GameStats.addOurGoal now st)))
     = st) /\
    (Z.of_nat (length (GameStats.theirGoals st)) < 20 ->
     GameStats.removeLastTheirGoal
       (GameStats.timersFire later (fst (GameStats.addTheirGoal now st)))
     = st).
Proof.
  intros now later st Hfree Hp Hlater.
  split; intros Hlen.
  - unfold GameStats.addOurGoal, GameStats.MAX_GOALS_PER_GAME.
    rewrite Hfree, Hp.
    destruct (Z.leb_spec 20 (Z.of_nat (length (GameStats.ourGoals st))));
      [lia|].
    cbn [orb fst app]. unfold GameStats.timersFire.
    cbn [GameStats.setGoalLog GameStats.pendingRelease List.filter].
    destruct (Z.leb_spec (now + 500) later); [|lia].
    cbn [negb]. unfold GameStats.removeLastOurGoal.
    cbn [GameStats.setGoalLog GameStats.isAddingGoal GameStats.ourGoals
         GameStats.theirGoals GameStats.pendingRelease].
    rewrite dropLast_app. destruct st; simpl in *; subst; reflexivity.
  - unfold GameStats.addTheirGoal, GameStats.MAX_GOALS_PER_GAME.
    rewrite Hfree, Hp.
    destruct (Z.leb_spec 20 (Z.of_nat (length (GameStats.theirGoals st))));
      [lia|].
    cbn [orb fst app]. unfold GameStats.timersFire.
    cbn [GameStats.setGoalLog GameStats.pendingRelease List.filter].
    destruct (Z.leb_spec (now + 500) later); [|lia].
    cbn [negb]. unfold GameStats.removeLastTheirGoal.
    cbn [GameStats.setGoalLog GameStats.isAddingGoal GameStats.ourGoals
         GameStats.theirGoals GameStats.pendingRelease].
    rewrite dropLast_app. destruct st; simpl in *; subst; reflexivity.
Qed.

(** Our goal at 1000 ms is undone at 1600 ms. *)
Lemma undo_takes_back_the_last_goal_witness :
  GameStats.removeLastOurGoal
    (GameStats.timersFire 1600
       (fst (GameStats.addOurGoal 1000 Scenarios.session)))
  = Scenarios.session.
Proof.
  apply (undo_takes_back_the_last_goal 1000 1600 Scenarios.session);
    [reflexivity | reflexivity | lia | simpl; lia].
Defined.

Lemma goalStep_bounded now ev st :
  (length (GameStats.ourGoals st) <= 20)%nat ->
  (length (GameStats.theirGoals st) <= 20)%nat ->
  (length (GameStats.ourGoals (GameStats.goalStep now ev st)) <= 20)%nat /\
  (length (GameStats.theirGoals (GameStats.goalStep now ev st)) <= 20)%nat.
Proof.
  intros Ho Ht.
  assert (Hdrop : forall l : list Goal,
             (length l <= 20)%nat ->
             (length (GameStats.dropLast l) <= 20)%nat).
  { intros l Hl. unfold GameStats.dropLast.
    assert (Hle : (length (removelast l) <= length l)%nat).
    { clear Hl. induction l as [|x [|y l] IH]; simpl in *; lia. }
    lia. }
  destruct ev; simpl.
  - unfold GameStats.addOurGoal, GameStats.MAX_GOALS_PER_GAME.
    destruct (GameStats.isAddingGoal st); simpl; [auto|].
    destruct (Z.leb_spec 20 (Z.of_nat (length (GameStats.ourGoals st))));
      simpl; [auto|].
    rewrite length_app. simpl. split; [lia | exact Ht].
  - unfold GameStats.addTheirGoal, GameStats.MAX_GOALS_PER_GAME.
    destruct (GameStats.isAddingGoal st); simpl; [auto|].
    destruct (Z.leb_spec 20 (Z.of_nat (length (GameStats.theirGoals st))));
      simpl; [auto|].
    rewrite length_app. simpl. split; [exact Ho | lia].
  - unfold GameStats.removeLastOurGoal.
    destruct (GameStats.isAddingGoal st); simpl; auto.
  - unfold GameStats.removeLastTheirGoal.
    destruct (GameStats.isAddingGoal st); simpl; auto.
  - unfold GameStats.timersFire.
    destruct (List.filter _ (GameStats.pendingRelease st)); simpl; auto.
Qed.

(** X9.  The goal log of the live session is bounded: whatever goal
    buttons are clicked and whenever the lock is released, neither side
    ever has more than 20 goals, so the score of a game built from the
    session is at most 20 on each side. *)
Theorem goal_log_is_bounded :
  forall (evs : list (Z * GameStats.GoalEvent)) (pin date : string),
    let st := GameStats.runGoalEvents evs (GameStats.initial pin date) in
    (length (GameStats.ourGoals st) <= 20)%nat /\
    (length (GameStats.theirGoals st) <= 20)%nat /\
    exists o t,
      numeric (GameStats.buildGame st) fOurGoals = Some (ofZ o) /\
      numeric (GameStats.buildGame st) fTheirGoals = Some (ofZ t) /\
      0 <= o <= 20 /\ 0 <= t <= 20.
Proof.
  intros evs pin date.
  assert (Hgen : forall st,
             (length (GameStats.ourGoals st) <= 20)%nat ->
             (length (GameStats.theirGoals st) <= 20)%nat ->
             (length (GameStats.ourGoals (GameStats.runGoalEvents evs st))
              <= 20)%nat /\
             (length (GameStats.theirGoals (GameStats.runGoalEvents evs st))
              <= 20)%nat).
  { unfold GameStats.runGoalEvents.
    induction evs as [|[now ev] evs IH]; intros st Ho Ht; simpl; [auto|].
    destruct (goalStep_bounded now ev st Ho Ht) as [Ho' Ht'].
    apply IH; assumption. }
  cbv zeta.
  destruct (Hgen (GameStats.initial pin date)) as [Ho Ht];
    [simpl; lia | simpl; lia |].
  split; [exact Ho|]. split; [exact Ht|].
  do 2 eexists. split; [reflexivity|]. split; [reflexivity|]. lia.
Qed.

(* ===================================================================== *)
(** * Properties of the suggested names *)
(* ===================================================================== *)

Section SortingBy.
Context {A : Type} (before : A -> A -> bool) (le : A -> A -> Prop).
Hypothesis before_le : forall x y, before x y = true -> le x y.
Hypothesis not_before_le : forall x y, before x y = false -> le y x.
Hypothesis le_trans : forall x y z, le x y -> le y z -> le x z.

Lemma insertSorted_perm_by x l :
  Permutation (GameStats.insertSorted before x l) (x :: l).
Proof.
  induction l as [|y l IH]; simpl; [reflexivity|].
  destruct (before x y); [reflexivity|].
  rewrite IH. apply perm_swap.
Qed.

Lemma insertSorted_sorted_by x l :
  StronglySorted le l ->
  StronglySorted le (GameStats.insertSorted before x l).
Proof.
  induction 1 as [|y l Hs IH Hall]; simpl.
  - constructor; constructor.
  - destruct (before x y) eqn:E.
    + constructor; [constructor; assumption|].
      constructor; [now apply before_le|].
      eapply Forall_impl; [exact Hall|].
      intros z Hz. apply (le_trans x y z); [now apply before_le | exact Hz].
    + constructor; [exact IH|].
      rewrite (insertSorted_perm_by x l).
      constructor; [now apply not_before_le | exact Hall].
Qed.

Lemma stableSort_perm_by l : Permutation (GameStats.stableSort before l) l.
Proof.
  unfold GameStats.stableSort.
  assert (Hgen : forall acc,
             Permutation
               (fold_left (fun sorted x => GameStats.insertSorted before x sorted)
                          l acc)
               (acc ++ l)).
  { induction l as [|x l IH]; intros acc; simpl.
    - now rewrite app_nil_r.
    - rewrite IH, insertSorted_perm_by. apply Permutation_middle. }
  apply (Hgen []).
Qed.

Lemma stableSort_sorted_by l :
  StronglySorted le (GameStats.stableSort before l).
Proof.
  unfold GameStats.stableSort.
  assert (Hgen : forall acc,
             StronglySorted le acc ->
             StronglySorted le
               (fold_left (fun sorted x => GameStats.insertSorted before x sorted)
                          l acc)).
  { induction l as [|x l IH]; intros acc Hacc; simpl; [exact Hacc|].
    apply IH, insertSorted_sorted_by, Hacc. }
  apply Hgen. constructor.
Qed.
End SortingBy.

(** The order of the code units is a total preorder. *)
Lemma ltb_asym x y : String.ltb x y = true -> Spec.codeUnitOrder x y.
Proof.
  unfold Spec.codeUnitOrder, String.ltb.
  rewrite (String.compare_antisym y x).
  destruct (String.compare x y); simpl; congruence.
Qed.

Lemma codeUnitOrder_trans x y z :
  Spec.codeUnitOrder x y -> Spec.codeUnitOrder y z -> Spec.codeUnitOrder x z.
Proof.
  unfold Spec.codeUnitOrder, String.ltb. intros Hxy Hyz.
  destruct (String.compare z x) eqn:Ezx; try reflexivity. exfalso.
  apply String_as_OT.cmp_lt in Ezx.
  destruct (String.compare y x) eqn:Eyx; try discriminate.
  - apply String.compare_eq_iff in Eyx. subst y.
    apply String_as_OT.cmp_lt in Ezx.
    change String_as_OT.cmp with String.compare in Ezx.
    now rewrite Ezx in Hyz.
  - rewrite String.compare_antisym in Eyx.
    destruct (String.compare x y) eqn:Exy; try discriminate.
    apply String_as_OT.cmp_lt in Exy.
    pose proof (String_as_OT.lt_trans _ _ _ Ezx Exy) as Hzy.
    apply String_as_OT.cmp_lt in Hzy.
    change String_as_OT.cmp with String.compare in Hzy.
    now rewrite Hzy in Hyz.
Qed.

(** [[...new Set(items)]] holds each item once. *)
Lemma unique_spec items :
  NoDup (unique items) /\ forall x, In x (unique items) <-> In x items.
Proof.
  unfold unique.
  assert (Hgen : forall acc,
             NoDup acc ->
             NoDup (fold_left
                      (fun set x => if existsb (String.eqb x) set then set
                                    else set ++ [x]) items acc) /\
             forall x,
               In x (fold_left
                       (fun set x => if existsb (String.eqb x) set then set
                                     else set ++ [x]) items acc)
               <-> In x acc \/ In x items).
  { induction items as [|y items IH]; intros acc Hacc; simpl.
    - split; [exact Hacc | intros x; tauto].
    - destruct (existsb (String.eqb y) acc) eqn:E.
      + destruct (IH acc Hacc) as [Hn Hin]. split; [exact Hn|].
        intros x. rewrite Hin.
        apply existsb_exists in E. destruct E as (y' & Hy' & Heq).
        apply String.eqb_eq in Heq. subst y'.
        split; [tauto | intros [H|[<-|H]]; tauto].
      + assert (Hnotin : ~ In y acc).
        { intros Hy.
          assert (existsb (String.eqb y) acc = true).
          { apply existsb_exists. exists y. split; [exact Hy|].
            apply String.eqb_refl. }
          congruence. }
        destruct (IH (acc ++ [y])) as [Hn Hin].
        { apply NoDup_app. split; [exact Hacc|]. split.
          - intros x Hx Hx'. apply list_elem_of_In in Hx.
            apply list_elem_of_singleton in Hx'. subst x. contradiction.
          - apply NoDup_singleton. }
        split; [exact Hn|]. intros x. rewrite Hin, in_app_iff. simpl. tauto. }
  destruct (Hgen [] (NoDup_nil_2)) as [Hn Hin].
  split; [exact Hn|]. intros x. rewrite Hin. simpl. tauto.
Qed.

(** The names built from one field of the saved games. *)
Lemma sorted_unique_names (field : GameRecord -> option string)
      (games : list GameRecord) :
  let names :=
    GameStats.stableSort String.ltb
      (unique (List.filter GameStats.isName (omap field games))) in
  NoDup names /\
  StronglySorted Spec.codeUnitOrder names /\
  forall x, In x names <->
            GameStats.isName x = true /\
            exists g, In g games /\ field g = Some x.
Proof.
  cbv zeta.
  destruct (unique_spec (List.filter GameStats.isName (omap field games)))
    as [Hn Hin].
  pose proof (stableSort_perm_by String.ltb
                (unique (List.filter GameStats.isName (omap field games))))
    as Hperm.
  split; [|split].
  - rewrite Hperm. exact Hn.
  - apply (stableSort_sorted_by String.ltb Spec.codeUnitOrder).
    + exact ltb_asym.
    + intros x y E. exact E.
    + exact codeUnitOrder_trans.
  - intros x. split.
    + intros Hx. apply (Permutation_in _ Hperm) in Hx.
      apply Hin in Hx. apply filter_In in Hx. destruct Hx as [Hx Hname].
      split; [exact Hname|].
      apply list_elem_of_In, list_elem_of_omap in Hx.
      destruct Hx as (g & Hg & Hf). exists g. split; [|exact Hf].
      now apply list_elem_of_In.
    + intros [Hname (g & Hg & Hf)].
      apply (Permutation_in _ (Permutation_sym Hperm)).
      apply Hin, filter_In. split; [|exact Hname].
      apply list_elem_of_In, list_elem_of_omap. exists g.
      split; [now apply list_elem_of_In | exact Hf].
Qed.

(** X10.  The names offered while typing the player name and the
    opponent are the names of the saved games that are not blank, each
    of them once, in the order of their code units. *)
Theorem suggested_names_are_sorted_and_unique :
  forall st : GameStats.State,
    (NoDup (GameStats.getUniquePlayerNames st) /\
     StronglySorted Spec.codeUnitOrder (GameStats.getUniquePlayerNames st) /\
     forall x, In x (GameStats.getUniquePlayerNames st) <->
               GameStats.isName x = true /\
               exists g, In g (GameStats.savedGames st) /\
                         playerName g = Some x) /\
    (NoDup (GameStats.getUniqueOpponents st) /\
     StronglySorted Spec.codeUnitOrder (GameStats.getUniqueOpponents st) /\
     forall x, In x (GameStats.getUniqueOpponents st) <->
               GameStats.isName x = true /\
               exists g, In g (GameStats.savedGames st) /\
                         opponent g = Some x).
Proof.
  intros st. split.
  - apply (sorted_unique_names playerName (GameStats.savedGames st)).
  - apply (sorted_unique_names opponent (GameStats.savedGames st)).
Qed.

(* ===================================================================== *)
(** * More properties of the database layer *)
(* ===================================================================== *)

Section ServiceFrame.
Context {Remote : Type} `{Firestore Remote}.

Lemma onRemote_localNeutral {A B} (fs : Remote -> Remote * Completion A)
      (f : A -> B) :
  Spec.localNeutral (bind (onRemote fs) (fun x => ret (f x))).
Proof.
  intros w. unfold bind, onRemote, ret.
  destruct (fs (remote w)) as [r [a|e]]; split; reflexivity.
Qed.

(** The loop only waits between two attempts: once for 1000 ms, then
    for 2000 ms. *)
Lemma withRetry_waits {A} (op : Async Remote A) (w : World Remote) :
  Spec.localNeutral op ->
  storage (fst (Database.withRetry op Database.maxRetries_default
                                   Database.delay_default w)) = storage w /\
  (clock (fst (Database.withRetry op Database.maxRetries_default
                                  Database.delay_default w)) = clock w \/
   clock (fst (Database.withRetry op Database.maxRetries_default
                                  Database.delay_default w)) = clock w + 1000 \/
   clock (fst (Database.withRetry op Database.maxRetries_default
                                  Database.delay_default w)) = clock w + 3000).
Proof.
  intros Hn.
  unfold Database.withRetry, Database.retryLoop, Database.maxRetries_default,
    Database.delay_default; simpl Z.to_nat.
  unfold bind, tryCatch, note, sleep, ret, throw; simpl.
  match goal with |- context [op ?x] => pose proof (Hn x) as [S1 C1] end.
  destruct (op _) as [w1 [v|e1]]; simpl in S1, C1 |- *.
  { split; [exact S1 | left; exact C1]. }
  destruct (Database.codeIs "permission-denied" e1); simpl.
  { split; [exact S1 | left; exact C1]. }
  match goal with |- context [op ?x] => pose proof (Hn x) as [S2 C2] end.
  destruct (op _) as [w2 [v|e2]]; simpl in S2, C2 |- *.
  { split; [congruence | right; left; lia]. }
  destruct (Database.codeIs "permission-denied" e2); simpl.
  { split; [congruence | right; left; lia]. }
  match goal with |- context [op ?x] => pose proof (Hn x) as [S3 C3] end.
  destruct (op _) as [w3 [v|e3]]; simpl in S3, C3 |- *;
    (split; [congruence | right; right; lia]).
Qed.

Lemma stays (w : World Remote) :
  storage w = storage w /\
  (clock w = clock w \/ clock w = clock w + 1000 \/ clock w = clock w + 3000).
Proof. split; [reflexivity | left; reflexivity]. Qed.

Lemma saveGame_waits gameData : Spec.waitsBriefly (Database.saveGame gameData).
Proof.
  intros w. unfold Database.saveGame.
  destruct (Database.getUserPin w) as [pin|]; [|apply stays].
  rewrite tryCatch_rethrow_world. unfold bind at 1 3 5 7, liftC.
  destruct (Database.validateGameData (clock w) gameData) as [validated|e];
    [|apply stays].
  unfold bind at 1 3 5 7, getClock.
  apply withRetry_waits, onRemote_localNeutral.
Qed.

Lemma loadGames_waits : Spec.waitsBriefly Database.loadGames.
Proof.
  intros w. unfold Database.loadGames.
  destruct (Database.getUserPin w) as [pin|]; [|apply stays].
  rewrite tryCatch_rethrow_world.
  apply withRetry_waits, onRemote_localNeutral.
Qed.

Lemma updateGame_waits gameId gameData :
  Spec.waitsBriefly (Database.updateGame gameId gameData).
Proof.
  intros w. unfold Database.updateGame.
  destruct (Database.getUserPin w) as [pin|]; [|apply stays].
  rewrite tryCatch_rethrow_world. unfold bind at 1 3 5 7, liftC.
  destruct (Database.validateGameData (clock w) gameData) as [validated|e];
    [|apply stays].
  unfold bind at 1 3 5 7, getClock.
  apply withRetry_waits, onRemote_localNeutral.
Qed.

Lemma deleteGame_waits gameId : Spec.waitsBriefly (Database.deleteGame gameId).
Proof.
  intros w. unfold Database.deleteGame.
  rewrite tryCatch_rethrow_world.
  apply withRetry_waits, onRemote_localNeutral.
Qed.

(** What the operations throw. *)
Lemma wrapped_error prefix e0 :
  Spec.serviceError "No user PIN set" prefix
    (Database.DatabaseError (prefix +:+ message e0) (code e0)).
Proof.
  split; [reflexivity|]. split; [eexists; reflexivity|].
  right. exists (message e0). reflexivity.
Qed.

Lemma no_pin_error prefix :
  Spec.serviceError "No user PIN set" prefix
    (Database.DatabaseError "No user PIN set" None).
Proof.
  split; [reflexivity|]. split; [eexists; reflexivity|]. left. reflexivity.
Qed.

Lemma saveGame_error gameData (w : World Remote) e :
  snd (Database.saveGame gameData w) = Throw e ->
  Spec.serviceError "No user PIN set" "Failed to save game: " e.
Proof.
  unfold Database.saveGame.
  destruct (Database.getUserPin w) as [pin|].
  - rewrite tryCatch_rethrow_result.
    destruct (snd _) as [v|e0]; [discriminate|].
    intros [= <-]. apply wrapped_error.
  - intros [= <-]. apply no_pin_error.
Qed.



End ServiceFrame.

(** X11.  No operation of [gameService] (save, load, update, delete)
    writes local storage: the PIN and the games kept there are the same
    after the call.  The time an operation spends in its backoff delays
    is 0, 1 or 3 seconds in all. *)
Theorem service_leaves_local_storage_alone :
  forall (Remote : Type) (F : Firestore Remote)
         (gameData : GameRecord) (gameId : string),
    Spec.waitsBriefly (Database.saveGame gameData) /\
    Spec.waitsBriefly Database.loadGames /\
    Spec.waitsBriefly (Database.updateGame gameId gameData) /\
    Spec.waitsBriefly (Database.deleteGame gameId).
Proof.
  intros Remote F gameData gameId. split; [|split; [|split]].
  - apply saveGame_waits.
  - apply loadGames_waits.
  - apply updateGame_waits.
  - apply deleteGame_waits.
Qed.


(** X13.  When the save to the store fails, the alert of [saveGame]
    always names the cause: the error of [gameService.saveGame] is a
    [DatabaseError], so the message shown is
    [Save failed: <message>. Your data has been saved locally ...], and
    the other alert of the [catch] branch is never shown.  A save adds at
    most one alert. *)
Theorem save_failure_alert_names_the_cause :
  forall (Remote : Type) (F : Firestore Remote)
         (confirmAnswer : bool) (st : GameStats.State) (w : World Remote),
    let st' := fst (GameStats.saveGame confirmAnswer st w) in
    GameStats.alerts st' = GameStats.alerts st \/
    exists e,
      snd (Database.saveGame (GameStats.buildGame st) w) = Throw e /\
      GameStats.syncStatus st' = GameStats.error /\
      GameStats.alerts st'
      = GameStats.alerts st ++
        ["Save failed: " +:+ message e +:+
         ". Your data has been saved locally and will sync when connection is restored."].
Proof.
  intros Remote F confirmAnswer st w. cbv zeta.
  unfold GameStats.saveGame.
  destruct (_ && negb confirmAnswer); [left; reflexivity|].
  destruct (Database.saveGame (GameStats.buildGame st) w)
    as [w1 [[saved|]|e]] eqn:E; cbn [fst]; try (left; reflexivity).
  right. exists e. split; [reflexivity|]. split; [reflexivity|].
  assert (He : snd (Database.saveGame (GameStats.buildGame st) w) = Throw e)
    by now rewrite E.
  apply saveGame_error in He. destruct He as (Hname & _ & _).
  cbn [GameStats.alerts GameStats.resetStats].
  unfold GameStats.saveFailedMessage. rewrite Hname. reflexivity.
Qed.

Section BulkProperties.
Context {Remote : Type} `{Firestore Remote}.

(** One round of the loop. *)
Lemma bulkLoop_step game games results (w : World Remote) :
  Database.bulkLoop (game :: games) results w
  = match Database.saveGame game w with
    | (w1, Normal result) =>
        Database.bulkLoop games
          (Database.mkBulkResults (Database.success results ++ [result])
                                  (Database.failed results)) w1
    | (w1, Throw e) =>
        Database.bulkLoop games
          (Database.mkBulkResults (Database.success results)
             (Database.failed results ++ [(game, message e)])) w1
    end.
Proof.
  cbn [Database.bulkLoop]. unfold bind at 1, tryCatch, bind at 1, ret.
  destruct (Database.saveGame game w) as [w1 [v|e]]; reflexivity.
Qed.

(** Every game goes to one of the two lists; nothing is thrown. *)
Lemma bulkLoop_counts games results (w : World Remote) :
  exists out,
    snd (Database.bulkLoop games results w) = Normal out /\
    (length (Database.success out) + length (Database.failed out)
     = length (Database.success results) + length (Database.failed results)
       + length games)%nat /\
    storage (fst (Database.bulkLoop games results w)) = storage w.
Proof.
  revert results w. induction games as [|game games IH]; intros results w.
  - exists results. simpl. repeat split. lia.
  - rewrite bulkLoop_step.
    pose proof (saveGame_waits game w) as [Hst _].
    destruct (Database.saveGame game w) as [w1 [v|e]]; simpl in Hst.
    + destruct (IH (Database.mkBulkResults
                      (Database.success results ++ [v])
                      (Database.failed results)) w1)
        as (out & Hout & Hlen & Hs).
      exists out. split; [exact Hout|]. split; [|rewrite Hs; exact Hst].
      rewrite Hlen. simpl. rewrite length_app. simpl. lia.
    + destruct (IH (Database.mkBulkResults
                      (Database.success results)
                      (Database.failed results ++ [(game, message e)])) w1)
        as (out & Hout & Hlen & Hs).
      exists out. split; [exact Hout|]. split; [|rewrite Hs; exact Hst].
      rewrite Hlen. simpl. rewrite length_app. simpl. lia.
Qed.

(** Without a PIN every game fails, and the world is left alone. *)
Lemma bulkLoop_without_pin games results (w : World Remote) :
  Database.getUserPin w = None ->
  Database.bulkLoop games results w
  = (w, Normal (Database.mkBulkResults
                  (Database.success results)
                  (Database.failed results ++
                   map (fun game => (game, "No user PIN set")) games))).
Proof.
  intros Hpin. revert results.
  induction games as [|game games IH]; intros results.
  - simpl. rewrite app_nil_r. destruct results; reflexivity.
  - rewrite bulkLoop_step.
    unfold Database.saveGame at 1. rewrite Hpin.
    rewrite IH. cbn [Database.success Database.failed map message
                     Database.DatabaseError].
    now rewrite <- app_assoc.
Qed.
End BulkProperties.

(** X14.  [bulkSaveGames] never throws: it returns its two lists, and
    every game of the input is in exactly one of them as far as the
    counts go (saved or failed); local storage is left alone.  Without a
    PIN no game is saved: each one is listed as failed with the message
    [No user PIN set], in the order of the input, and the store is not
    contacted. *)
Theorem bulk_save_accounts_for_every_game :
  forall (Remote : Type) (F : Firestore Remote)
         (games : list GameRecord) (w : World Remote),
    (exists results,
        snd (Database.bulkSaveGames games w) = Normal results /\
        (length (Database.success results) + length (Database.failed results)
         = length games)%nat /\
        storage (fst (Database.bulkSaveGames games w)) = storage w) /\
    (Database.getUserPin w = None ->
     Database.bulkSaveGames games w
     = (w, Normal (Database.mkBulkResults []
                     (map (fun game => (game, "No user PIN set")) games)))).
Proof.
  intros Remote F games w. split.
  - destruct (bulkLoop_counts games (Database.mkBulkResults [] []) w)
      as (out & Hout & Hlen & Hs).
    exists out. split; [exact Hout|]. split; [exact Hlen | exact Hs].
  - intros Hpin. unfold Database.bulkSaveGames.
    now rewrite (bulkLoop_without_pin games _ w Hpin).
Qed.

(* ===================================================================== *)
(** * Properties of the list of saved games *)
(* ===================================================================== *)

(** Filtering out an index that no element has keeps the list. *)
Lemma filter_index_absent {A} (l : list A) (k : nat) (target : option nat) :
  (forall j, target <> Some (k + j)%nat) ->
  map snd
    (List.filter (fun p => negb (bool_decide (Some (fst p) = target)))
                 (imap (fun j x => ((k + j)%nat, x)) l))
  = l.
Proof.
  revert k. induction l as [|x l IH]; intros k Hk; [reflexivity|].
  cbn [imap List.filter fst].
  rewrite bool_decide_eq_false_2 by (intros E; apply (Hk 0%nat); now symmetry).
  cbn [negb map snd]. f_equal.
  rewrite (imap_ext _ (fun j x => ((S k + j)%nat, x)))
    by (intros j y _; simpl; f_equal; lia).
  apply IH. intros j E. apply (Hk (S j)). rewrite E. f_equal. lia.
Qed.

Lemma filter_index_present {A} (l : list A) (k i : nat) :
  map snd
    (List.filter (fun p => negb (bool_decide (Some (fst p) = Some (k + i)%nat)))
                 (imap (fun j x => ((k + j)%nat, x)) l))
  = take i l ++ drop (S i) l.
Proof.
  revert k i. induction l as [|x l IH]; intros k i.
  - now rewrite take_nil, drop_nil.
  - cbn [imap List.filter fst].
    rewrite (imap_ext _ (fun j x => ((S k + j)%nat, x)))
      by (intros j y _; simpl; f_equal; lia).
    destruct i as [|i].
    + rewrite bool_decide_eq_true_2 by reflexivity.
      cbn [negb take drop app].
      apply filter_index_absent. intros j [= E]. lia.
    + rewrite bool_decide_eq_false_2 by (intros [= E]; lia).
      cbn [negb map snd take drop app]. f_equal.
      replace (k + S i)%nat with (S k + i)%nat by lia. apply IH.
Qed.

(** [filter((_, index) => index !== gameIndex)] removes the position
    [gameIndex], and nothing for the index [-1]. *)
Lemma withoutIndex_spec games :
  GameStats.withoutIndex None games = games /\
  forall i, GameStats.withoutIndex (Some i) games
            = take i games ++ drop (S i) games.
Proof.
  unfold GameStats.withoutIndex. split.
  - apply (filter_index_absent games 0 None). discriminate.
  - intros i. apply (filter_index_present games 0 i).
Qed.

(** The rows of the history: each one is a saved game with its position
    in [savedGames], and only games of the chosen opponent are shown. *)
Lemma filteredGames_row filterOpponent savedGames gameIndex actualIndex game :
  EditCommon.filteredGames filterOpponent savedGames !! gameIndex
  = Some (actualIndex, game) ->
  savedGames !! actualIndex = Some game /\
  (filterOpponent <> "" -> opponent game = Some filterOpponent).
Proof.
  unfold EditCommon.filteredGames. intros Hrow.
  assert (Hin : In (actualIndex, game)
                   (imap (fun i g => (i, g)) savedGames) /\
                (truthyStr filterOpponent = true ->
                 opponent game = Some filterOpponent)).
  { destruct (truthyStr filterOpponent).
    - apply list_elem_of_lookup_2, list_elem_of_In, filter_In in Hrow.
      destruct Hrow as [Hin Hopp]. split; [exact Hin|]. intros _.
      simpl in Hopp. destruct (opponent game) as [o|]; [|discriminate].
      apply String.eqb_eq in Hopp. now subst o.
    - apply list_elem_of_lookup_2, list_elem_of_In in Hrow.
      split; [exact Hrow | discriminate]. }
  destruct Hin as [Hin Hopp]. split.
  - apply list_elem_of_In, elem_of_lookup_imap_1 in Hin.
    destruct Hin as (i & y & [= -> ->] & Hi). exact Hi.
  - intros Hne. apply Hopp. unfold truthyStr.
    destruct (String.eqb_spec filterOpponent ""); [contradiction | reflexivity].
Qed.

Section DeleteProperties.
Context {Remote : Type} `{Firestore Remote}.

(** Writing the games to a local storage that accepts it. *)
Lemma saveToLocalStorage_stores pin games (w : World Remote) :
  writable (storage w) = true ->
  gamesItems (storage (GameStats.saveToLocalStorage pin games w))
    !! GameStats.savedGamesKey pin = Some games /\
  writable (storage (GameStats.saveToLocalStorage pin games w)) = true.
Proof.
  intros Hw. unfold GameStats.saveToLocalStorage. rewrite Hw.
  cbn [storage gamesItems writable]. split; [apply lookup_insert_eq | reflexivity].
Qed.

Lemma handleGameDelete_removes gameIndex st (w : World Remote) :
  GameStats.savedGames (fst (GameStats.handleGameDelete gameIndex st w))
  = GameStats.withoutIndex gameIndex (GameStats.savedGames st).
Proof.
  unfold GameStats.handleGameDelete.
  destruct (gameIndex ≫= _) as [game|]; [|reflexivity].
  destruct (if GameStats.isRemoteBacked game then _ else _) as [w1 [v|e]];
    reflexivity.
Qed.
End DeleteProperties.

(** X15.  Deleting a game of the history removes exactly that game.
    For a row of the history (under any opponent filter) whose deletion
    the user confirms, [handleDelete] passes the position of the shown
    game in [savedGames], and [handleGameDelete] leaves the saved games
    without that position, all others in order, whether or not the store
    could be reached; the new list is written to a local storage that
    accepts it.  A game that only exists locally is deleted without
    contacting the store, and without any alert. *)
Theorem history_delete_removes_the_shown_game :
  forall (Remote : Type) (F : Firestore Remote) (undefinedRead : JsError)
         (filterOpponent : string) (gameIndex actualIndex : nat)
         (game : GameRecord) (st : GameStats.State) (w : World Remote),
    EditCommon.filteredGames filterOpponent (GameStats.savedGames st)
      !! gameIndex = Some (actualIndex, game) ->
    let st' := fst (GameStats.handleGameDelete (Some actualIndex) st w) in
    let w' := snd (GameStats.handleGameDelete (Some actualIndex) st w) in
    GameHistory.handleDelete undefinedRead true (GameStats.savedGames st)
                             filterOpponent gameIndex
    = Normal (Some actualIndex) /\
    GameStats.savedGames st !! actualIndex = Some game /\
    GameStats.savedGames st'
    = take actualIndex (GameStats.savedGames st) ++
      drop (S actualIndex) (GameStats.savedGames st) /\
    S (length (GameStats.savedGames st')) = length (GameStats.savedGames st) /\
    (writable (storage w) = true ->
     gamesItems (storage w') !! GameStats.savedGamesKey (GameStats.userPin st)
     = Some (GameStats.savedGames st')) /\
    (GameStats.isRemoteBacked game = false ->
     remote w' = remote w /\ trace w' = trace w /\
     GameStats.alerts st' = GameStats.alerts st).
Proof.
  intros Remote F undefinedRead filterOpponent gameIndex actualIndex game
    st w Hrow. cbv zeta.
  destruct (filteredGames_row _ _ _ _ _ Hrow) as [Hgame _].
  split; [unfold GameHistory.handleDelete; now rewrite Hrow|].
  split; [exact Hgame|].
  rewrite handleGameDelete_removes.
  rewrite (proj2 (withoutIndex_spec (GameStats.savedGames st)) actualIndex).
  split; [reflexivity|]. split.
  { rewrite length_app, length_take, length_drop.
    apply lookup_lt_Some in Hgame. lia. }
  unfold GameStats.handleGameDelete. cbn [mbind option_bind].
  rewrite Hgame. cbn [mbind option_bind].
  rewrite (proj2 (withoutIndex_spec (GameStats.savedGames st)) actualIndex).
  split.
  - intros Hw.
    destruct (GameStats.isRemoteBacked game).
    + pose proof (deleteGame_waits (default "" (id game)) w) as [Hs _].
      destruct (Database.deleteGame (default "" (id game)) w)
        as [w1 [v|e]]; simpl in Hs; cbn [fst snd GameStats.savedGames
                                          GameStats.setSavedGames];
        apply saveToLocalStorage_stores; congruence.
    + cbn [fst snd GameStats.savedGames GameStats.setSavedGames].
      now apply saveToLocalStorage_stores.
  - intros Hlocal. rewrite Hlocal.
    cbn [fst snd GameStats.alerts GameStats.setSavedGames].
    unfold GameStats.saveToLocalStorage.
    destruct (writable (storage w)); repeat split.
Qed.

(** Two saved games, the second one local only; under the filter
    [Rovers] the only row is the second game, and deleting it leaves the
    first. *)
Lemma history_delete_removes_the_shown_game_witness :
  GameStats.savedGames
    (fst (@GameStats.handleGameDelete unit (Scenarios.failing "unavailable")
            (Some 1%nat) Scenarios.twoSavedGames (Scenarios.world 0)))
  = take 1 (GameStats.savedGames Scenarios.twoSavedGames) ++
    drop 2 (GameStats.savedGames Scenarios.twoSavedGames).
Proof.
  apply (history_delete_removes_the_shown_game
           unit (Scenarios.failing "unavailable")
           (mkError "TypeError" "game is undefined" None)
           "Rovers" 0%nat 1%nat
           (GameStats.localGame 5 Scenarios.session)
           Scenarios.twoSavedGames (Scenarios.world 0)).
  reflexivity.
Defined.

(* ===================================================================== *)
(** * Properties of the local copy of the saved games *)
(* ===================================================================== *)

Section LocalCopy.
Context {Remote : Type} `{Firestore Remote}.

(** A save that goes ahead writes the list it shows to local storage. *)
Lemma saveGame_stores_locally confirmAnswer st (w : World Remote) :
  writable (storage w) = true ->
  (0 <? length (GameStats.validateStats (GameStats.stats st)))%nat
    && negb confirmAnswer = false ->
  gamesItems (storage (snd (GameStats.saveGame confirmAnswer st w)))
    !! GameStats.savedGamesKey (GameStats.userPin st)
  = Some (GameStats.savedGames (fst (GameStats.saveGame confirmAnswer st w))) /\
  GameStats.userPin (fst (GameStats.saveGame confirmAnswer st w))
  = GameStats.userPin st.
Proof.
  intros Hw Hgo. unfold GameStats.saveGame. rewrite Hgo.
  pose proof (saveGame_waits (GameStats.buildGame st) w) as [Hs _].
  destruct (Database.saveGame (GameStats.buildGame st) w)
    as [w1 [[saved|]|e]]; simpl in Hs;
    cbn [fst snd GameStats.savedGames GameStats.resetStats GameStats.userPin];
    (split; [|reflexivity]);
    apply saveToLocalStorage_stores; congruence.
Qed.

(** The key of the local copy determines the PIN. *)
Lemma savedGamesKey_inj p q :
  GameStats.savedGamesKey p = GameStats.savedGamesKey q -> p = q.
Proof. unfold GameStats.savedGamesKey. apply String.app_inj. Qed.

(** Writing the games of one PIN leaves the PIN item and the games of
    every other PIN alone. *)
Lemma saveToLocalStorage_other pin other games (w : World Remote) :
  other <> pin ->
  pinItem (storage (GameStats.saveToLocalStorage pin games w))
  = pinItem (storage w) /\
  gamesItems (storage (GameStats.saveToLocalStorage pin games w))
    !! GameStats.savedGamesKey other
  = gamesItems (storage w) !! GameStats.savedGamesKey other.
Proof.
  intros Hne. unfold GameStats.saveToLocalStorage.
  destruct (writable (storage w)); [|split; reflexivity].
  cbn [storage pinItem gamesItems]. split; [reflexivity|].
  apply lookup_insert_ne. intros E. apply savedGamesKey_inj in E. congruence.
Qed.
End LocalCopy.

(** X16.  The saved games survive an offline reload.  When a save goes
    ahead on a local storage that accepts writes, the list of saved
    games it shows (with the new record, whether the store took it or
    not) is the list the session shows after a later load that cannot
    reach the store: the load falls back to the local copy of this PIN,
    marks the sync status as an error, and ends the loading state. *)
Theorem saved_games_survive_an_offline_reload :
  forall (Remote : Type) (F : Firestore Remote)
         (confirmAnswer loading : bool) (st : GameStats.State)
         (w w2 : World Remote),
    writable (storage w) = true ->
    (0 <? length (GameStats.validateStats (GameStats.stats st)))%nat
      && negb confirmAnswer = false ->
    storage w2 = storage (snd (GameStats.saveGame confirmAnswer st w)) ->
    isThrow (snd (Database.loadGames w2)) = true ->
    let st1 := fst (GameStats.saveGame confirmAnswer st w) in
    let v := fst (GameStats.loadGamesFromFirebase
                    (GameStats.mkView st1 loading) w2) in
    GameStats.savedGames (GameStats.session v) = GameStats.savedGames st1 /\
    GameStats.syncStatus (GameStats.session v) = GameStats.error /\
    GameStats.isLoading v = false.
Proof.
  intros Remote F confirmAnswer loading st w w2 Hw Hgo Hsame Hfail. cbv zeta.
  destruct (saveGame_stores_locally confirmAnswer st w Hw Hgo) as [Hstored Hpin].
  unfold GameStats.loadGamesFromFirebase.
  pose proof (loadGames_waits w2) as [Hs _].
  destruct (Database.loadGames w2) as [w3 [games|e]]; [discriminate|].
  simpl in Hs. cbn [fst GameStats.session].
  rewrite Hs, Hsame, Hpin, Hstored. repeat split.
Qed.

(** The store is unreachable for the save and for the reload: the game
    saved locally is shown again. *)
Lemma saved_games_survive_an_offline_reload_witness :
  GameStats.savedGames
    (GameStats.session
       (fst (@GameStats.loadGamesFromFirebase unit
               (Scenarios.failing "unavailable")
               (GameStats.mkView
                  (fst (@GameStats.saveGame unit
                          (Scenarios.failing "unavailable") true
                          Scenarios.session (Scenarios.world 0)))
                  true)
               (snd (@GameStats.saveGame unit
                       (Scenarios.failing "unavailable") true
                       Scenarios.session (Scenarios.world 0))))))
  = [GameStats.localGame 3000 Scenarios.session].
Proof.
  apply (saved_games_survive_an_offline_reload
           unit (Scenarios.failing "unavailable") true true Scenarios.session
           (Scenarios.world 0)
           (snd (@GameStats.saveGame unit (Scenarios.failing "unavailable")
                   true Scenarios.session (Scenarios.world 0))));
    reflexivity.
Defined.

(** X17.  The local copies are kept apart by PIN.  Saving a game,
    storing an edited game and deleting a game write the list of the
    session's own PIN only: the games kept in local storage for any other
    PIN are the same afterwards, and so is the PIN item itself. *)
Theorem local_copies_are_kept_apart_by_pin :
  forall (Remote : Type) (F : Firestore Remote) (other : string)
         (confirmAnswer : bool) (gameIndex : option nat)
         (updatedGame : GameRecord) (st : GameStats.State) (w : World Remote),
    other <> GameStats.userPin st ->
    let same (w' : World Remote) :=
      pinItem (storage w') = pinItem (storage w) /\
      gamesItems (storage w') !! GameStats.savedGamesKey other
      = gamesItems (storage w) !! GameStats.savedGamesKey other in
    same (snd (GameStats.saveGame confirmAnswer st w)) /\
    same (snd (GameStats.handleGameUpdate gameIndex updatedGame st w)) /\
    same (snd (GameStats.handleGameDelete gameIndex st w)).
Proof.
  intros Remote F other confirmAnswer gameIndex updatedGame st w Hne. cbv zeta.
  assert (Hwrite : forall games (w0 : World Remote),
             storage w0 = storage w ->
             pinItem (storage (GameStats.saveToLocalStorage
                                 (GameStats.userPin st) games w0))
             = pinItem (storage w) /\
             gamesItems (storage (GameStats.saveToLocalStorage
                                    (GameStats.userPin st) games w0))
               !! GameStats.savedGamesKey other
             = gamesItems (storage w) !! GameStats.savedGamesKey other).
  { intros games w0 Hs.
    destruct (saveToLocalStorage_other (GameStats.userPin st) other games w0 Hne)
      as [H1 H2].
    rewrite H1, H2, Hs. split; reflexivity. }
  split; [|split].
  - unfold GameStats.saveGame.
    destruct (_ && negb confirmAnswer); [split; reflexivity|].
    pose proof (saveGame_waits (GameStats.buildGame st) w) as [Hs _].
    destruct (Database.saveGame (GameStats.buildGame st) w)
      as [w1 [[saved|]|e]]; simpl in Hs; cbn [snd]; apply Hwrite, Hs.
  - unfold GameStats.handleGameUpdate.
    destruct (gameIndex ≫= _) as [game|]; [|apply Hwrite; reflexivity].
    assert (Hs : storage
                   (fst (if GameStats.isRemoteBacked game
                         then Database.updateGame (default "" (id game))
                                                  updatedGame w
                         else (w, Normal None))) = storage w).
    { destruct (GameStats.isRemoteBacked game); [|reflexivity].
      apply updateGame_waits. }
    destruct (if GameStats.isRemoteBacked game then _ else _) as [w1 c].
    simpl in Hs.
    destruct c as [v|e], gameIndex as [i|]; cbn [snd]; apply Hwrite, Hs.
  - unfold GameStats.handleGameDelete.
    destruct (gameIndex ≫= _) as [game|]; [|apply Hwrite; reflexivity].
    assert (Hs : storage
                   (fst (if GameStats.isRemoteBacked game
                         then Database.deleteGame (default "" (id game)) w
                         else (w, Normal None))) = storage w).
    { destruct (GameStats.isRemoteBacked game); [|reflexivity].
      apply deleteGame_waits. }
    destruct (if GameStats.isRemoteBacked game then _ else _) as [w1 c].
    simpl in Hs.
    destruct c as [v|e]; cbn [snd]; apply Hwrite, Hs.
Qed.

(** The session of PIN 1234 saves a game; the games kept for PIN 5678
    are not touched. *)
Lemma local_copies_are_kept_apart_by_pin_witness :
  gamesItems
    (storage (snd (@GameStats.saveGame unit (Scenarios.failing "unavailable")
                     true Scenarios.session (Scenarios.world 0))))
    !! GameStats.savedGamesKey "5678"
  = gamesItems (storage (Scenarios.world 0)) !! GameStats.savedGamesKey "5678".
Proof.
  apply (local_copies_are_kept_apart_by_pin
           unit (Scenarios.failing "unavailable") "5678" true (Some 0%nat)
           Scenarios.sampleGame Scenarios.session (Scenarios.world 0)).
  discriminate.
Defined.

(* ===================================================================== *)
(** * Properties of the clock texts and of the edit form *)
(* ===================================================================== *)

Lemma split_without sep s :
  Spec.without sep s = true -> split sep s = [s].
Proof.
  induction s as [|c s IH]; simpl; [reflexivity|].
  intros Hs. apply andb_true_iff in Hs. destruct Hs as [Hc Hs].
  apply negb_true_iff in Hc. rewrite Hc, (IH Hs). reflexivity.
Qed.

Lemma split_append sep a b :
  Spec.without sep a = true ->
  split sep (a +:+ String sep b) = a :: split sep b.
Proof.
  induction a as [|c a IH]; simpl.
  - intros _. now rewrite Ascii.eqb_refl.
  - intros Ha. apply andb_true_iff in Ha. destruct Ha as [Hc Ha].
    apply negb_true_iff in Hc. rewrite Hc, (IH Ha). reflexivity.
Qed.

Lemma without_append c a b :
  Spec.without c a = true -> Spec.without c b = true ->
  Spec.without c (a +:+ b) = true.
Proof.
  induction a as [|x a IH]; simpl; [auto|].
  intros Ha Hb. apply andb_true_iff in Ha. destruct Ha as [Hx Ha].
  now rewrite Hx, (IH Ha Hb).
Qed.

(** The decimal text of an integer holds no colon. *)
Lemma numToString_without_colon z : Spec.without ":" (numToString z) = true.
Proof.
  assert (Hd : forall d, Spec.without ":" (NilEmpty.string_of_uint d) = true).
  { induction d; simpl; auto. }
  assert (Hz : forall d, Spec.without ":" (NilZero.string_of_uint d) = true).
  { intros d. destruct d; try apply Hd. reflexivity. }
  unfold numToString. destruct (z <? 0); [|apply Hz].
  apply without_append; [reflexivity | apply Hz].
Qed.

Lemma padStart2_without_colon s :
  Spec.without ":" s = true -> Spec.without ":" (padStart2 s) = true.
Proof.
  intros Hs. unfold padStart2.
  destruct (String.length s) as [|[|n]]; [| |exact Hs];
    (apply without_append; [reflexivity | exact Hs]).
Qed.

Lemma truthyStr_append a c b : truthyStr (a +:+ String c b) = true.
Proof. destruct a; reflexivity. Qed.

(** [v || 0] and the sums and products of integers. *)
Lemma orZero_ofZ z : orZero (ofZ z) = ofZ z.
Proof. destruct z; reflexivity. Qed.

Lemma add_ofZ a b : add (ofZ a) (ofZ b) = ofZ (a + b).
Proof.
  unfold add, ofZ, inject_Z, Qplus. simpl. now rewrite !Z.mul_1_r.
Qed.

Lemma mul_ofZ a b : mul (ofZ a) (ofZ b) = ofZ (a * b).
Proof. reflexivity. Qed.

(** Reading a clock text back. *)
Lemma parse_clock_text StringToNumber n :
  0 <= n ->
  Spec.readsClock StringToNumber n ->
  GameHistory.parseTimeToSeconds StringToNumber
    (numToString (n / 60) +:+ ":" +:+ padStart2 (numToString (Z.rem n 60)))
  = ofZ n.
Proof.
  intros Hn [Hm Hs]. unfold GameHistory.parseTimeToSeconds.
  change (":" +:+ ?x) with (String ":" x).
  rewrite truthyStr_append. cbn [negb].
  rewrite (split_append ":" _ _ (numToString_without_colon (n / 60))).
  rewrite (split_without ":" _
             (padStart2_without_colon _
                (numToString_without_colon (Z.rem n 60)))).
  cbn [map]. rewrite Hm, Hs, orZero_ofZ, mul_ofZ, add_ofZ.
  f_equal. rewrite Z.rem_mod_nonneg by lia.
  pose proof (Z.div_mod n 60). lia.
Qed.

(** X18.  A clock text reads back as the seconds it was written from:
    for a non-negative number of seconds, [parseTimeToSeconds] of the
    text [M:SS] written by [formatSecondsToTime] (or by [formatTime] of
    the live session) is that number, provided [Number] reads the two
    decimal parts back; the empty text counts as 0 seconds. *)
Theorem clock_text_reads_back :
  forall (StringToNumber : string -> JsNum) (n : Z),
    0 <= n ->
    Spec.readsClock StringToNumber n ->
    GameHistory.parseTimeToSeconds StringToNumber
      (GameHistory.formatSecondsToTime n) = ofZ n /\
    GameHistory.parseTimeToSeconds StringToNumber (GameStats.formatTime n)
    = ofZ n /\
    GameHistory.parseTimeToSeconds StringToNumber "" = ofZ 0.
Proof.
  intros StringToNumber n Hn Hreads.
  split; [|split].
  - apply (parse_clock_text StringToNumber n Hn Hreads).
  - apply (parse_clock_text StringToNumber n Hn Hreads).
  - reflexivity.
Qed.

(** 1530 seconds are written [25:30] and read back as 1530. *)
Lemma clock_text_reads_back_witness :
  GameHistory.parseTimeToSeconds Scenarios.numberOfDigits
    (GameHistory.formatSecondsToTime 1530) = ofZ 1530.
Proof.
  apply (clock_text_reads_back Scenarios.numberOfDigits 1530).
  - lia.
  - split; reflexivity.
Defined.

(** X19.  Opening the edit form on a game saved by the live session and
    saving it without a change gives the same record: every field of the
    record written by [saveEdit] (texts, counters, score, result, goal
    history, times, derived totals and rates, id and metadata) is the
    field of the game, provided [Number] reads the played time back. *)
Theorem unchanged_edit_keeps_the_record :
  forall (StringToNumber : string -> JsNum) (st : GameStats.State)
         (i : option string) (m : Metadata),
    0 <= GameStats.playerMinutes st ->
    Spec.readsClock StringToNumber (GameStats.playerMinutes st) ->
    let game := with_id i (with_meta m (GameStats.buildGame st)) in
    Spec.sameRecord
      (GameHistory.updatedGame StringToNumber game
                               (GameHistory.startEditing game))
      game.
Proof.
  intros StringToNumber st i m Hn Hreads. cbv zeta.
  unfold Spec.sameRecord.
  cbn [GameHistory.updatedGame GameHistory.startEditing with_id with_meta
       GameStats.buildGame id date playerName opponent gameType numeric
       gameResult goalHistory timer playerMinutesPlayed playerSecondsPlayed
       gameNotes derived meta
       GameHistory.date GameHistory.playerName GameHistory.opponent
       GameHistory.numbers GameHistory.playerMinutesPlayed
       GameHistory.gameNotes GameHistory.goalHistory
       EditCommon.orEmpty from_option our their].
  unfold Datatypes.id.
  assert (Htime : truthyStr (GameStats.formatTime (GameStats.playerMinutes st))
                  = true).
  { unfold GameStats.formatTime. change (":" +:+ ?x) with (String ":" x).
    apply truthyStr_append. }
  rewrite Htime. cbn [from_option]. unfold Datatypes.id.
  repeat split.
  - intros [x| |]; try reflexivity.
    unfold EditCommon.spreadNumbers, EditCommon.initialNumbers.
    change (numeric (with_id i (with_meta m (GameStats.buildGame st))) (Stat x))
      with (Some (ofZ (GameStats.stats st x))).
    destruct (EditCommon.isFormField (Stat x)); [|reflexivity].
    cbn [EditCommon.orZeroOpt]. now rewrite orZero_ofZ.
  - f_equal. unfold GameStats.formatTime.
    apply (parse_clock_text StringToNumber _ Hn Hreads).
  - unfold EditCommon.recomputed, EditCommon.initialNumbers.
    change (EditCommon.isFormField (Stat goalsLeft)) with true.
    change (EditCommon.isFormField (Stat goalsRight)) with true.
    change (EditCommon.isFormField (Stat shotsLeft)) with true.
    change (EditCommon.isFormField (Stat shotsRight)) with true.
    change (EditCommon.isFormField (Stat cornerConversions)) with true.
    change (EditCommon.isFormField (Stat cornersTaken)) with true.
    assert (Hnum : forall x,
               numeric (with_id i (with_meta m (GameStats.buildGame st)))
                       (Stat x)
               = Some (ofZ (GameStats.stats st x))) by reflexivity.
    rewrite !Hnum. cbn [EditCommon.orZeroOpt].
    rewrite !orZero_ofZ, !add_ofZ. reflexivity.
Qed.

(** The sample session after 1530 seconds of play. *)
Lemma unchanged_edit_keeps_the_record_witness :
  Spec.sameRecord
    (GameHistory.updatedGame Scenarios.numberOfDigits
       (with_id (Some "doc0")
          (with_meta (mkMetadata (Some 5) (Some 5) (Some "1.0") (Some "1234"))
             (GameStats.buildGame
                (GameStats.handlePlayerTimeUpdate 1530 Scenarios.session))))
       (GameHistory.startEditing
          (with_id (Some "doc0")
             (with_meta (mkMetadata (Some 5) (Some 5) (Some "1.0") (Some "1234"))
                (GameStats.buildGame
                   (GameStats.handlePlayerTimeUpdate 1530 Scenarios.session))))))
    (with_id (Some "doc0")
       (with_meta (mkMetadata (Some 5) (Some 5) (Some "1.0") (Some "1234"))
          (GameStats.buildGame
             (GameStats.handlePlayerTimeUpdate 1530 Scenarios.session)))).
Proof.
  apply (unchanged_edit_keeps_the_record Scenarios.numberOfDigits
           (GameStats.handlePlayerTimeUpdate 1530 Scenarios.session)
           (Some "doc0")
           (mkMetadata (Some 5) (Some 5) (Some "1.0") (Some "1234"))).
  - simpl. lia.
  - split; reflexivity.
Defined.

(* ===================================================================== *)
(** * Properties of the PIN *)
(* ===================================================================== *)

Lemma removeNonDigits_allDigits s :
  PinEntry.allDigits (PinEntry.removeNonDigits s) = true.
Proof.
  induction s as [|c s IH]; simpl; [reflexivity|].
  destruct (PinEntry.isDigit c) eqn:E; [|exact IH].
  simpl. now rewrite E, IH.
Qed.

Lemma substring_allDigits n s :
  PinEntry.allDigits s = true ->
  PinEntry.allDigits (substring 0 n s) = true.
Proof.
  revert n. induction s as [|c s IH]; intros n Hs.
  - destruct n; reflexivity.
  - simpl in Hs. apply andb_true_iff in Hs. destruct Hs as [Hc Hs].
    destruct n as [|n]; simpl; [reflexivity|].
    now rewrite Hc, (IH n Hs).
Qed.

Lemma substring_length n s :
  String.length (substring 0 n s) = Nat.min n (String.length s).
Proof.
  revert n. induction s as [|c s IH]; intros n.
  - destruct n; reflexivity.
  - destruct n as [|n]; simpl; [reflexivity|]. now rewrite IH.
Qed.

Section PinFormProperties.
Context {Parent : Type}.
Variable onPinSubmit : string -> Parent -> Parent * Completion unit.

Lemma pinForm_step ev (sp : PinEntry.State * Parent) :
  Spec.pinFormInvariant (fst sp) ->
  Spec.pinFormInvariant (fst (PinEntry.step onPinSubmit ev sp)).
Proof.
  intros (Hd & Hl & Hp & He). destruct ev as [value|now|now]; simpl.
  - repeat split.
    + apply substring_allDigits, removeNonDigits_allDigits.
    + cbn [PinEntry.pin PinEntry.handleInputChange].
      rewrite substring_length. lia.
    + exact Hp.
    + discriminate.
  - destruct (PinEntry.submitDisabled (fst sp)); [repeat split; assumption|].
    unfold PinEntry.handleSubmit, PinEntry.fourDigits.
    destruct (String.length (PinEntry.pin (fst sp)) =? 4)%nat eqn:E4;
      cbn [negb andb].
    + rewrite Hd. cbn [negb]. repeat split; try assumption.
      * cbn [PinEntry.pendingSubmit]. apply Forall_app. split; [exact Hp|].
        constructor; [|constructor]. cbn [snd].
        unfold PinEntry.fourDigits. now rewrite E4, Hd.
      * discriminate.
    + repeat split; try assumption. discriminate.
  - unfold PinEntry.timersFire.
    destruct (PinEntry.runCallbacks _ _ _ _) as [submitting p'].
    repeat split; try assumption.
    cbn [fst PinEntry.pendingSubmit].
    apply Forall_forall. intros d Hin.
    apply list_elem_of_In, filter_In in Hin. destruct Hin as [Hin _].
    rewrite Forall_forall in Hp. apply Hp. now apply list_elem_of_In.
Qed.

Lemma pinForm_run evs (sp : PinEntry.State * Parent) :
  Spec.pinFormInvariant (fst sp) ->
  Spec.pinFormInvariant (fst (PinEntry.run onPinSubmit evs sp)).
Proof.
  unfold PinEntry.run. revert sp.
  induction evs as [|ev evs IH]; intros sp Hinv; simpl; [exact Hinv|].
  apply IH, pinForm_step, Hinv.
Qed.
End PinFormProperties.

(** The recording parent receives the PINs of the due submissions. *)
Lemma runCallbacks_record due submitting calls :
  snd (PinEntry.runCallbacks Spec.recordPin due submitting calls)
  = calls ++ due.
Proof.
  revert submitting calls. induction due as [|p due IH]; intros s calls; simpl.
  - now rewrite app_nil_r.
  - rewrite IH. now rewrite <- app_assoc.
Qed.

(** X20.  Only PINs of exactly four decimal digits leave the PIN form.
    Whatever is typed or pasted into the field, whenever the form is
    submitted and whenever the delayed submissions run, the field holds
    at most four digits, every pending submission carries four digits,
    the error about characters other than digits is never shown, and
    every PIN handed to [onPinSubmit] consists of exactly four decimal
    digits. *)
Theorem pin_form_submits_four_digits :
  forall (Parent : Type)
         (onPinSubmit : string -> Parent -> Parent * Completion unit)
         (evs : list PinEntry.Event) (p : Parent),
    Spec.pinFormInvariant
      (fst (PinEntry.run onPinSubmit evs (PinEntry.initial, p))) /\
    Forall (fun pin => PinEntry.fourDigits pin = true)
           (snd (PinEntry.run Spec.recordPin evs (PinEntry.initial, []))).
Proof.
  intros Parent onPinSubmit evs p.
  assert (Hinit : Spec.pinFormInvariant PinEntry.initial).
  { repeat split; [simpl; lia | constructor | discriminate]. }
  split; [apply pinForm_run; exact Hinit|].
  assert (Hgen : forall sp : PinEntry.State * list string,
             Spec.pinFormInvariant (fst sp) ->
             Forall (fun pin => PinEntry.fourDigits pin = true) (snd sp) ->
             Forall (fun pin => PinEntry.fourDigits pin = true)
                    (snd (PinEntry.run Spec.recordPin evs sp))).
  { unfold PinEntry.run.
    induction evs as [|ev evs IH]; intros sp Hinv Hcalls; simpl; [exact Hcalls|].
    apply IH; [apply pinForm_step, Hinv|].
    destruct ev as [value|now|now]; simpl; try exact Hcalls.
    unfold PinEntry.timersFire.
    pose proof (runCallbacks_record
                  (map snd (List.filter (fun d => fst d <=? now)
                                        (PinEntry.pendingSubmit (fst sp))))
                  (PinEntry.isSubmitting (fst sp)) (snd sp)) as Hrec.
    destruct (PinEntry.runCallbacks _ _ _ _) as [submitting calls].
    cbn [snd] in Hrec |- *. rewrite Hrec.
    apply Forall_app. split; [exact Hcalls|].
    destruct Hinv as (_ & _ & Hp & _).
    apply Forall_forall. intros pin Hin.
    apply list_elem_of_In, in_map_iff in Hin. destruct Hin as (d & <- & Hd).
    apply filter_In in Hd. destruct Hd as [Hd _].
    rewrite Forall_forall in Hp. apply Hp. now apply list_elem_of_In. }
  apply Hgen; [exact Hinit | constructor].
Qed.

(** X21.  A PIN entered in the form is the PIN of the next start.
    When at least four digits are typed (among any other characters),
    the form is submitted, the delay has passed and local storage
    accepts writes, the application shows the statistics of the PIN made
    of the first four digits, [gameService] reports that PIN, and a
    fresh start of the application finds the PIN and shows its
    statistics at once. *)
Theorem submitted_pin_is_the_pin_of_the_next_start :
  forall (Remote : Type) (setItemError : JsError) (value : string)
         (now later : Z) (app : App.State) (w : World Remote),
    (4 <= String.length (PinEntry.removeNonDigits value))%nat ->
    writable (storage w) = true ->
    now + 500 <= later ->
    let pin := substring 0 4 (PinEntry.removeNonDigits value) in
    let result :=
      PinEntry.run (App.handlePinSubmit setItemError)
        [PinEntry.Change value; PinEntry.Submit now; PinEntry.TimersFire later]
        (PinEntry.initial, (app, w)) in
    let app' := fst (snd result) in
    let w' := snd (snd result) in
    PinEntry.fourDigits pin = true /\
    App.userPin app' = Some pin /\
    Database.getCurrentPin w' = Some pin /\
    Database.hasPin w' = true /\
    App.render (App.checkPin App.initial w') = App.Stats pin.
Proof.
  intros Remote setItemError value now later app w Hlen Hw Hlater. cbv zeta.
  set (pin := substring 0 4 (PinEntry.removeNonDigits value)).
  assert (Hl4 : String.length pin = 4%nat).
  { unfold pin. rewrite substring_length. lia. }
  assert (Hdigits : PinEntry.allDigits pin = true)
    by apply substring_allDigits, removeNonDigits_allDigits.
  assert (Hfour : PinEntry.fourDigits pin = true).
  { unfold PinEntry.fourDigits. now rewrite Hl4, Hdigits. }
  assert (Htruthy : truthyStr pin = true).
  { destruct pin; [discriminate Hl4 | reflexivity]. }
  split; [exact Hfour|].
  set (onPinSubmit := App.handlePinSubmit setItemError).
  assert (Hchange : PinEntry.step onPinSubmit (PinEntry.Change value)
                      (PinEntry.initial, (app, w))
                    = (PinEntry.mkState pin false "" [], (app, w)))
    by reflexivity.
  assert (Hsubmit : PinEntry.step onPinSubmit (PinEntry.Submit now)
                      (PinEntry.mkState pin false "" [], (app, w))
                    = (PinEntry.mkState pin true "" [(now + 500, pin)],
                       (app, w))).
  { unfold PinEntry.step, PinEntry.submitDisabled, PinEntry.handleSubmit.
    cbn [fst snd PinEntry.isSubmitting PinEntry.pin PinEntry.pendingSubmit orb].
    rewrite Hl4, Hfour. reflexivity. }
  set (w1 := mkWorld (remote w) (clock w)
               (mkLocalStorage (Some pin) (gamesItems (storage w))
                               (lastSyncItem (storage w)) true)
               (trace w)).
  assert (Hfire : PinEntry.step onPinSubmit (PinEntry.TimersFire later)
                    (PinEntry.mkState pin true "" [(now + 500, pin)], (app, w))
                  = (PinEntry.mkState pin false "" [],
                     (App.mkState (Some pin) (App.isCheckingPin app), w1))).
  { unfold PinEntry.step, PinEntry.timersFire.
    cbn [fst snd PinEntry.pendingSubmit PinEntry.isSubmitting PinEntry.pin
         PinEntry.error List.filter].
    destruct (Z.leb_spec (now + 500) later); [|lia].
    cbn [negb map snd PinEntry.runCallbacks].
    unfold onPinSubmit, App.handlePinSubmit, Database.setPin,
      Database.setUserPin.
    cbn [fst snd]. rewrite Hw. reflexivity. }
  unfold PinEntry.run. cbn [fold_left].
  rewrite Hchange, Hsubmit, Hfire. cbn [fst snd App.userPin].
  assert (Hget : Database.getUserPin w1 = Some pin).
  { unfold Database.getUserPin, w1. cbn [storage pinItem].
    now rewrite Htruthy. }
  unfold App.checkPin, Database.hasPin, Database.getCurrentPin.
  rewrite !Hget. repeat split.
  unfold App.render. cbn [App.isCheckingPin App.userPin].
  now rewrite Htruthy.
Qed.

(** [12a34-5] is typed: the PIN is 1234. *)
Lemma submitted_pin_is_the_pin_of_the_next_start_witness :
  App.render
    (App.checkPin App.initial
       (snd (snd (PinEntry.run
                    (App.handlePinSubmit
                       (mkError "QuotaExceededError" "quota exceeded" None))
                    [PinEntry.Change "12a34-5"; PinEntry.Submit 0;
                     PinEntry.TimersFire 500]
                    (PinEntry.initial,
                     (App.checkPin App.initial
                        (mkWorld tt 0 (mkLocalStorage None ∅ None true) []),
                      mkWorld tt 0 (mkLocalStorage None ∅ None true) []))))))
  = App.Stats "1234".
Proof.
  apply (submitted_pin_is_the_pin_of_the_next_start
           unit (mkError "QuotaExceededError" "quota exceeded" None)
           "12a34-5" 0 500
           (App.checkPin App.initial
              (mkWorld tt 0 (mkLocalStorage None ∅ None true) []))
           (mkWorld tt 0 (mkLocalStorage None ∅ None true) []));
    [simpl; lia | reflexivity | lia].
Defined.

(* ===================================================================== *)
(** * Properties of the game history *)
(* ===================================================================== *)

(** Filtering the indexed games by a test on the game. *)
Lemma filter_indexed {A} (test : A -> bool) (l : list A) (k : nat) :
  map snd (List.filter (fun p => test (snd p))
                       (imap (fun i x => ((k + i)%nat, x)) l))
  = List.filter test l.
Proof.
  revert k. induction l as [|x l IH]; intros k; [reflexivity|].
  cbn [imap List.filter snd].
  rewrite (imap_ext _ (fun i x => ((S k + i)%nat, x)))
    by (intros i y _; simpl; f_equal; lia).
  destruct (test x); cbn [map snd]; now rewrite IH.
Qed.

Lemma indexed_games {A} (l : list A) (k : nat) :
  map snd (imap (fun i x => ((k + i)%nat, x)) l) = l.
Proof.
  revert k. induction l as [|x l IH]; intros k; [reflexivity|].
  cbn [imap map snd]. f_equal.
  rewrite (imap_ext _ (fun i x => ((S k + i)%nat, x)))
    by (intros i y _; simpl; f_equal; lia).
  apply IH.
Qed.

(** X22.  The opponent filter of the history.  The dropdown offers each
    opponent of the saved games once, and no empty name; choosing one of
    them shows the games against that opponent, in the order of the saved
    games, and at least one game; [All Opponents] shows every game. *)
Theorem opponent_filter_shows_the_games_of_the_opponent :
  forall savedGames : list GameRecord,
    NoDup (GameHistory.opponents savedGames) /\
    (forall o, In o (GameHistory.opponents savedGames) <->
               o <> "" /\ exists g, In g savedGames /\ opponent g = Some o) /\
    (forall o, In o (GameHistory.opponents savedGames) ->
               map snd (EditCommon.filteredGames o savedGames)
               = List.filter
                   (fun g => match opponent g with
                             | Some o' => String.eqb o' o
                             | None => false
                             end) savedGames /\
               EditCommon.filteredGames o savedGames <> []) /\
    map snd (EditCommon.filteredGames "" savedGames) = savedGames.
Proof.
  intros savedGames.
  destruct (unique_spec (List.filter truthyStr (omap opponent savedGames)))
    as [Hn Hin].
  assert (Hmem : forall o, In o (GameHistory.opponents savedGames) <->
                           o <> "" /\
                           exists g, In g savedGames /\ opponent g = Some o).
  { intros o. unfold GameHistory.opponents. rewrite Hin, filter_In.
    rewrite <- list_elem_of_In, list_elem_of_omap. split.
    - intros [(g & Hg & Ho) Ht]. split.
      + intros ->. discriminate Ht.
      + exists g. split; [now apply list_elem_of_In | exact Ho].
    - intros [Hne (g & Hg & Ho)]. split.
      + exists g. split; [now apply list_elem_of_In | exact Ho].
      + unfold truthyStr.
        destruct (String.eqb_spec o ""); [contradiction | reflexivity]. }
  split; [exact Hn|]. split; [exact Hmem|]. split.
  - intros o Ho. apply Hmem in Ho. destruct Ho as [Hne (g & Hg & Ho)].
    assert (Ht : truthyStr o = true).
    { unfold truthyStr.
      destruct (String.eqb_spec o ""); [contradiction | reflexivity]. }
    unfold EditCommon.filteredGames. rewrite Ht.
    assert (Hshown :
              map snd
                (List.filter
                   (fun p : nat * GameRecord =>
                      match opponent (snd p) with
                      | Some o' => String.eqb o' o
                      | None => false
                      end)
                   (imap (fun i g => (i, g)) savedGames))
              = List.filter
                  (fun g => match opponent g with
                            | Some o' => String.eqb o' o
                            | None => false
                            end) savedGames).
    { apply (filter_indexed
               (fun g => match opponent g with
                         | Some o' => String.eqb o' o
                         | None => false
                         end) savedGames 0). }
    split; [exact Hshown|].
    intros Hempty. rewrite Hempty in Hshown. simpl in Hshown.
    assert (Hg' : In g (List.filter
                          (fun g => match opponent g with
                                    | Some o' => String.eqb o' o
                                    | None => false
                                    end) savedGames)).
    { apply filter_In. split; [exact Hg|]. rewrite Ho. apply String.eqb_refl. }
    rewrite <- Hshown in Hg'. exact Hg'.
  - unfold EditCommon.filteredGames. cbn [truthyStr String.eqb negb].
    apply (indexed_games savedGames 0).
Qed.

Lemma with_id_same g : with_id (id g) g = g.
Proof. destruct g; reflexivity. Qed.

(** X23.  Saving an edit replaces exactly the game that is shown.  For
    a row of the history (under any opponent filter), [saveEdit] passes
    the position of the shown game in [savedGames] and a record that
    keeps the id and the metadata of that game; [handleGameUpdate] then
    puts this record at that position, whether or not the store could be
    reached, and leaves the number of games and every other game as they
    are.  A game that only exists locally is stored without contacting
    the store, and without any alert. *)
Theorem history_edit_replaces_the_shown_game :
  forall (Remote : Type) (F : Firestore Remote)
         (StringToNumber : string -> JsNum) (filterOpponent : string)
         (editingGame actualIndex : nat) (game : GameRecord)
         (form : GameHistory.EditForm) (st : GameStats.State)
         (w : World Remote),
    EditCommon.filteredGames filterOpponent (GameStats.savedGames st)
      !! editingGame = Some (actualIndex, game) ->
    let updated := GameHistory.updatedGame StringToNumber game form in
    let st' := fst (GameStats.handleGameUpdate (Some actualIndex) updated st w) in
    let w' := snd (GameStats.handleGameUpdate (Some actualIndex) updated st w) in
    GameHistory.saveEdit StringToNumber true (GameStats.savedGames st)
                         filterOpponent editingGame form
    = Some (Some actualIndex, updated) /\
    id updated = id game /\ meta updated = meta game /\
    GameStats.savedGames st'
    = <[actualIndex := updated]> (GameStats.savedGames st) /\
    length (GameStats.savedGames st') = length (GameStats.savedGames st) /\
    (forall j, j <> actualIndex ->
               GameStats.savedGames st' !! j = GameStats.savedGames st !! j) /\
    (GameStats.isRemoteBacked game = false ->
     remote w' = remote w /\ trace w' = trace w /\
     GameStats.alerts st' = GameStats.alerts st).
Proof.
  intros Remote F StringToNumber filterOpponent editingGame actualIndex game
    form st w Hrow. cbv zeta.
  destruct (filteredGames_row _ _ _ _ _ Hrow) as [Hgame _].
  set (updated := GameHistory.updatedGame StringToNumber game form).
  split.
  { unfold GameHistory.saveEdit.
    replace ((0 <? length (EditCommon.validateStats (GameHistory.numbers form)))%nat
             && negb true) with false by now rewrite andb_false_r.
    rewrite Hrow. reflexivity. }
  split; [reflexivity|]. split; [reflexivity|].
  assert (Hsaved : GameStats.savedGames
                     (fst (GameStats.handleGameUpdate (Some actualIndex)
                             updated st w))
                   = <[actualIndex := updated]> (GameStats.savedGames st)).
  { unfold GameStats.handleGameUpdate. cbn [mbind option_bind].
    rewrite Hgame.
    destruct (if GameStats.isRemoteBacked game then _ else _) as [w1 [v|e]];
      cbn [fst GameStats.savedGames]; [|reflexivity].
    change (id game) with (id updated). now rewrite with_id_same. }
  rewrite Hsaved. split; [reflexivity|].
  split; [apply length_insert|].
  split; [intros j Hj; apply list_lookup_insert_ne; congruence|].
  intros Hlocal. unfold GameStats.handleGameUpdate. cbn [mbind option_bind].
  rewrite Hgame, Hlocal. cbn [fst snd GameStats.alerts].
  unfold GameStats.saveToLocalStorage.
  destruct (writable (storage w)); repeat split.
Qed.

(** The two saved games under the filter [Rovers]: the row shown is the
    second game, which is local only. *)
Lemma history_edit_replaces_the_shown_game_witness :
  GameStats.savedGames
    (fst (@GameStats.handleGameUpdate unit (Scenarios.failing "unavailable")
            (Some 1%nat)
            (GameHistory.updatedGame Scenarios.numberOfDigits
               (GameStats.localGame 5 Scenarios.session)
               (GameHistory.startEditing
                  (GameStats.localGame 5 Scenarios.session)))
            Scenarios.twoSavedGames (Scenarios.world 0)))
  = <[1%nat := GameHistory.updatedGame Scenarios.numberOfDigits
                 (GameStats.localGame 5 Scenarios.session)
                 (GameHistory.startEditing
                    (GameStats.localGame 5 Scenarios.session))]>
      (GameStats.savedGames Scenarios.twoSavedGames).
Proof.
  apply (history_edit_replaces_the_shown_game
           unit (Scenarios.failing "unavailable") Scenarios.numberOfDigits
           "Rovers" 0%nat 1%nat (GameStats.localGame 5 Scenarios.session)
           (GameHistory.startEditing (GameStats.localGame 5 Scenarios.session))
           Scenarios.twoSavedGames (Scenarios.world 0)).
  reflexivity.
Defined.

(* ===================================================================== *)
(** * What the store is given, and what the service returns *)
(* ===================================================================== *)

(** The validated record: the input with its numeric fields coerced and
    the two metadata fields set. *)
Lemma validateGameData_shape now g validated :
  Database.validateGameData now g = Normal validated ->
  exists n,
    validated
    = with_meta (mkMetadata (createdAt (meta g)) (Some now) (Some "1.0")
                            (Model.userPin (meta g)))
                (with_numeric n g) /\
    forall f, n f = Database.sanitizeValue <$> numeric g f.
Proof.
  intros Hv.
  destruct (Database.missing g) as [|x xs] eqn:Hm.
  2: { destruct (validateGameData_rejects now g) as (e & He & _);
         [congruence | congruence]. }
  rewrite (validateGameData_value now g Hm) in Hv. cbv zeta in Hv.
  pose proof (sanitized_numeric g) as Hnum.
  destruct (sanitize_fold_shape Database.numericFields g) as [n Hn].
  generalize dependent (fold_left Database.sanitizeField Database.numericFields g).
  intros sanitized Hv Hnum Hn. subst sanitized.
  injection Hv as <-. exists n. split; [reflexivity|].
  intros f. rewrite <- Hnum. reflexivity.
Qed.

Section Returned.
Context {Remote : Type} `{Firestore Remote}.

Lemma saveGame_result gameData (w w1 : World Remote) saved :
  Database.saveGame gameData w = (w1, Normal (Some saved)) ->
  exists pin docId n,
    Database.getUserPin w = Some pin /\
    (forall f, n f = Database.sanitizeValue <$> numeric gameData f) /\
    saved
    = with_id (Some (default docId (id gameData)))
        (with_meta (mkMetadata (Some (clock w)) (Some (clock w)) (Some "1.0")
                               (Some pin))
                   (with_numeric n gameData)).
Proof.
  unfold Database.saveGame.
  destruct (Database.getUserPin w) as [pin|]; [|discriminate].
  unfold tryCatch, bind at 1, liftC.
  destruct (Database.validateGameData (clock w) gameData) as [validated|e0] eqn:Hv;
    [|discriminate].
  unfold bind at 1, getClock.
  destruct (validateGameData_shape _ _ _ Hv) as (n & -> & Hn).
  match goal with
  | |- context [Database.withRetry ?op _ _ w] =>
      destruct (Database.withRetry op Database.maxRetries_default
                  Database.delay_default w) as [w' [[v|]|e]] eqn:E
  end; try discriminate.
  intros [= <- <-].
  apply withRetry_value in E. destruct E as (w0 & w0' & Hop).
  unfold bind, onRemote, ret in Hop.
  destruct (addDoc _ (remote w0)) as [r [docId|e]]; [|discriminate].
  injection Hop as _ <-.
  exists pin, docId, n. split; [reflexivity|]. split; [exact Hn|]. reflexivity.
Qed.

Lemma updateGame_result gameId gameData (w w1 : World Remote) saved :
  Database.updateGame gameId gameData w = (w1, Normal (Some saved)) ->
  exists pin n,
    Database.getUserPin w = Some pin /\
    (forall f, n f = Database.sanitizeValue <$> numeric gameData f) /\
    saved
    = with_id (Some (default gameId (id gameData)))
        (with_meta (mkMetadata (createdAt (meta gameData)) (Some (clock w))
                               (Some "1.0") (Some pin))
                   (with_numeric n gameData)).
Proof.
  unfold Database.updateGame.
  destruct (Database.getUserPin w) as [pin|]; [|discriminate].
  unfold tryCatch, bind at 1, liftC.
  destruct (Database.validateGameData (clock w) gameData) as [validated|e0] eqn:Hv;
    [|discriminate].
  unfold bind at 1, getClock.
  destruct (validateGameData_shape _ _ _ Hv) as (n & -> & Hn).
  match goal with
  | |- context [Database.withRetry ?op _ _ w] =>
      destruct (Database.withRetry op Database.maxRetries_default
                  Database.delay_default w) as [w' [[v|]|e]] eqn:E
  end; try discriminate.
  intros [= <- <-].
  apply withRetry_value in E. destruct E as (w0 & w0' & Hop).
  unfold bind, onRemote, ret in Hop.
  destruct (updateDoc _ _ (remote w0)) as [r [[]|e]]; [|discriminate].
  injection Hop as _ <-.
  exists pin, n. split; [reflexivity|]. split; [exact Hn|]. reflexivity.
Qed.
End Returned.

(** X24.  What [saveGame] and [updateGame] return.  The record returned
    by a successful [saveGame] is the record given, with its numeric
    fields coerced, the PIN of the device as [userPin], the time of the
    call as [createdAt] and [lastModified], the version [1.0], and the id
    of the new document (or the id the record already carried).  The
    record returned by a successful [updateGame] keeps the [createdAt] of
    the record given and takes the time of the call as [lastModified];
    its id is the id the record carries, or else the id of the document
    updated.  All other fields are those of the record given. *)
Theorem service_returns_the_stamped_record :
  forall (Remote : Type) (F : Firestore Remote)
         (gameData : GameRecord) (gameId : string)
         (w w1 : World Remote) (saved : GameRecord),
    (Database.saveGame gameData w = (w1, Normal (Some saved)) ->
     exists pin docId n,
       Database.getUserPin w = Some pin /\
       (forall f, n f = Database.sanitizeValue <$> numeric gameData f) /\
       saved
       = with_id (Some (default docId (id gameData)))
           (with_meta (mkMetadata (Some (clock w)) (Some (clock w))
                                  (Some "1.0") (Some pin))
                      (with_numeric n gameData))) /\
    (Database.updateGame gameId gameData w = (w1, Normal (Some saved)) ->
     exists pin n,
       Database.getUserPin w = Some pin /\
       (forall f, n f = Database.sanitizeValue <$> numeric gameData f) /\
       saved
       = with_id (Some (default gameId (id gameData)))
           (with_meta (mkMetadata (createdAt (meta gameData)) (Some (clock w))
                                  (Some "1.0") (Some pin))
                      (with_numeric n gameData))).
Proof.
  intros Remote F gameData gameId w w1 saved. split.
  - apply saveGame_result.
  - apply updateGame_result.
Qed.

Lemma sanitizeValue_idempotent v :
  Database.sanitizeValue (Database.sanitizeValue v) = Database.sanitizeValue v.
Proof.
  destruct (sanitizeValue_cases v) as [[-> ->]|(z & Hz & ->)].
  - reflexivity.
  - now apply sanitizeValue_count.
Qed.

(** X25.  Validation is idempotent.  A record that [validateGameData]
    returned passes a second validation, which leaves every field as it
    is, the time stamp [lastModified] apart: the required fields are
    kept, a counter that is absent stays absent and a counter that was
    coerced is not changed again. *)
Theorem validation_is_idempotent :
  forall (now later : Z) (gameData validated : GameRecord),
    Database.validateGameData now gameData = Normal validated ->
    exists again,
      Database.validateGameData later validated = Normal again /\
      (forall f, numeric again f = numeric validated f) /\
      with_numeric (numeric validated) again
      = with_meta (mkMetadata (createdAt (meta validated)) (Some later)
                              (version (meta validated))
                              (Model.userPin (meta validated)))
                  validated.
Proof.
  intros now later gameData validated Hv.
  assert (Hm : Database.missing gameData = []).
  { destruct (Database.missing gameData) as [|x xs] eqn:Hm; [reflexivity|].
    destruct (validateGameData_rejects now gameData) as (e & He & _);
      congruence. }
  destruct (validateGameData_shape _ _ _ Hv) as (n & -> & Hn).
  assert (Hm' : Database.missing
                  (with_meta (mkMetadata (createdAt (meta gameData)) (Some now)
                                (Some "1.0") (Model.userPin (meta gameData)))
                     (with_numeric n gameData)) = []) by exact Hm.
  destruct (validateGameData_accepts later _ Hm') as (again & Ha & _).
  destruct (validateGameData_shape _ _ _ Ha) as (n' & -> & Hn').
  eexists. split; [exact Ha|]. split.
  - intros f. cbn [numeric with_meta with_numeric] in *.
    rewrite Hn'. cbn [numeric with_meta with_numeric]. rewrite Hn.
    destruct (numeric gameData f) as [v|]; [|reflexivity].
    simpl. now rewrite sanitizeValue_idempotent.
  - reflexivity.
Qed.

(** A record with a negative counter and a counter that is not whole. *)
Lemma validation_is_idempotent_witness :
  exists again,
    Database.validateGameData 9 Scenarios.roughValidated = Normal again /\
    numeric again (Stat goalsLeft) = Some (ofZ 0) /\
    numeric again (Stat assists) = Some (ofZ 2).
Proof.
  destruct (validation_is_idempotent 5 9 Scenarios.roughGame
              Scenarios.roughValidated)
    as (again & Ha & Hnum & _).
  - vm_compute. reflexivity.
  - exists again. split; [exact Ha|]. rewrite !Hnum. split; reflexivity.
Defined.

(* ===================================================================== *)
(** * Validation warnings and the record of the season *)
(* ===================================================================== *)

Lemma validateStats_silent (s : StatName -> Z) :
  GameStats.validateStats s = [] <->
  s goalsLeft <= s shotsLeft /\
  s goalsRight <= s shotsRight /\
  s cornerConversions <= s cornersTaken /\
  s offensive1v1Won <= s offensive1v1Attempts /\
  s defensive1v1Won <= s defensive1v1Attempts /\
  s freeKicksMade <= s freeKicksTaken /\
  s defensiveFailures <= s defensiveTackles /\
  s defensiveDistribution <= s defensiveDisruption.
Proof.
  unfold GameStats.validateStats.
  repeat match goal with
         | |- context [?a >? ?b] =>
             let E := fresh "E" in
             destruct (Z.gtb_spec a b) as [E|E]
         end;
    simpl; split; intros Hx;
    try discriminate; try reflexivity; try lia.
Qed.

(** X26.  The warning before a save.  The save asks the user exactly
    when one of the eight counted successes exceeds its attempts (goals
    over shots for each foot, corner conversions over corners, 1v1 won
    over attempts for both sides, free kicks made over taken, defensive
    failures over tackles, distribution over disruption).  When none
    does, the answer is never used; when one does and the user declines,
    the session, the store, the local copy and the trace stay as they
    were. *)
Theorem save_asks_only_about_excess_counters :
  forall (Remote : Type) (F : Firestore Remote)
         (st : GameStats.State) (w : World Remote),
    let s := GameStats.stats st in
    let inRange :=
      s goalsLeft <= s shotsLeft /\
      s goalsRight <= s shotsRight /\
      s cornerConversions <= s cornersTaken /\
      s offensive1v1Won <= s offensive1v1Attempts /\
      s defensive1v1Won <= s defensive1v1Attempts /\
      s freeKicksMade <= s freeKicksTaken /\
      s defensiveFailures <= s defensiveTackles /\
      s defensiveDistribution <= s defensiveDisruption in
    (inRange -> GameStats.saveGame false st w = GameStats.saveGame true st w) /\
    (~ inRange -> GameStats.saveGame false st w = (st, w)).
Proof.
  intros Remote F st w s inRange. split; intros Hr.
  - apply validateStats_silent in Hr.
    unfold GameStats.saveGame. fold s. rewrite Hr. reflexivity.
  - unfold GameStats.saveGame. fold s.
    destruct (GameStats.validateStats s) as [|x xs] eqn:Hw.
    + exfalso. apply Hr. now apply validateStats_silent.
    + reflexivity.
Qed.

Lemma season_record_step (r : GameResult) (g : GameRecord) games :
  length (List.filter (fun g => GameStats.isResult (gameResult g) r) (g :: games))
  = ((if GameStats.isResult (gameResult g) r then 1 else 0)
     + length (List.filter (fun g => GameStats.isResult (gameResult g) r) games))%nat.
Proof.
  simpl. destruct (GameStats.isResult (gameResult g) r); reflexivity.
Qed.

Lemma season_record_bounded games :
  (GameStats.wins games + GameStats.losses games + GameStats.ties games
   <= length games)%nat.
Proof.
  unfold GameStats.wins, GameStats.losses, GameStats.ties.
  induction games as [|g games IH]; [simpl; lia|].
  rewrite !season_record_step. simpl length.
  destruct (gameResult g) as [[]|]; simpl; lia.
Qed.

Section SeasonRecord.
Context {Remote : Type} `{Firestore Remote}.

(** A save that goes on puts one game in front of the saved games, with
    the result of the record assembled from the session. *)
Lemma saveGame_adds_result confirmAnswer st (w : World Remote) :
  (0 <? length (GameStats.validateStats (GameStats.stats st)))%nat
    && negb confirmAnswer = false ->
  exists g,
    GameStats.savedGames (fst (GameStats.saveGame confirmAnswer st w))
      = g :: GameStats.savedGames st /\
    gameResult g = gameResult (GameStats.buildGame st).
Proof.
  intros Hgo. unfold GameStats.saveGame. rewrite Hgo.
  pose proof (saveGame_never_undefined (GameStats.buildGame st) w) as Hdef.
  destruct (Database.saveGame (GameStats.buildGame st) w)
    as [w1 [[saved|]|e]] eqn:E; simpl in *.
  - exists saved. split; [reflexivity|].
    destruct (saveGame_result _ _ _ _ E) as (pin & docId & n & _ & _ & ->).
    reflexivity.
  - congruence.
  - eexists. split; reflexivity.
Qed.
End SeasonRecord.

(** X27.  The record of the season counts each saved game at most once,
    and a save that goes on adds one game to it: of the numbers of wins,
    losses and ties shown by the dashboard and written to the summary
    row, the one given by the goals logged (more of ours a win, fewer a
    loss, as many a tie) goes up by one and the other two stay, whether
    the store took the game or it was kept locally. *)
Theorem save_adds_one_game_to_the_season_record :
  forall (Remote : Type) (F : Firestore Remote)
         (confirmAnswer : bool) (st : GameStats.State) (w : World Remote),
    (0 <? length (GameStats.validateStats (GameStats.stats st)))%nat
      && negb confirmAnswer = false ->
    let games := GameStats.savedGames st in
    let games' :=
      GameStats.savedGames (fst (GameStats.saveGame confirmAnswer st w)) in
    let o := length (GameStats.ourGoals st) in
    let t := length (GameStats.theirGoals st) in
    (GameStats.wins games + GameStats.losses games + GameStats.ties games
     <= length games)%nat /\
    length games' = S (length games) /\
    GameStats.wins games'
      = (GameStats.wins games + if (t <? o)%nat then 1 else 0)%nat /\
    GameStats.losses games'
      = (GameStats.losses games + if (o <? t)%nat then 1 else 0)%nat /\
    GameStats.ties games'
      = (GameStats.ties games + if (o =? t)%nat then 1 else 0)%nat.
Proof.
  intros Remote F confirmAnswer st w Hgo games games' o t.
  split; [apply season_record_bounded|].
  destruct (saveGame_adds_result confirmAnswer st w Hgo) as (g & Hg & Hres).
  subst games'. rewrite Hg. fold games.
  unfold GameStats.wins, GameStats.losses, GameStats.ties.
  rewrite !season_record_step, Hres.
  split; [reflexivity|].
  cbn [gameResult GameStats.buildGame]. fold o t.
  destruct (Z.gtb_spec (Z.of_nat o) (Z.of_nat t)) as [Hgt|Hle].
  - replace (t <? o)%nat with true by (symmetry; apply Nat.ltb_lt; lia).
    replace (o <? t)%nat with false by (symmetry; apply Nat.ltb_ge; lia).
    replace (o =? t)%nat with false by (symmetry; apply Nat.eqb_neq; lia).
    simpl. lia.
  - destruct (Z.ltb_spec (Z.of_nat o) (Z.of_nat t)) as [Hlt|Hge].
    + replace (t <? o)%nat with false by (symmetry; apply Nat.ltb_ge; lia).
      replace (o <? t)%nat with true by (symmetry; apply Nat.ltb_lt; lia).
      replace (o =? t)%nat with false by (symmetry; apply Nat.eqb_neq; lia).
      simpl. lia.
    + replace (t <? o)%nat with false by (symmetry; apply Nat.ltb_ge; lia).
      replace (o <? t)%nat with false by (symmetry; apply Nat.ltb_ge; lia).
      replace (o =? t)%nat with true by (symmetry; apply Nat.eqb_eq; lia).
      simpl. lia.
Qed.

(** Three goals of ours and none of theirs: the first win of the season. *)
Lemma save_adds_one_game_to_the_season_record_witness :
  GameStats.wins
    (GameStats.savedGames
       (fst (@GameStats.saveGame _ Scenarios.memory true Scenarios.threeGoals
               (Scenarios.memoryWorld 0))))
  = 1%nat /\
  GameStats.losses
    (GameStats.savedGames
       (fst (@GameStats.saveGame _ Scenarios.memory true Scenarios.threeGoals
               (Scenarios.memoryWorld 0))))
  = 0%nat.
Proof.
  destruct (save_adds_one_game_to_the_season_record
              _ Scenarios.memory true Scenarios.threeGoals
              (Scenarios.memoryWorld 0) eq_refl)
    as (_ & _ & Hwins & Hlosses & _).
  split.
  - exact Hwins.
  - exact Hlosses.
Defined.
